(** * A/B-test evaluation core: metrics, inference and data validation

    A shallow embedding of [src/metrics/compute.py], [src/stats/inference.py]
    and [src/validation/checks.py], and the properties their specification
    states about them.

    Numbers.  A Python number is modelled by [num]: the value it holds and
    whether it is a builtin [int]/[float] or a numpy scalar.  The distinction
    decides what a division by zero does: between two builtin numbers it
    raises [ZeroDivisionError], as soon as one operand is a numpy scalar it
    yields [nan] or an infinity (with a warning only).  A value is a real
    number or one of the IEEE special values; finite arithmetic is exact
    (no rounding, no overflow) and zero carries no sign.

    Rounding.  The SRM check compares a computed statistic with a constant,
    and there the rounding of the doubles decides the outcome.  Its model
    rounds the result of every operation with a function [rnd]; the
    theorems assume of [rnd] what rounding to the nearest double has: it is
    monotone and leaves a double as it is ([Spec.rounds_to_nearest]).  The
    allocation ratio of the configuration is a Python float, so a double.

    The normal distribution.  [scipy.stats.norm.cdf] and [scipy.stats.norm.ppf]
    are not part of the repository: they are parameters [Phi] and [Qf] of the
    development, and each theorem lists the facts about them it relies on.

    Sorting.  [DataFrame.sort_values] is a parameter of
    [compute_segment_breakdown], which calls it with the column label
    ['control_n'] and [ascending=False]; the theorems assume of it what
    pandas documents for the default sort kind, for any integer column and
    either direction: a rearrangement of the rows that is sorted by that
    column in that direction ([Spec.sort_values_promise]).  The default
    kind is not stable, so nothing is assumed of the order of equal keys.

    Output.  What the code prints is left out; the message of a validation
    result is kept as the values it is formatted from.

    Reporting and generation.  Of [src/reporting/summary.py] the decision
    logic is embedded, the markdown around it is not; of
    [src/data_generation/generator.py] the constructor and the generation
    of the outcomes, with the random generator of numpy as a parameter. *)

From Stdlib Require Import Reals Lra Lia ZArith String List Bool.
From Stdlib Require Import Permutation Sorted.
Import ListNotations.

Set Implicit Arguments.

(* ================================================================= *)
(** ** Python values: exceptions, floats, numbers *)

Module py.

Inductive exn : Type :=
| ZeroDivisionError
| KeyError (keys : list string)
| TypeError
| ValueError.

Inductive result (A : Type) : Type :=
| Ok (a : A)
| Raise (e : exn).
Arguments Raise {A} e.

Definition bind {A B : Type} (c : result A) (k : A -> result B) : result B :=
  match c with
  | Ok a => k a
  | Raise e => Raise e
  end.

(** [for] loop whose body may raise: the first exception ends it. *)
Fixpoint mapM {A B : Type} (f : A -> result B) (l : list A) : result (list B) :=
  match l with
  | [] => Ok []
  | a :: l' =>
      match f a with
      | Ok b => match mapM f l' with
                | Ok bs => Ok (b :: bs)
                | Raise e => Raise e
                end
      | Raise e => Raise e
      end
  end.

(** IEEE values with exact finite arithmetic. *)
Inductive float : Type :=
| Fin (x : R)
| PInf
| NInf
| NaN.

Definition Rsign (x : R) : comparison :=
  match total_order_T x 0 with
  | inleft (left _) => Lt
  | inleft (right _) => Eq
  | inright _ => Gt
  end.

Definition fsign (a : float) : comparison :=
  match a with
  | Fin x => Rsign x
  | PInf => Gt
  | NInf => Lt
  | NaN => Eq
  end.

Definition sign_mul (c d : comparison) : comparison :=
  match c, d with
  | Eq, _ | _, Eq => Eq
  | Gt, Gt | Lt, Lt => Gt
  | _, _ => Lt
  end.

(** The infinity of a given sign; [Eq] stands for an invalid operation. *)
Definition inf_of (c : comparison) : float :=
  match c with
  | Gt => PInf
  | Lt => NInf
  | Eq => NaN
  end.

Definition fopp (a : float) : float :=
  match a with
  | Fin x => Fin (- x)
  | PInf => NInf
  | NInf => PInf
  | NaN => NaN
  end.

Definition fadd (a b : float) : float :=
  match a, b with
  | NaN, _ | _, NaN => NaN
  | Fin x, Fin y => Fin (x + y)
  | PInf, NInf | NInf, PInf => NaN
  | PInf, _ | _, PInf => PInf
  | NInf, _ | _, NInf => NInf
  end.

Definition fsub (a b : float) : float := fadd a (fopp b).

Definition fmul (a b : float) : float :=
  match a, b with
  | NaN, _ | _, NaN => NaN
  | Fin x, Fin y => Fin (x * y)
  | _, _ => inf_of (sign_mul (fsign a) (fsign b))
  end.

(** IEEE division: a zero divisor gives an infinity, or [nan] for 0/0. *)
Definition fdiv (a b : float) : float :=
  match a, b with
  | NaN, _ | _, NaN => NaN
  | Fin x, Fin y => if Req_dec_T y 0 then inf_of (Rsign x) else Fin (x / y)
  | Fin _, _ => Fin 0
  | _, Fin y => match Rsign y with Lt => fopp a | _ => a end
  | _, _ => NaN
  end.

Definition fsqrt (a : float) : float :=
  match a with
  | Fin x => if Rlt_dec x 0 then NaN else Fin (sqrt x)
  | PInf => PInf
  | NInf => NaN
  | NaN => NaN
  end.

Definition fabs (a : float) : float :=
  match a with
  | Fin x => Fin (Rabs x)
  | PInf | NInf => PInf
  | NaN => NaN
  end.

(** Comparison; every comparison with [nan] is false. *)
Definition flt (a b : float) : bool :=
  match a, b with
  | NaN, _ | _, NaN => false
  | Fin x, Fin y => if Rlt_dec x y then true else false
  | NInf, NInf | PInf, _ | _, NInf => false
  | _, _ => true
  end.

Definition fis_zero (a : float) : bool :=
  match a with
  | Fin x => if Req_dec_T x 0 then true else false
  | _ => false
  end.

(** A distribution function [Phi] on IEEE values, as [scipy] extends it. *)
Definition fcdf (Phi : R -> R) (a : float) : float :=
  match a with
  | Fin r => Fin (Phi r)
  | PInf => Fin 1
  | NInf => Fin 0
  | NaN => NaN
  end.

(** A quantile function [Qf] on IEEE values: defined inside (0,1),
    infinite at 0 and 1, [nan] elsewhere. *)
Definition fppf (Qf : R -> R) (a : float) : float :=
  match a with
  | Fin r =>
      if Rlt_dec 0 r then
        if Rlt_dec r 1 then Fin (Qf r)
        else if Req_dec_T r 1 then PInf else NaN
      else if Req_dec_T r 0 then NInf else NaN
  | _ => NaN
  end.

(** Builtin Python number or numpy scalar. *)
Inductive kind : Type := Builtin | Numpy.

Definition join (k1 k2 : kind) : kind :=
  match k1, k2 with
  | Builtin, Builtin => Builtin
  | _, _ => Numpy
  end.

Record num : Type := Num { kind_of : kind; val : float }.

(** An [int] literal or value, a [float] literal, a numpy scalar. *)
Definition int (z : Z) : num := Num Builtin (Fin (IZR z)).
Definition lit (x : R) : num := Num Builtin (Fin x).
Definition np_int (z : Z) : num := Num Numpy (Fin (IZR z)).

Definition add (a b : num) : num :=
  Num (join (kind_of a) (kind_of b)) (fadd (val a) (val b)).
Definition sub (a b : num) : num :=
  Num (join (kind_of a) (kind_of b)) (fsub (val a) (val b)).
Definition mul (a b : num) : num :=
  Num (join (kind_of a) (kind_of b)) (fmul (val a) (val b)).

(** [a / b]: [ZeroDivisionError] between builtin numbers, IEEE otherwise. *)
Definition truediv (a b : num) : result num :=
  match kind_of a, kind_of b with
  | Builtin, Builtin =>
      if fis_zero (val b) then Raise ZeroDivisionError
      else Ok (Num Builtin (fdiv (val a) (val b)))
  | _, _ => Ok (Num Numpy (fdiv (val a) (val b)))
  end.

(** [a ** 2] *)
Definition pow2 (a : num) : num := mul a a.

(** [abs(a)] *)
Definition abs (a : num) : num := Num (kind_of a) (fabs (val a)).

(** [a < b], [a > b] *)
Definition ltb (a b : num) : bool := flt (val a) (val b).
Definition gtb (a b : num) : bool := flt (val b) (val a).

(** Truth value of a number: false exactly for zero. *)
Definition truthy (a : num) : bool := negb (fis_zero (val a)).

(** [np.sqrt(a)] *)
Definition np_sqrt (a : num) : num := Num Numpy (fsqrt (val a)).

(** Rounding.  An operation on floats returns the double nearest to its
    exact result.  Where the model follows this rounding it takes it as a
    function [rnd] on the real numbers and applies it to the result of
    every operation. *)
Definition fround (rnd : R -> R) (a : float) : float :=
  match a with
  | Fin x => Fin (rnd x)
  | _ => a
  end.

Definition fl (rnd : R -> R) (a : num) : num :=
  Num (kind_of a) (fround rnd (val a)).

(** A double of magnitude at most 2^53: an integer of at most 53 bits
    over a power of two. *)
Definition double (x : R) : Prop :=
  exists (m : Z) (e : nat),
    (Z.abs m <= 2 ^ 53)%Z /\ (e <= 1074)%nat /\ x = (IZR m / 2 ^ e)%R.

End py.

Import py.

Declare Scope py_scope.
Delimit Scope py_scope with py.
Bind Scope py_scope with num.
Notation "x <- c ;; k" := (bind c (fun x => k))
  (at level 61, c at next level, right associativity) : py_scope.
Notation "' ( x , y ) <- c ;; k" := (bind c (fun '(x, y) => k))
  (at level 61, x name, y name, c at next level, right associativity) : py_scope.
Infix "+" := add : py_scope.
Infix "-" := sub : py_scope.
Infix "*" := mul : py_scope.
Infix "/" := truediv : py_scope.
Infix "<?" := ltb : py_scope.
Infix ">?" := gtb : py_scope.

(* ================================================================= *)
(** ** The part of [pandas] the code uses

    A [DataFrame] is its list of column labels and its rows; a row gives the
    cell of each label.  Cells are booleans, strings or missing.  A [Series]
    is the list of cells of one column.  The dtype of a column is not
    tracked: the sum and the mean of a column are numpy scalars. *)

Module pd.

Inductive cell : Type :=
| Null
| Bool (b : bool)
| Str (s : string).

Definition cell_eq_dec (a b : cell) : {a = b} + {a <> b}.
Proof. decide equality; [apply Bool.bool_dec | apply string_dec]. Defined.

(** Identity of values, as [unique], [set] and [groupby] see it. *)
Definition same (a b : cell) : bool :=
  if cell_eq_dec a b then true else false.

(** Elementwise [==]: a missing value equals nothing. *)
Definition eqb (a b : cell) : bool :=
  match a with
  | Null => false
  | _ => same a b
  end.

Definition isnull (a : cell) : bool :=
  match a with Null => true | _ => false end.

Definition row : Type := string -> cell.

Record DataFrame : Type := { columns : list string; rows : list row }.

Definition Series : Type := list cell.

(** [col in df.columns] *)
Definition has_column (df : DataFrame) (col : string) : bool :=
  existsb (String.eqb col) (columns df).

(** [len(df)] *)
Definition len (df : DataFrame) : Z := Z.of_nat (length (rows df)).

(** [df[col]] *)
Definition getitem (df : DataFrame) (col : string) : result Series :=
  if has_column df col then Ok (map (fun r : row => r col) (rows df))
  else Raise (KeyError [col]).

(** [df[cols]] for a list of labels: the labels that are missing are
    reported together. *)
Definition getitems (df : DataFrame) (cols : list string) : result DataFrame :=
  match filter (fun c => negb (has_column df c)) cols with
  | [] => Ok {| columns := cols; rows := rows df |}
  | missing => Raise (KeyError missing)
  end.

(** [df[df[col] == v]] *)
Definition where_eq (df : DataFrame) (col : string) (v : cell)
  : result DataFrame :=
  if has_column df col then
    Ok {| columns := columns df;
          rows := filter (fun r : row => eqb (r col) v) (rows df) |}
  else Raise (KeyError [col]).

(** [df[df[col]]]: selection by a boolean column; a mask holding anything
    but booleans is rejected. *)
Definition where_true (df : DataFrame) (col : string) : result DataFrame :=
  if has_column df col then
    if forallb (fun r : row => match r col with Bool _ => true | _ => false end)
               (rows df)
    then Ok {| columns := columns df;
               rows := filter (fun r : row => same (r col) (Bool true)) (rows df) |}
    else Raise ValueError
  else Raise (KeyError [col]).

Definition count_true (s : Series) : Z :=
  Z.of_nat (length (filter (same (Bool true)) s)).

Definition count_notnull (s : Series) : Z :=
  Z.of_nat (length (filter (fun c => negb (isnull c)) s)).

Definition has_str (s : Series) : bool :=
  existsb (fun c => match c with Str _ => true | _ => false end) s.

(** [s.sum()] of a column of booleans: the number of [True], a numpy
    integer; missing values are skipped. *)
Definition Series_sum (s : Series) : result num :=
  if has_str s then Raise TypeError else Ok (np_int (count_true s)).

(** [s.mean()]: over the values that are not missing; [nan] when there
    are none. *)
Definition Series_mean (s : Series) : result num :=
  if has_str s then Raise TypeError
  else Ok (Num Numpy (fdiv (Fin (IZR (count_true s)))
                           (Fin (IZR (count_notnull s))))).

(** [s.isnull().sum()] *)
Definition Series_isnull_sum (s : Series) : Z :=
  Z.of_nat (length (filter isnull s)).

(** [s.unique()]: the distinct values in the order they first occur. *)
Fixpoint Series_unique (s : Series) : list cell :=
  match s with
  | [] => []
  | c :: s' => c :: filter (fun d => negb (same d c)) (Series_unique s')
  end.

(** [s.value_counts()], as the mapping from each value that is not
    missing to the number of its occurrences. *)
Definition Series_value_counts (s : Series) : list (cell * Z) :=
  map (fun v => (v, Z.of_nat (length (filter (same v) s))))
      (filter (fun c => negb (isnull c)) (Series_unique s)).

(** [counts.get(key, 0)]: a numpy integer when present, the builtin
    default otherwise. *)
Definition get (counts : list (cell * Z)) (key : cell) (default : Z) : num :=
  match find (fun kv => same (fst kv) key) counts with
  | Some kv => np_int (snd kv)
  | None => int default
  end.

(** [df.groupby(key)[col].nunique()]: per value of [key] that is not
    missing, the number of distinct values of [col] that are not missing. *)
Definition groupby_nunique (df : DataFrame) (key col : string)
  : result (list (cell * Z)) :=
  if has_column df key then
    if has_column df col then
      Ok (map (fun k =>
                 (k, Z.of_nat (length (filter (fun c => negb (isnull c))
                        (Series_unique
                           (map (fun r : row => r col)
                              (filter (fun r : row => same (r key) k)
                                      (rows df))))))))
              (filter (fun c => negb (isnull c))
                      (Series_unique (map (fun r : row => r key) (rows df)))))
    else Raise (KeyError [col])
  else Raise (KeyError [key]).

End pd.

Import pd.

(* ================================================================= *)
(** ** [src/config.py] *)

Module config.

Record t : Type := Config {
  ALLOCATION_RATIO : num;
  CONFIDENCE_LEVEL : num
}.

(** The values the module defines. *)
Definition default : t :=
  {| ALLOCATION_RATIO := lit 0.5; CONFIDENCE_LEVEL := lit 0.95 |}.

End config.

(* ================================================================= *)
(** ** [src/metrics/compute.py]

    The sizes [control_n] and [treatment_n] of a [MetricReport] are builtin
    integers, as the dataclass declares them and as [len] returns them; the
    other numeric fields hold the numbers their producer computed, builtin
    or numpy. *)

Record MetricReport : Type := {
  metric_name : string;
  control_n : Z;
  control_successes : num;
  control_rate : num;
  treatment_n : Z;
  treatment_successes : num;
  treatment_rate : num;
  absolute_lift : num;
  relative_lift_pct : num
}.

(** One row of the frame [compute_segment_breakdown] returns. *)
Record SegmentRow : Type := {
  segment : cell;
  sr_control_n : Z;
  sr_control_rate : num;
  sr_treatment_n : Z;
  sr_treatment_rate : num;
  sr_absolute_lift : num;
  sr_relative_lift_pct : num
}.

Module MetricComputer.

Record t : Type := { df : DataFrame; eligible_only : bool }.

#[local] Open Scope py_scope.

(** [self.df = df[df['eligible']] if eligible_only else df] *)
Definition __init__ (df : DataFrame) (eligible_only : bool) : result t :=
  d <- (if eligible_only then where_true df "eligible" else Ok df) ;;
  Ok {| df := d; eligible_only := eligible_only |}.

Definition _compute_binary_metric (self : t) (metric_name outcome_col : string)
  : result MetricReport :=
  control <- where_eq (df self) "variant" (Str "control") ;;
  treatment <- where_eq (df self) "variant" (Str "treatment") ;;
  let control_n := len control in
  control_col <- getitem control outcome_col ;;
  control_successes <- Series_sum control_col ;;
  control_rate <- (if (0 <? control_n)%Z
                   then control_successes / int control_n
                   else Ok (int 0)) ;;
  let treatment_n := len treatment in
  treatment_col <- getitem treatment outcome_col ;;
  treatment_successes <- Series_sum treatment_col ;;
  treatment_rate <- (if (0 <? treatment_n)%Z
                     then treatment_successes / int treatment_n
                     else Ok (int 0)) ;;
  let absolute_lift := treatment_rate - control_rate in
  relative_lift_pct <- (if control_rate >? int 0
                        then q <- absolute_lift / control_rate ;;
                             Ok (q * int 100)
                        else Ok (int 0)) ;;
  Ok {| metric_name := metric_name;
        control_n := control_n;
        control_successes := control_successes;
        control_rate := control_rate;
        treatment_n := treatment_n;
        treatment_successes := treatment_successes;
        treatment_rate := treatment_rate;
        absolute_lift := absolute_lift;
        relative_lift_pct := relative_lift_pct |}.

Definition compute_ctr (self : t) : result MetricReport :=
  _compute_binary_metric self "CTR" "clicked".

Definition compute_cvr (self : t) : result MetricReport :=
  _compute_binary_metric self "CVR" "converted".

(** The body of the loop over the segments. *)
Definition segment_row (self : t) (metric_col segment_col : string)
    (segment : cell) : result SegmentRow :=
  segment_df <- where_eq (df self) segment_col segment ;;
  control <- where_eq segment_df "variant" (Str "control") ;;
  treatment <- where_eq segment_df "variant" (Str "treatment") ;;
  let control_n := len control in
  control_rate <- (if (0 <? control_n)%Z
                   then c <- getitem control metric_col ;; Series_mean c
                   else Ok (int 0)) ;;
  let treatment_n := len treatment in
  treatment_rate <- (if (0 <? treatment_n)%Z
                     then c <- getitem treatment metric_col ;; Series_mean c
                     else Ok (int 0)) ;;
  let lift := treatment_rate - control_rate in
  rel_lift <- (if control_rate >? int 0
               then q <- lift / control_rate ;; Ok (q * int 100)
               else Ok (int 0)) ;;
  Ok {| segment := segment;
        sr_control_n := control_n;
        sr_control_rate := control_rate;
        sr_treatment_n := treatment_n;
        sr_treatment_rate := treatment_rate;
        sr_absolute_lift := lift;
        sr_relative_lift_pct := rel_lift |}.

(** The columns of integers of the frame [pd.DataFrame(results)], by
    their label. *)
Definition results_column (label : string) : option (SegmentRow -> Z) :=
  if String.eqb label "control_n" then Some sr_control_n
  else if String.eqb label "treatment_n" then Some sr_treatment_n
  else None.

Section Sorting.

(** [frame.sort_values(by, ascending=ascending)] on a frame of segment
    rows, with [kind] left at its default.  pandas is not part of the
    repository: the method is a parameter, called with the label and the
    direction the code gives it. *)
Variable sort_values : string -> bool -> list SegmentRow -> list SegmentRow.

Definition compute_segment_breakdown (self : t) (metric_col segment_col : string)
  : result (list SegmentRow) :=
  segment_values <- getitem (df self) segment_col ;;
  let segments := Series_unique segment_values in
  results <- mapM (segment_row self metric_col segment_col) segments ;;
  match results with
  | [] => Raise (KeyError ["control_n"%string])
  | _ => Ok (sort_values "control_n" false results)
  end.

End Sorting.

End MetricComputer.

(* ================================================================= *)
(** ** [src/stats/inference.py] *)

Record InferenceReport : Type := {
  ir_metric_name : string;
  ir_control_rate : num;
  ir_treatment_rate : num;
  ir_absolute_lift : num;
  ir_relative_lift_pct : num;
  ci_lower : num;
  ci_upper : num;
  p_value : num;
  statistically_significant : bool;
  ir_confidence_level : num
}.

Module InferenceEngine.

Record t : Type := { confidence_level : num; alpha : num }.

(** [confidence_level or config.CONFIDENCE_LEVEL]: [None] and zero both
    select the configured level. *)
Definition __init__ (cfg : config.t) (confidence_level : option num) : t :=
  let cl := match confidence_level with
            | Some c => if truthy c then c else config.CONFIDENCE_LEVEL cfg
            | None => config.CONFIDENCE_LEVEL cfg
            end in
  {| confidence_level := cl; alpha := (int 1 - cl)%py |}.

Section Normal.

(** [Phi] is the standard normal distribution function, [Qf] its
    quantile function. *)
Variables Phi Qf : R -> R.

(** [stats.norm.cdf(x)] and [stats.norm.ppf(q)] return numpy scalars. *)
Definition norm_cdf (x : num) : num := Num Numpy (fcdf Phi (val x)).
Definition norm_ppf (q : num) : num := Num Numpy (fppf Qf (val q)).

#[local] Open Scope py_scope.

Definition _proportion_diff_ci (self : t) (p1 n1 p2 n2 : num)
  : result (num * num) :=
  let diff := p2 - p1 in
  v1 <- p1 * (int 1 - p1) / n1 ;;
  v2 <- p2 * (int 1 - p2) / n2 ;;
  let se := np_sqrt (v1 + v2) in
  a2 <- alpha self / int 2 ;;
  let z := norm_ppf (int 1 - a2) in
  let margin := z * se in
  let ci_lower := diff - margin in
  let ci_upper := diff + margin in
  Ok (ci_lower, ci_upper).

Definition _proportion_z_test (self : t) (x1 n1 x2 n2 : num) : result num :=
  p1 <- x1 / n1 ;;
  p2 <- x2 / n2 ;;
  p_pooled <- (x1 + x2) / (n1 + n2) ;;
  i1 <- int 1 / n1 ;;
  i2 <- int 1 / n2 ;;
  let se_null := np_sqrt (p_pooled * (int 1 - p_pooled) * (i1 + i2)) in
  z_stat <- (p2 - p1) / se_null ;;
  let p_value := int 2 * (int 1 - norm_cdf (abs z_stat)) in
  Ok p_value.

Definition analyze_metric (self : t) (metric_report : MetricReport)
  : result InferenceReport :=
  let n1 := int (control_n metric_report) in
  let x1 := control_successes metric_report in
  let p1 := control_rate metric_report in
  let n2 := int (treatment_n metric_report) in
  let x2 := treatment_successes metric_report in
  let p2 := treatment_rate metric_report in
  '(ci_lower, ci_upper) <- _proportion_diff_ci self p1 n1 p2 n2 ;;
  p_value <- _proportion_z_test self x1 n1 x2 n2 ;;
  let significant := p_value <? alpha self in
  Ok {| ir_metric_name := metric_name metric_report;
        ir_control_rate := p1;
        ir_treatment_rate := p2;
        ir_absolute_lift := absolute_lift metric_report;
        ir_relative_lift_pct := relative_lift_pct metric_report;
        ci_lower := ci_lower;
        ci_upper := ci_upper;
        p_value := p_value;
        statistically_significant := significant;
        ir_confidence_level := confidence_level self |}.

Definition compute_mde (self : t) (baseline_rate : num) (n_per_variant : Z)
    (power : num) : result num :=
  a2 <- alpha self / int 2 ;;
  let z_alpha := norm_ppf (int 1 - a2) in
  let z_beta := norm_ppf power in
  let p := baseline_rate in
  v <- int 2 * p * (int 1 - p) / int n_per_variant ;;
  let mde := (z_alpha + z_beta) * np_sqrt v in
  Ok mde.

End Normal.

End InferenceEngine.

(* ================================================================= *)
(** ** [src/validation/checks.py] *)

(** What a check reports: the values its message is formatted from. *)
Inductive Message : Type :=
| MissingColumns (missing : list string)
| AllColumnsPresent (n : nat)
| FoundNulls (problematic : list (string * Z))
| NoNulls
| InvalidVariants (invalid : list cell)
| ValidVariants (counts : list (cell * Z))
| SRMDetected (chi_square critical_value observed_control observed_treatment
               expected_control expected_treatment : num)
| NoSRM (chi_square pct_diff : num)
| Contaminated (n : nat)
| NoContamination
| LowEligibility (eligible_pct eligible_count : num) (total : Z)
| EligibilityRate (eligible_pct eligible_count : num) (total : Z).

Module ValidationResult.

Record t : Type := {
  check_name : string;
  passed : bool;
  message : Message;
  severity : string
}.

(** [ValidationResult(check_name, passed, message)]: [severity] defaults
    to ['error']. *)
Definition default (check_name : string) (passed : bool) (message : Message)
  : t :=
  {| check_name := check_name; passed := passed; message := message;
     severity := "error" |}.

End ValidationResult.

Module ValidationReport.

Record t : Type := { results : list ValidationResult.t }.

(** [all(r.passed for r in self.results if r.severity == 'error')] *)
Definition passed (self : t) : bool :=
  forallb ValidationResult.passed
    (filter (fun r => String.eqb (ValidationResult.severity r) "error")
            (results self)).

(** [[r for r in self.results if r.severity == 'warning' and not r.passed]] *)
Definition warnings (self : t) : list ValidationResult.t :=
  filter (fun r => String.eqb (ValidationResult.severity r) "warning"
                   && negb (ValidationResult.passed r))
         (results self).

End ValidationReport.

Module DataValidator.

Record t : Type := { df : DataFrame; results : list ValidationResult.t }.

Definition __init__ (df : DataFrame) : t := {| df := df; results := [] |}.

(** [self.results.append(r)] *)
Definition append (self : t) (r : ValidationResult.t) : t :=
  {| df := df self; results := results self ++ [r] |}.

#[local] Open Scope py_scope.

Definition required_cols : list string :=
  ["user_id"; "experiment_id"; "variant"; "assigned_at";
   "first_exposed_at"; "eligible"; "clicked"; "converted";
   "device_category"; "country"]%string.

Definition _check_schema (self : t) : result t :=
  let missing := filter (fun col => negb (has_column (df self) col))
                        required_cols in
  match missing with
  | _ :: _ =>
      Ok (append self (ValidationResult.default "Schema Check" false
                         (MissingColumns missing)))
  | [] =>
      Ok (append self (ValidationResult.default "Schema Check" true
                         (AllColumnsPresent (length required_cols))))
  end.

Definition required_non_null : list string :=
  ["user_id"; "variant"; "eligible"; "clicked"; "converted"]%string.

Definition _check_nulls (self : t) : result t :=
  sub <- getitems (df self) required_non_null ;;
  let null_counts :=
    map (fun col => (col, Series_isnull_sum (map (fun r : row => r col) (rows sub))))
        (columns sub) in
  let has_nulls := (0 <? fold_right Z.add 0 (map snd null_counts))%Z in
  if has_nulls then
    let problematic := filter (fun cn => (0 <? snd cn)%Z) null_counts in
    Ok (append self (ValidationResult.default "Null Check" false
                       (FoundNulls problematic)))
  else
    Ok (append self (ValidationResult.default "Null Check" true NoNulls)).

Definition valid_variants : list cell := [Str "control"; Str "treatment"].

Definition _check_variants (self : t) : result t :=
  variant <- getitem (df self) "variant" ;;
  let actual_variants := Series_unique variant in
  let invalid := filter (fun v => negb (existsb (same v) valid_variants))
                        actual_variants in
  match invalid with
  | _ :: _ =>
      Ok (append self (ValidationResult.default "Variant Integrity" false
                         (InvalidVariants invalid)))
  | [] =>
      let counts := Series_value_counts variant in
      Ok (append self (ValidationResult.default "Variant Integrity" true
                         (ValidVariants counts)))
  end.

Section Rounding.

(** The rounding of the arithmetic of doubles.  The sample ratio check
    compares a computed statistic with a constant, and the rounding of
    each operation decides on which side a statistic next to the constant
    falls.  The number of rows and the counts are integers below 2^53,
    which a double holds exactly. *)
Variable rnd : R -> R.

(** The literal [10.83] *)
Definition critical_value : num := lit (rnd 10.83).

Definition _check_sample_ratio_mismatch (cfg : config.t) (self : t) : result t :=
  variant <- getitem (df self) "variant" ;;
  let variant_counts := Series_value_counts variant in
  let total := int (len (df self)) in
  let expected_control := fl rnd (total * config.ALLOCATION_RATIO cfg) in
  let expected_treatment :=
    fl rnd (total * fl rnd (int 1 - config.ALLOCATION_RATIO cfg)) in
  let observed_control := get variant_counts (Str "control") 0 in
  let observed_treatment := get variant_counts (Str "treatment") 0 in
  c1 <- fl rnd (pow2 (fl rnd (observed_control - expected_control)))
        / expected_control ;;
  c2 <- fl rnd (pow2 (fl rnd (observed_treatment - expected_treatment)))
        / expected_treatment ;;
  let chi_square := fl rnd (fl rnd c1 + fl rnd c2) in
  let has_srm := chi_square >? critical_value in
  if has_srm then
    Ok (append self
          {| ValidationResult.check_name := "Sample Ratio Mismatch (SRM)";
             ValidationResult.passed := false;
             ValidationResult.message := SRMDetected chi_square critical_value
                          observed_control observed_treatment
                          expected_control expected_treatment;
             ValidationResult.severity := "error" |})
  else
    d <- abs (fl rnd (observed_control - expected_control)) / expected_control ;;
    let pct_diff := fl rnd (fl rnd d * int 100) in
    Ok (append self (ValidationResult.default "Sample Ratio Mismatch (SRM)" true
                       (NoSRM chi_square pct_diff))).

Definition _check_contamination (self : t) : result t :=
  user_variant_counts <- groupby_nunique (df self) "user_id" "variant" ;;
  let contaminated_users :=
    filter (fun kc => (1 <? snd kc)%Z) user_variant_counts in
  if (0 <? length contaminated_users)%nat then
    Ok (append self (ValidationResult.default "Contamination Check" false
                       (Contaminated (length contaminated_users))))
  else
    Ok (append self (ValidationResult.default "Contamination Check" true
                       NoContamination)).

Definition _check_eligibility (self : t) : result t :=
  eligible <- getitem (df self) "eligible" ;;
  eligible_count <- Series_sum eligible ;;
  let total := len (df self) in
  q <- eligible_count / int total ;;
  let eligible_pct := q * int 100 in
  if eligible_pct <? int 80 then
    Ok (append self
          {| ValidationResult.check_name := "Eligibility Check";
             ValidationResult.passed := false;
             ValidationResult.message :=
               LowEligibility eligible_pct eligible_count total;
             ValidationResult.severity := "warning" |})
  else
    Ok (append self (ValidationResult.default "Eligibility Check" true
                       (EligibilityRate eligible_pct eligible_count total))).

(** The six checks in turn, each appending its result; an exception in
    one of them ends the run. *)
Definition validate (cfg : config.t) (self : t) : result ValidationReport.t :=
  s1 <- _check_schema self ;;
  s2 <- _check_nulls s1 ;;
  s3 <- _check_variants s2 ;;
  s4 <- _check_sample_ratio_mismatch cfg s3 ;;
  s5 <- _check_contamination s4 ;;
  s6 <- _check_eligibility s5 ;;
  Ok {| ValidationReport.results := results s6 |}.

End Rounding.

End DataValidator.

(* ================================================================= *)
(** ** [src/reporting/summary.py]

    The decision of the executive summary, the next steps chosen from it
    and the decision line of the one-pager; the rest of the two texts is
    the formatting of the numbers of the reports.  The threshold
    [config.MIN_ACCEPTABLE_CVR_LIFT] is an argument. *)

Module ReportBuilder.

(** [a <= b] on IEEE values; every comparison with [nan] is false. *)
Definition fle (a b : float) : bool :=
  match a, b with
  | NaN, _ | _, NaN => false
  | Fin x, Fin y => if Rle_dec x y then true else false
  | NInf, _ => true
  | _, PInf => true
  | _, _ => false
  end.

(** [a >= b] *)
Definition geb (a b : num) : bool := fle (val b) (val a).

(** [config.MIN_ACCEPTABLE_CVR_LIFT] *)
Definition MIN_ACCEPTABLE_CVR_LIFT : num := lit 0.0.

(** [needle in s] *)
Definition contains (needle s : string) : bool :=
  match String.index 0 needle s with
  | Some _ => true
  | None => false
  end.

Definition newline : string := String (Ascii.ascii_of_nat 10) EmptyString.

Definition SHIP : string := "**SHIP** ✓".
Definition HOLD : string := "**HOLD / EXTEND TEST**".
Definition DO_NOT_SHIP : string := "**DO NOT SHIP** ✗".

(** The decision logic of [build_executive_summary]. *)
Definition decision (min_acceptable_cvr_lift : num) (cvr_inference : InferenceReport)
  : string :=
  let ci_lower_meets_threshold :=
    geb (ci_lower cvr_inference) min_acceptable_cvr_lift in
  if ci_lower_meets_threshold && gtb (ir_absolute_lift cvr_inference) (int 0)
  then SHIP
  else if gtb (ir_absolute_lift cvr_inference) (int 0) then HOLD
  else DO_NOT_SHIP.

Definition rollout_steps : string :=
  ("1. **Proceed with full rollout** to 100% of users" ++ newline
   ++ "2. Monitor post-launch metrics for regression" ++ newline
   ++ "3. Document learnings for future experiments")%string.

Definition investigation_steps : string :=
  ("1. **Investigate why the treatment did not improve conversion**" ++ newline
   ++ "2. Analyze segment-level results for insights" ++ newline
   ++ "3. Iterate on design based on qualitative feedback")%string.

(** [if "SHIP" in decision: ... else: ...] *)
Definition next_steps (decision : string) : string :=
  if contains "SHIP" decision then rollout_steps else investigation_steps.

(** The decision line of [build_one_pager]. *)
Definition one_pager_decision (cvr_inference : InferenceReport) : string :=
  if geb (ci_lower cvr_inference) (int 0)
     && gtb (ir_absolute_lift cvr_inference) (int 0)
  then "✓ SHIP"
  else "✗ DO NOT SHIP / HOLD".

End ReportBuilder.

(* ================================================================= *)
(** ** [src/data_generation/generator.py]

    The random generator of numpy is a state of type [S]: [random] draws
    a number and gives the next state, [default_rng] makes the state of a
    seed; numpy accepts the seeds that are not negative, and the model
    says nothing of the others.  The rates are real numbers.  The frame
    carries the default index, one label per row, as [generate] builds it,
    so that [df.at[idx, col]] is the cell of the row at hand. *)

Module ExperimentDataGenerator.

(** The values of [src/config.py] the generator reads. *)
Record Config : Type := {
  N_USERS : Z;
  RANDOM_SEED : Z;
  CONTROL_CTR : R;
  CONTROL_CVR : R;
  TREATMENT_CTR_LIFT_PP : R;
  TREATMENT_CVR_LIFT_PP : R;
  ENABLE_HETEROGENEITY : bool;
  DEVICE_EFFECT_MULTIPLIERS : list (string * R)
}.

Definition default_config : Config :=
  {| N_USERS := 50000;
     RANDOM_SEED := 42;
     CONTROL_CTR := 0.12;
     CONTROL_CVR := 0.035;
     TREATMENT_CTR_LIFT_PP := 0.015;
     TREATMENT_CVR_LIFT_PP := 0.008;
     ENABLE_HETEROGENEITY := true;
     DEVICE_EFFECT_MULTIPLIERS :=
       [("mobile"%string, 1.3%R); ("desktop"%string, 1.0%R);
        ("tablet"%string, 0.8%R)] |}.

(** [x < y] on Python floats that are real numbers. *)
Definition Rltb (x y : R) : bool := if Rlt_dec x y then true else false.

(** [value or default] on integers: zero counts as absent. *)
Definition or_default (value : option Z) (default : Z) : Z :=
  match value with
  | Some v => if (v =? 0)%Z then default else v
  | None => default
  end.

(** [config.DEVICE_EFFECT_MULTIPLIERS.get(device, 1.0)] *)
Definition multiplier (cfg : Config) (device : cell) : R :=
  match device with
  | Str d =>
      match find (fun kv => String.eqb (fst kv) d) (DEVICE_EFFECT_MULTIPLIERS cfg) with
      | Some kv => snd kv
      | None => 1.0%R
      end
  | _ => 1.0%R
  end.

(** The click-through and the conversion rate of one user. *)
Definition rates (cfg : Config) (variant device : cell) : R * R :=
  if same variant (Str "control") then (CONTROL_CTR cfg, CONTROL_CVR cfg)
  else
    let ctr_lift := TREATMENT_CTR_LIFT_PP cfg in
    let cvr_lift := TREATMENT_CVR_LIFT_PP cfg in
    let '(ctr_lift, cvr_lift) :=
      if ENABLE_HETEROGENEITY cfg then
        let multiplier := multiplier cfg device in
        ((ctr_lift * multiplier)%R, (cvr_lift * multiplier)%R)
      else (ctr_lift, cvr_lift) in
    ((CONTROL_CTR cfg + ctr_lift)%R, (CONTROL_CVR cfg + cvr_lift)%R).

(** [df.at[idx, 'clicked'] = clicked; df.at[idx, 'converted'] = converted] *)
Definition set_outcome (u : row) (clicked converted : bool) : row :=
  fun col =>
    if String.eqb col "converted" then Bool converted
    else if String.eqb col "clicked" then Bool clicked
    else u col.

(** [df[col] = value]: a new column goes last, an existing one keeps its
    place. *)
Definition add_column (cols : list string) (col : string) : list string :=
  if existsb (String.eqb col) cols then cols else cols ++ [col].

Section Generator.

Variable S : Type.
Variable default_rng : Z -> S.
Variable random : S -> R * S.

Record t : Type := { n_users : Z; seed : Z; rng : S }.

Definition __init__ (cfg : Config) (n_users seed : option Z) : t :=
  let n_users := or_default n_users (N_USERS cfg) in
  let seed := or_default seed (RANDOM_SEED cfg) in
  {| n_users := n_users; seed := seed; rng := default_rng seed |}.

(** The two Bernoulli trials of one user: the second number is drawn
    only for a user who clicked. *)
Definition trial (cfg : Config) (g : S) (u : row) : bool * bool * S :=
  let '(ctr, cvr) := rates cfg (u "variant"%string) (u "device_category"%string) in
  let '(x, g1) := random g in
  let clicked := Rltb x ctr in
  if clicked then
    let '(y, g2) := random g1 in (clicked, Rltb y cvr, g2)
  else (clicked, false, g1).

(** The loop over the rows. *)
Fixpoint trials (cfg : Config) (g : S) (l : list row) : list row * S :=
  match l with
  | [] => ([], g)
  | u :: l' =>
      let '(clicked, converted, g1) := trial cfg g u in
      let '(l'', g2) := trials cfg g1 l' in
      (set_outcome u clicked converted :: l'', g2)
  end.

Definition _generate_outcomes (cfg : Config) (self : t) (df : DataFrame)
  : result (DataFrame * t) :=
  let cols := add_column (add_column (columns df) "clicked") "converted" in
  match rows df with
  | [] => Ok ({| columns := cols; rows := [] |}, self)
  | _ =>
      if has_column df "variant" then
        if has_column df "device_category" then
          let '(l, g) := trials cfg (rng self) (rows df) in
          Ok ({| columns := cols; rows := l |},
              {| n_users := n_users self; seed := seed self; rng := g |})
        else Raise (KeyError ["device_category"%string])
      else Raise (KeyError ["variant"%string])
  end.

End Generator.

End ExperimentDataGenerator.

(* ================================================================= *)
(** ** The specification's words

    The counts, orders and formulas of sections 4.1 to 4.3 of the
    specification, written from its text to be compared with what the code
    computes; the formulas of the inference engine are over IEEE values. *)

Declare Scope float_scope.
Delimit Scope float_scope with fl.
Bind Scope float_scope with float.
Infix "+" := fadd : float_scope.
Infix "-" := fsub : float_scope.
Infix "*" := fmul : float_scope.
Infix "/" := fdiv : float_scope.

Module Spec.

(** Section 4.1: the units of a variant, their number, and the number of
    them whose outcome attribute is true. *)
Definition in_group (v : string) (r : row) : bool :=
  eqb (r "variant"%string) (Str v).

Definition group_n (d : DataFrame) (v : string) : Z :=
  Z.of_nat (length (filter (in_group v) (rows d))).

Definition group_successes (d : DataFrame) (v outcome : string) : Z :=
  Z.of_nat (length (filter (fun r => in_group v r && same (r outcome) (Bool true))
                           (rows d))).


(** The order [sort_values] is asked for: by the column [key], ascending
    or descending. *)
Definition in_order (ascending : bool) (key : SegmentRow -> Z)
    (a b : SegmentRow) : Prop :=
  if ascending then (key a <= key b)%Z else (key b <= key a)%Z.

(** What [sort_values(by, ascending=...)] promises with [kind] at its
    default, for a column of integers: the rows rearranged in the order
    asked for, and nothing on the order of rows with equal keys. *)
Definition sort_values_promise
    (sort_values : string -> bool -> list SegmentRow -> list SegmentRow) : Prop :=
  forall (by_ : string) (ascending : bool) (key : SegmentRow -> Z)
         (l : list SegmentRow),
    MetricComputer.results_column by_ = Some key ->
    Permutation (sort_values by_ ascending l) l /\
    Sorted (in_order ascending key) (sort_values by_ ascending l).


(** What the model assumes of the rounding of doubles: it never changes
    the order of two numbers, and it leaves a double as it is. *)
Definition rounds_to_nearest (rnd : R -> R) : Prop :=
  (forall x y : R, (x <= y)%R -> (rnd x <= rnd y)%R) /\
  (forall x : R, double x -> rnd x = x).

Section Rounded.

Variable rnd : R -> R.

(** Section 4.3, the SRM check: expected counts and the chi-square
    statistic of the two observed counts, each operation rounded. *)
Definition expected_control (N r : R) : R := rnd (N * r).
Definition expected_treatment (N r : R) : R := rnd (N * rnd (1 - r)).

(** (observed - expected)^2 / expected *)
Definition chi_term (observed expected : R) : R :=
  rnd (rnd (Rsqr (rnd (observed - expected))) / expected).

Definition chi_square (N r observed_control observed_treatment : R) : R :=
  rnd (chi_term observed_control (expected_control N r)
       + chi_term observed_treatment (expected_treatment N r)).

(** The critical value 10.83, as a double. *)
Definition critical_value : R := rnd 10.83.

End Rounded.

(** Section 4.3: the number of units flagged eligible. *)
Definition eligible_count (d : DataFrame) : Z :=
  count_true (map (fun r : row => r "eligible"%string) (rows d)).

(** A binary outcome attribute: a column of the frame holding booleans. *)
Definition binary_column (d : DataFrame) (outcome : string) : bool :=
  has_column d outcome
  && forallb (fun r : row => match r outcome with Bool _ => true | _ => false end)
             (rows d).

(** Section 4.2: the radicand of SE_null, on real numbers. *)
Definition pooled_variance (x1 n1 x2 n2 : R) : R :=
  ((x1 + x2) / (n1 + n2) * (1 - (x1 + x2) / (n1 + n2)) * (1 / n1 + 1 / n2))%R.

Section Normal.

Variables Phi Qf : R -> R.

#[local] Open Scope float_scope.

(** SE = sqrt(p1(1-p1)/n1 + p2(1-p2)/n2), the unpooled standard error. *)
Definition SE (p1 n1 p2 n2 : float) : float :=
  fsqrt (p1 * (Fin 1 - p1) / n1 + p2 * (Fin 1 - p2) / n2).

(** z = inverse-normal-quantile(1 - alpha/2) *)
Definition z_crit (alpha : float) : float :=
  fppf Qf (Fin 1 - alpha / Fin 2).

(** interval = [diff - z SE, diff + z SE], diff = p2 - p1 *)
Definition interval (alpha p1 n1 p2 n2 : float) : float * float :=
  let diff := p2 - p1 in
  (diff - z_crit alpha * SE p1 n1 p2 n2,
   diff + z_crit alpha * SE p1 n1 p2 n2).

(** p_pooled = (x1+x2)/(n1+n2) *)
Definition p_pooled (x1 n1 x2 n2 : float) : float := (x1 + x2) / (n1 + n2).

(** SE_null = sqrt(p_pooled(1-p_pooled)(1/n1+1/n2)) *)
Definition SE_null (x1 n1 x2 n2 : float) : float :=
  fsqrt (p_pooled x1 n1 x2 n2 * (Fin 1 - p_pooled x1 n1 x2 n2)
         * (Fin 1 / n1 + Fin 1 / n2)).

(** p_value = 2(1 - Phi(|z_stat|)), z_stat = (p2 - p1)/SE_null, for the
    rates [p1] and [p2] the statistic is built from. *)
Definition pooled_p_value (p1 p2 x1 n1 x2 n2 : float) : float :=
  let z_stat := (p2 - p1) / SE_null x1 n1 x2 n2 in
  Fin 2 * (Fin 1 - fcdf Phi (fabs z_stat)).

(** Operation B: mde = (z_alpha + z_beta) sqrt(2 p (1-p) / n_per_variant),
    z_alpha = ppf(1 - alpha/2), z_beta = ppf(power). *)
Definition mde (alpha p n power : float) : float :=
  (z_crit alpha + fppf Qf power) * fsqrt (Fin 2 * p * (Fin 1 - p) / n).

End Normal.

End Spec.

(* ================================================================= *)
(** ** Concrete instances used in the examples *)

Module Example.

(** A distribution function that is symmetric about 0, and its quantile
    function: an instance of what the development assumes of the normal
    distribution. *)
Definition Phi0 (x : R) : R := (1 / 2 + x / (2 * (1 + Rabs x)))%R.
Definition Qf0 (q : R) : R := ((2 * q - 1) / (1 - Rabs (2 * q - 1)))%R.

(** [InferenceEngine(confidence_level=0.95)] *)
Definition engine : InferenceEngine.t :=
  InferenceEngine.__init__ config.default (Some (lit 0.95)).

(** A report of the tests: 350 and 430 successes out of 10000. *)
Definition cvr_report : MetricReport :=
  {| metric_name := "Test CVR";
     control_n := 10000;
     control_successes := int 350;
     control_rate := lit 0.035;
     treatment_n := 10000;
     treatment_successes := int 430;
     treatment_rate := lit 0.043;
     absolute_lift := lit 0.008;
     relative_lift_pct := lit 22.86 |}.

(** The matched groups of the tests: 350 successes out of 5000 on both
    sides. *)
Definition matched_report : MetricReport :=
  {| metric_name := "Test CVR - No Effect";
     control_n := 5000;
     control_successes := int 350;
     control_rate := lit 0.07;
     treatment_n := 5000;
     treatment_successes := int 350;
     treatment_rate := lit 0.07;
     absolute_lift := lit 0;
     relative_lift_pct := lit 0 |}.

(** A report with an empty treatment group, as [MetricComputer] builds it. *)
Definition empty_treatment_report : MetricReport :=
  {| metric_name := "CVR";
     control_n := 10;
     control_successes := np_int 3;
     control_rate := Num Numpy (Fin 0.3);
     treatment_n := 0;
     treatment_successes := np_int 0;
     treatment_rate := int 0;
     absolute_lift := Num Numpy (Fin (-0.3));
     relative_lift_pct := Num Numpy (Fin (-100)) |}.

(** A unit of the experiment as a row of the input table; the two
    timestamps are held as strings. *)
Definition unit_row (user_id variant : string) (eligible clicked converted : bool)
    (device_category country : string) : row :=
  fun col =>
    if String.eqb col "user_id" then Str user_id
    else if String.eqb col "variant" then Str variant
    else if String.eqb col "eligible" then Bool eligible
    else if String.eqb col "clicked" then Bool clicked
    else if String.eqb col "converted" then Bool converted
    else if String.eqb col "device_category" then Str device_category
    else if String.eqb col "country" then Str country
    else if String.eqb col "experiment_id" then Str "homepage_redesign_v1"
    else if String.eqb col "assigned_at" then Str "2024-10-01"
    else if String.eqb col "first_exposed_at" then Str "2024-10-01"
    else Null.

Definition units : list row :=
  [unit_row "user_0" "control" true true false "mobile" "US";
   unit_row "user_1" "treatment" true true true "desktop" "IN";
   unit_row "user_2" "control" true false false "desktop" "US";
   unit_row "user_3" "treatment" true false false "mobile" "CA"]%string.

(** A table with every required column. *)
Definition frame : DataFrame :=
  {| columns := DataValidator.required_cols; rows := units |}.

(** The rounding that leaves every number as it is.  It keeps the order
    and the doubles, and on the tables of the examples, where every
    number the check computes is a double, it is the rounding of the
    arithmetic. *)
Definition exact (x : R) : R := x.

(** [DataValidator(df)] on that table. *)
Definition validator : DataValidator.t := DataValidator.__init__ frame.

(** The same table after [df.drop(columns=['clicked'])]. *)
Definition frame_without_clicked : DataFrame :=
  {| columns := filter (fun c => negb (String.eqb c "clicked"))
                       DataValidator.required_cols;
     rows := units |}.

(** A table with every required column and no row. *)
Definition empty_frame : DataFrame :=
  {| columns := DataValidator.required_cols; rows := [] |}.

(** Two units of which one is eligible. *)
Definition half_eligible_frame : DataFrame :=
  {| columns := DataValidator.required_cols;
     rows := [unit_row "user_0" "control" true true false "mobile" "US";
              unit_row "user_1" "treatment" false false false "desktop" "IN"]%string |}.


(** The table of [frame] without the column [eligible]. *)
Definition frame_without_eligible : DataFrame :=
  {| columns := filter (fun c => negb (String.eqb c "eligible"))
                       DataValidator.required_cols;
     rows := units |}.

(** The rows of [frame] in the reverse order. *)
Definition reversed_frame : DataFrame :=
  {| columns := DataValidator.required_cols; rows := rev units |}.

(** A unit whose device category is missing. *)
Definition without_device (u : row) : row :=
  fun col => if String.eqb col "device_category" then Null else u col.

Definition missing_segment_frame : DataFrame :=
  {| columns := DataValidator.required_cols;
     rows := [unit_row "user_0" "control" true false false "mobile" "US";
              without_device
                (unit_row "user_1" "control" true true true "desktop" "US")]%string |}.

(** The report of a conversion analysis: a lift of 0.8 points with an
    interval above zero. *)
Definition cvr_inference : InferenceReport :=
  {| ir_metric_name := "CVR";
     ir_control_rate := lit 0.035;
     ir_treatment_rate := lit 0.043;
     ir_absolute_lift := lit 0.008;
     ir_relative_lift_pct := lit 22.86;
     ci_lower := lit 0.0005;
     ci_upper := lit 0.0155;
     p_value := lit 0.037;
     statistically_significant := true;
     ir_confidence_level := lit 0.95 |}.

(** A generator state that counts the draws, every draw giving 0. *)
Definition counting_random (n : nat) : R * nat := (0%R, Datatypes.S n).

Definition generator : ExperimentDataGenerator.t nat :=
  ExperimentDataGenerator.__init__ Z.to_nat
    ExperimentDataGenerator.default_config None None.

(** A sort that keeps the promise of [sort_values], for the examples: an
    insertion sort by a column of integers in the direction asked for. *)
Definition goes_before (ascending : bool) (key : SegmentRow -> Z)
    (x y : SegmentRow) : bool :=
  if ascending then (key x <? key y)%Z else (key y <? key x)%Z.

Fixpoint insert_row (ascending : bool) (key : SegmentRow -> Z)
    (x : SegmentRow) (l : list SegmentRow) : list SegmentRow :=
  match l with
  | [] => [x]
  | y :: l' =>
      if goes_before ascending key x y then x :: l
      else y :: insert_row ascending key x l'
  end.

Definition insertion_sort (by_ : string) (ascending : bool)
    (l : list SegmentRow) : list SegmentRow :=
  match MetricComputer.results_column by_ with
  | Some key => fold_right (insert_row ascending key) [] l
  | None => l
  end.

End Example.

(* ================================================================= *)
(** ** Notions about a table *)

Module Data.

(** No cell of the columns [cols] is missing. *)
Definition null_free (d : DataFrame) (cols : list string) : bool :=
  forallb (fun c => forallb (fun r : row => negb (isnull (r c))) (rows d)) cols.

(** The variant of every row is ['control'] or ['treatment']. *)
Definition variants_valid (d : DataFrame) : bool :=
  forallb (fun r : row => existsb (same (r "variant"%string))
                                  DataValidator.valid_variants)
          (rows d).

(** Two rows carry the same user identifier and two different variants,
    none of the three values missing. *)
Definition clash (r1 r2 : row) : bool :=
  same (r1 "user_id"%string) (r2 "user_id"%string)
  && negb (isnull (r1 "user_id"%string))
  && negb (isnull (r1 "variant"%string))
  && negb (isnull (r2 "variant"%string))
  && negb (same (r1 "variant"%string) (r2 "variant"%string)).

Definition contaminated (d : DataFrame) : bool :=
  existsb (fun r1 => existsb (clash r1) (rows d)) (rows d).

(** What the loop of the generator leaves in a row: two outcomes of
    which the conversion implies the click. *)
Definition outcome_of (u u' : row) : Prop :=
  exists clicked converted : bool,
    u' = ExperimentDataGenerator.set_outcome u clicked converted /\
    (converted = true -> clicked = true).

(** The unit is flagged eligible. *)
Definition eligible (u : row) : bool := same (u "eligible"%string) (Bool true).

(** The eligible units of a variant, and those of them whose outcome is
    true. *)
Definition eligible_group_n (d : DataFrame) (v : string) : Z :=
  Z.of_nat (length (filter (fun u => eligible u && Spec.in_group v u) (rows d))).

(** The rows of a segment, as a frame: [df[df[segment_col] == v]]. *)
Definition segment_frame (d : DataFrame) (segment_col : string) (v : cell)
  : DataFrame :=
  {| columns := columns d;
     rows := filter (fun u : row => eqb (u segment_col) v) (rows d) |}.

(** The units of a variant whose segment attribute is not missing. *)
Definition segmented_group_n (d : DataFrame) (segment_col v : string) : Z :=
  Z.of_nat (length (filter (fun u : row => negb (isnull (u segment_col))
                                           && Spec.in_group v u)
                           (rows d))).

Definition eligible_group_successes (d : DataFrame) (v outcome : string) : Z :=
  Z.of_nat (length (filter (fun u => eligible u && Spec.in_group v u
                                     && same (u outcome) (Bool true))
                           (rows d))).

End Data.

(* ================================================================= *)
(** * Properties *)

(** ** Arithmetic of Python numbers *)

Local Open Scope R_scope.

Section NumFacts.

Lemma Rsign_pos (x : R) : 0 < x -> Rsign x = Gt.
Proof.
  intro H. unfold Rsign.
  destruct (total_order_T x 0) as [[Hlt | Heq] | Hgt]; trivial; lra.
Qed.

Lemma Rsign_neg (x : R) : x < 0 -> Rsign x = Lt.
Proof.
  intro H. unfold Rsign.
  destruct (total_order_T x 0) as [[Hlt | Heq] | Hgt]; trivial; lra.
Qed.

Lemma Rsign_zero : Rsign 0 = Eq.
Proof.
  unfold Rsign.
  destruct (total_order_T 0 0) as [[Hlt | Heq] | Hgt]; trivial; lra.
Qed.

Lemma fis_zero_Fin (x : R) : x <> 0 -> fis_zero (Fin x) = false.
Proof. intro H. simpl. destruct (Req_dec_T x 0); congruence. Qed.

Lemma fis_zero_0 : fis_zero (Fin 0) = true.
Proof. simpl. destruct (Req_dec_T 0 0); congruence. Qed.

Lemma fdiv_Fin (x y : R) : y <> 0 -> fdiv (Fin x) (Fin y) = Fin (x / y).
Proof. intro H. simpl. destruct (Req_dec_T y 0); congruence. Qed.

Lemma fdiv_0_0 : fdiv (Fin 0) (Fin 0) = NaN.
Proof.
  simpl. destruct (Req_dec_T 0 0) as [_ | H]; [| congruence].
  now rewrite Rsign_zero.
Qed.

Lemma fsqrt_Fin (x : R) : 0 <= x -> fsqrt (Fin x) = Fin (sqrt x).
Proof. intro H. simpl. destruct (Rlt_dec x 0); [lra | reflexivity]. Qed.

Lemma fsqrt_neg (x : R) : x < 0 -> fsqrt (Fin x) = NaN.
Proof. intro H. simpl. destruct (Rlt_dec x 0); [reflexivity | lra]. Qed.

Lemma flt_Fin_true (x y : R) : x < y -> flt (Fin x) (Fin y) = true.
Proof. intro H. simpl. destruct (Rlt_dec x y); [reflexivity | lra]. Qed.

Lemma flt_Fin_false (x y : R) : y <= x -> flt (Fin x) (Fin y) = false.
Proof. intro H. simpl. destruct (Rlt_dec x y); [lra | reflexivity]. Qed.

Lemma fadd_Fin (x y : R) : fadd (Fin x) (Fin y) = Fin (x + y).
Proof. reflexivity. Qed.

Lemma fsub_Fin (x y : R) : fsub (Fin x) (Fin y) = Fin (x - y).
Proof. reflexivity. Qed.

Lemma fmul_Fin (x y : R) : fmul (Fin x) (Fin y) = Fin (x * y).
Proof. reflexivity. Qed.

Lemma fppf_Fin (Qf : R -> R) (q : R) :
  0 < q < 1 -> fppf Qf (Fin q) = Fin (Qf q).
Proof.
  intros [H0 H1]. unfold fppf.
  destruct (Rlt_dec 0 q); [| lra]. destruct (Rlt_dec q 1); [reflexivity | lra].
Qed.

Lemma fppf_outside (Qf : R -> R) (q : R) :
  q < 0 \/ 1 < q -> fppf Qf (Fin q) = NaN.
Proof.
  intros H. unfold fppf.
  destruct (Rlt_dec 0 q).
  - destruct (Rlt_dec q 1); [lra |]. destruct (Req_dec_T q 1); [lra | reflexivity].
  - destruct (Req_dec_T q 0); [lra | reflexivity].
Qed.

Lemma fmul_NaN_r (a : float) : fmul a NaN = NaN.
Proof. now destruct a. Qed.

Lemma fmul_NaN_l (a : float) : fmul NaN a = NaN.
Proof. reflexivity. Qed.

Lemma fadd_NaN_r (a : float) : fadd a NaN = NaN.
Proof. now destruct a. Qed.

Lemma join_Builtin_r (k : kind) : join k Builtin = k.
Proof. now destruct k. Qed.

(** A division raises nothing but [ZeroDivisionError]. *)
Lemma truediv_cases (a b : num) :
  truediv a b = Raise ZeroDivisionError \/
  truediv a b = Ok (Num (join (kind_of a) (kind_of b)) (fdiv (val a) (val b))).
Proof.
  unfold truediv.
  destruct (kind_of a), (kind_of b); simpl; auto.
  destruct (fis_zero (val b)); auto.
Qed.

(** Dividing by a builtin number that is not zero never raises. *)
Lemma truediv_nonzero (a : num) (k : kind) (y : R) :
  y <> 0 ->
  truediv a (Num k (Fin y)) =
  Ok (Num (join (kind_of a) k) (fdiv (val a) (Fin y))).
Proof.
  intro H. unfold truediv. simpl.
  destruct (kind_of a), k; simpl; trivial.
  destruct (Req_dec_T y 0); congruence.
Qed.

Lemma truediv_int (a : num) (n : Z) :
  n <> 0%Z ->
  truediv a (int n) = Ok (Num (kind_of a) (fdiv (val a) (Fin (IZR n)))).
Proof.
  intro H. unfold int. rewrite truediv_nonzero.
  - now rewrite join_Builtin_r.
  - now apply not_0_IZR.
Qed.

(** Between builtin numbers a zero divisor raises. *)
Lemma truediv_builtin_zero (a : num) :
  kind_of a = Builtin -> truediv a (int 0) = Raise ZeroDivisionError.
Proof.
  intro H. unfold truediv. rewrite H. simpl.
  destruct (Req_dec_T 0 0); congruence.
Qed.

(** With a numpy operand nothing raises. *)
Lemma truediv_numpy_r (a b : num) :
  kind_of b = Numpy -> truediv a b = Ok (Num Numpy (fdiv (val a) (val b))).
Proof. intro H. unfold truediv. rewrite H. now destruct (kind_of a). Qed.

Lemma truediv_numpy_l (a b : num) :
  kind_of a = Numpy -> truediv a b = Ok (Num Numpy (fdiv (val a) (val b))).
Proof. intro H. unfold truediv. now rewrite H. Qed.

End NumFacts.

#[local] Arguments fadd : simpl never.
#[local] Arguments fsub : simpl never.
#[local] Arguments fmul : simpl never.
#[local] Arguments fdiv : simpl never.
#[local] Arguments fsqrt : simpl never.
#[local] Arguments fabs : simpl never.
#[local] Arguments flt : simpl never.
#[local] Arguments fcdf : simpl never.
#[local] Arguments fppf : simpl never.

(** Finite operands: rewrite each operation to the real one. *)
Ltac fin_arith :=
  repeat first
    [ rewrite fadd_Fin | rewrite fsub_Fin | rewrite fmul_Fin
    | rewrite fdiv_Fin by lra ].

(** ** Inference *)

Section InferenceFacts.

Variables Phi Qf : R -> R.

Import InferenceEngine.

Lemma alpha_half (self : t) :
  truediv (alpha self) (int 2) =
  Ok (Num (kind_of (alpha self)) (fdiv (val (alpha self)) (Fin 2))).
Proof. now rewrite truediv_int by lia. Qed.

(** With two groups that are not empty the interval is the unpooled one. *)
Lemma proportion_diff_ci_spec (self : t) (p1 p2 : num) (n1 n2 : Z) :
  n1 <> 0%Z -> n2 <> 0%Z ->
  exists lo hi,
    _proportion_diff_ci Qf self p1 (int n1) p2 (int n2) = Ok (lo, hi) /\
    (val lo, val hi) =
    Spec.interval Qf (val (alpha self)) (val p1) (Fin (IZR n1))
                  (val p2) (Fin (IZR n2)).
Proof.
  intros H1 H2. unfold _proportion_diff_ci.
  rewrite !truediv_int by assumption. simpl bind.
  rewrite alpha_half. simpl bind.
  eexists _, _. split; [reflexivity |]. reflexivity.
Qed.

(** With two groups of positive size the test is the pooled one, on the
    rates [x1/n1] and [x2/n2]. *)
Lemma proportion_z_test_spec (self : t) (x1 x2 : num) (n1 n2 : Z) :
  (0 < n1)%Z -> (0 < n2)%Z ->
  exists p,
    _proportion_z_test Phi self x1 (int n1) x2 (int n2) = Ok p /\
    val p =
    Spec.pooled_p_value Phi
      (fdiv (val x1) (Fin (IZR n1))) (fdiv (val x2) (Fin (IZR n2)))
      (val x1) (Fin (IZR n1)) (val x2) (Fin (IZR n2)).
Proof.
  intros H1 H2. unfold _proportion_z_test.
  rewrite !truediv_int by lia. simpl bind.
  assert (Hs : IZR n1 + IZR n2 <> 0).
  { apply IZR_lt in H1, H2. lra. }
  replace (add (int n1) (int n2))
    with (Num Builtin (Fin (IZR n1 + IZR n2))) by reflexivity.
  rewrite truediv_nonzero by assumption. simpl bind.
  rewrite truediv_numpy_r by reflexivity. simpl bind.
  eexists. split; [reflexivity |]. reflexivity.
Qed.

End InferenceFacts.

Section InferencePreconditions.

Variables Phi Qf : R -> R.

Import InferenceEngine.

Lemma proportion_diff_ci_cases (self : t) (p1 n1 p2 n2 : num) :
  _proportion_diff_ci Qf self p1 n1 p2 n2 = Raise ZeroDivisionError \/
  exists ci, _proportion_diff_ci Qf self p1 n1 p2 n2 = Ok ci.
Proof.
  unfold _proportion_diff_ci.
  destruct (truediv_cases (mul p1 (sub (int 1) p1)) n1) as [H | H];
    rewrite H; simpl bind; auto.
  destruct (truediv_cases (mul p2 (sub (int 1) p2)) n2) as [H' | H'];
    rewrite H'; simpl bind; auto.
  rewrite alpha_half. simpl bind. right. eexists. reflexivity.
Qed.

(** The reciprocals [1/n1] and [1/n2] are divisions between builtin
    numbers: an empty group stops the test. *)
Lemma proportion_z_test_empty_group (self : t) (x1 x2 : num) (n1 n2 : Z) :
  n1 = 0%Z \/ n2 = 0%Z ->
  _proportion_z_test Phi self x1 (int n1) x2 (int n2) = Raise ZeroDivisionError.
Proof.
  intros Hn. unfold _proportion_z_test.
  destruct (truediv_cases x1 (int n1)) as [H | H]; rewrite H; simpl bind; auto.
  destruct (truediv_cases x2 (int n2)) as [H' | H']; rewrite H'; simpl bind; auto.
  destruct (truediv_cases (add x1 x2) (add (int n1) (int n2))) as [H'' | H''];
    rewrite H''; simpl bind; auto.
  destruct (Z.eq_dec n1 0) as [-> | Hn1].
  - now rewrite truediv_builtin_zero.
  - rewrite (truediv_int (int 1)) by assumption. simpl bind.
    destruct Hn as [-> | ->]; [contradiction |].
    now rewrite truediv_builtin_zero.
Qed.

(** C4.  When the control group or the treatment group of a report is
    empty, [analyze_metric] does not return a report: it raises
    [ZeroDivisionError]. *)
Theorem analyze_metric_empty_group_raises (self : t) (r : MetricReport) :
  control_n r = 0%Z \/ treatment_n r = 0%Z ->
  analyze_metric Phi Qf self r = Raise ZeroDivisionError.
Proof.
  intros Hn. unfold analyze_metric.
  destruct (proportion_diff_ci_cases self (control_rate r) (int (control_n r))
              (treatment_rate r) (int (treatment_n r))) as [H | [[lo hi] H]];
    rewrite H; simpl bind; trivial.
  now rewrite proportion_z_test_empty_group.
Qed.

End InferencePreconditions.

(** ** The assumed distribution has an instance *)

Section ExampleDistribution.

Import Example.

Lemma Rdiv_lt_cross (x y d e : R) :
  0 < d -> 0 < e -> x * e < y * d -> x / d < y / e.
Proof.
  intros Hd He H.
  replace (x / d) with (x * e * / (d * e)) by (field; lra).
  replace (y / e) with (y * d * / (d * e)) by (field; lra).
  apply Rmult_lt_compat_r; [| assumption].
  apply Rinv_0_lt_compat. nra.
Qed.

Lemma Phi0_half : Phi0 0 = 1 / 2.
Proof. unfold Phi0. rewrite Rabs_R0. field. Qed.

Lemma Phi0_increasing (x y : R) : x < y -> Phi0 x < Phi0 y.
Proof.
  intro H. unfold Phi0. apply Rplus_lt_compat_l.
  assert (Hx := Rabs_pos x). assert (Hy := Rabs_pos y).
  apply Rdiv_lt_cross; try lra.
  unfold Rabs in *.
  destruct (Rcase_abs x), (Rcase_abs y); nra.
Qed.

Lemma Phi0_le_1 (x : R) : Phi0 x <= 1.
Proof.
  unfold Phi0. assert (Hx := Rabs_pos x).
  assert (x / (2 * (1 + Rabs x)) <= 1 / 2); [| lra].
  apply Rmult_le_reg_r with (2 * (1 + Rabs x)); [lra |].
  replace (x / (2 * (1 + Rabs x)) * (2 * (1 + Rabs x))) with x by (field; lra).
  assert (x <= Rabs x) by apply Rle_abs. lra.
Qed.

Lemma Qf0_increasing (p q : R) : 0 < p -> p < q -> q < 1 -> Qf0 p < Qf0 q.
Proof.
  intros Hp H Hq. unfold Qf0.
  assert (Hap : Rabs (2 * p - 1) < 1) by (apply Rabs_def1; lra).
  assert (Haq : Rabs (2 * q - 1) < 1) by (apply Rabs_def1; lra).
  apply Rdiv_lt_cross; try lra.
  unfold Rabs in *.
  destruct (Rcase_abs (2 * p - 1)), (Rcase_abs (2 * q - 1)); nra.
Qed.

Lemma Qf0_symmetric (q : R) : 0 < q < 1 -> Qf0 (1 - q) = - Qf0 q.
Proof.
  intros Hq. unfold Qf0.
  assert (Ha : Rabs (2 * q - 1) < 1) by (apply Rabs_def1; lra).
  replace (2 * (1 - q) - 1) with (- (2 * q - 1)) by ring.
  rewrite Rabs_Ropp. field. lra.
Qed.

(** The engine of the examples has alpha = 1 - 0.95. *)
Lemma engine_alpha : val (InferenceEngine.alpha engine) = Fin (1 - 0.95).
Proof.
  unfold engine, InferenceEngine.__init__, truthy.
  change (val (lit 0.95)) with (Fin 0.95).
  rewrite fis_zero_Fin by lra. reflexivity.
Qed.

End ExampleDistribution.

(** ** The pooled test on finite inputs *)

Section PooledTest.

Variable Phi : R -> R.

Import Spec.

Lemma SE_null_Fin (x1 n1 x2 n2 : R) :
  0 < n1 -> 0 < n2 -> 0 <= pooled_variance x1 n1 x2 n2 ->
  SE_null (Fin x1) (Fin n1) (Fin x2) (Fin n2) =
  Fin (sqrt (pooled_variance x1 n1 x2 n2)).
Proof.
  intros H1 H2 Hv. unfold SE_null, p_pooled. fin_arith.
  now rewrite fsqrt_Fin.
Qed.

(** Away from the degenerate pools the p-value is a real number. *)
Lemma pooled_p_value_Fin (p1 p2 x1 n1 x2 n2 : R) :
  0 < n1 -> 0 < n2 -> 0 < pooled_variance x1 n1 x2 n2 ->
  pooled_p_value Phi (Fin p1) (Fin p2) (Fin x1) (Fin n1) (Fin x2) (Fin n2) =
  Fin (2 * (1 - Phi (Rabs ((p2 - p1) / sqrt (pooled_variance x1 n1 x2 n2))))).
Proof.
  intros H1 H2 Hv. unfold pooled_p_value.
  rewrite SE_null_Fin by lra.
  assert (Hs := sqrt_lt_R0 _ Hv).
  fin_arith. reflexivity.
Qed.

(** With a pooled rate of 0 or 1 and equal rates the statistic is 0/0. *)
Lemma pooled_p_value_degenerate (p x1 n1 x2 n2 : R) :
  0 < n1 -> 0 < n2 -> pooled_variance x1 n1 x2 n2 = 0 ->
  pooled_p_value Phi (Fin p) (Fin p) (Fin x1) (Fin n1) (Fin x2) (Fin n2) =
  NaN.
Proof.
  intros H1 H2 Hv. unfold pooled_p_value.
  rewrite SE_null_Fin by lra. rewrite Hv, sqrt_0. fin_arith.
  replace (p - p) with 0 by lra.
  now rewrite fdiv_0_0.
Qed.

Lemma pooled_variance_pos (x1 n1 x2 n2 : R) :
  0 < n1 -> 0 < n2 -> 0 < x1 + x2 < n1 + n2 ->
  0 < pooled_variance x1 n1 x2 n2.
Proof.
  intros H1 H2 [Hlo Hhi]. unfold pooled_variance.
  assert (Hq : 0 < (x1 + x2) / (n1 + n2) < 1).
  { split.
    - apply Rdiv_lt_0_compat; lra.
    - apply Rmult_lt_reg_r with (n1 + n2); [lra |].
      replace ((x1 + x2) / (n1 + n2) * (n1 + n2)) with (x1 + x2) by (field; lra).
      lra. }
  assert (Hi1 : 0 < 1 / n1) by (apply Rdiv_lt_0_compat; lra).
  assert (Hi2 : 0 < 1 / n2) by (apply Rdiv_lt_0_compat; lra).
  apply Rmult_lt_0_compat; [apply Rmult_lt_0_compat |]; lra.
Qed.

End PooledTest.

(** ** Operation A: the interval and the test *)

Section Analyze.

Variables Phi Qf : R -> R.

Import InferenceEngine.

(** The p-value [analyze_metric] reports is the one of the test on the
    counts, and the flag compares it with alpha. *)
Lemma analyze_metric_p_value (self : t) (r : MetricReport) :
  (0 < control_n r)%Z -> (0 < treatment_n r)%Z ->
  exists rep,
    analyze_metric Phi Qf self r = Ok rep /\
    val (p_value rep) =
      Spec.pooled_p_value Phi
        (fdiv (val (control_successes r)) (Fin (IZR (control_n r))))
        (fdiv (val (treatment_successes r)) (Fin (IZR (treatment_n r))))
        (val (control_successes r)) (Fin (IZR (control_n r)))
        (val (treatment_successes r)) (Fin (IZR (treatment_n r))) /\
    statistically_significant rep = flt (val (p_value rep)) (val (alpha self)).
Proof.
  intros H1 H2.
  destruct (proportion_z_test_spec Phi self (control_successes r)
              (treatment_successes r) H1 H2) as (p & Hp & Hpv).
  destruct (proportion_diff_ci_spec Qf self (control_rate r) (treatment_rate r)
              (n1 := control_n r) (n2 := treatment_n r))
    as (lo & hi & Hci & Hval); [lia | lia |].
  unfold analyze_metric. rewrite Hci. simpl bind. rewrite Hp. simpl bind.
  eexists. split; [reflexivity |]. split; [exact Hpv | reflexivity].
Qed.

(** For a report with two groups of positive size: the interval is built
    from the rate fields of the report, the test from its counts and
    sizes, and the flag is [p_value < alpha]. *)
Lemma analyze_metric_report (self : t) (r : MetricReport) :
  (0 < control_n r)%Z -> (0 < treatment_n r)%Z ->
  let n1 := Fin (IZR (control_n r)) in
  let n2 := Fin (IZR (treatment_n r)) in
  let x1 := val (control_successes r) in
  let x2 := val (treatment_successes r) in
  exists rep,
    analyze_metric Phi Qf self r = Ok rep /\
    (val (ci_lower rep), val (ci_upper rep)) =
      Spec.interval Qf (val (alpha self))
        (val (control_rate r)) n1 (val (treatment_rate r)) n2 /\
    val (p_value rep) =
      Spec.pooled_p_value Phi (fdiv x1 n1) (fdiv x2 n2) x1 n1 x2 n2 /\
    statistically_significant rep =
      flt (val (p_value rep)) (val (alpha self)).
Proof.
  intros H1 H2 n1 n2 x1 x2. unfold analyze_metric.
  destruct (proportion_diff_ci_spec Qf self (control_rate r) (treatment_rate r)
              (n1 := control_n r) (n2 := treatment_n r))
    as (lo & hi & Hci & Hval); [lia | lia |].
  destruct (proportion_z_test_spec Phi self (control_successes r)
              (treatment_successes r) H1 H2) as (p & Hp & Hpv).
  rewrite Hci. simpl bind. rewrite Hp. simpl bind.
  eexists. split; [reflexivity |]. simpl. auto.
Qed.

(** C1.  For a report with two groups of positive size whose rates are
    the quotients of its counts, p1 = x1/n1 and p2 = x2/n2, as the reports
    of [MetricComputer] are, [analyze_metric] returns a report whose
    interval is [diff - z SE, diff + z SE] with diff = p2 - p1, SE the
    unpooled standard error and z = ppf(1 - alpha/2); whose p-value is
    the pooled two-sided test 2(1 - Phi(|(p2 - p1)/SE_null|)) with
    p_pooled = (x1 + x2)/(n1 + n2); and whose significance flag is
    [p_value < alpha].  The interval is built on the unpooled variance,
    the test on the pooled one. *)
Theorem analyze_metric_interval_and_test (self : t) (r : MetricReport) :
  (0 < control_n r)%Z -> (0 < treatment_n r)%Z ->
  val (control_rate r) =
    fdiv (val (control_successes r)) (Fin (IZR (control_n r))) ->
  val (treatment_rate r) =
    fdiv (val (treatment_successes r)) (Fin (IZR (treatment_n r))) ->
  let p1 := val (control_rate r) in
  let p2 := val (treatment_rate r) in
  let n1 := Fin (IZR (control_n r)) in
  let n2 := Fin (IZR (treatment_n r)) in
  let x1 := val (control_successes r) in
  let x2 := val (treatment_successes r) in
  exists rep,
    analyze_metric Phi Qf self r = Ok rep /\
    (val (ci_lower rep), val (ci_upper rep)) =
      Spec.interval Qf (val (alpha self)) p1 n1 p2 n2 /\
    val (p_value rep) = Spec.pooled_p_value Phi p1 p2 x1 n1 x2 n2 /\
    statistically_significant rep =
      flt (val (p_value rep)) (val (alpha self)).
Proof.
  intros H1 H2 E1 E2 p1 p2 n1 n2 x1 x2.
  destruct (analyze_metric_report self r H1 H2) as (rep & Hrep & Hci & Hp & Hs).
  exists rep. split; [exact Hrep |]. split; [exact Hci |].
  split; [| exact Hs].
  unfold p1, p2. rewrite E1, E2. exact Hp.
Qed.

(** No success in either group: the report carries a p-value that is
    [nan], and a significance flag that is false. *)
Lemma analyze_metric_no_success (self : t) (r : MetricReport) :
  (0 < control_n r)%Z -> (0 < treatment_n r)%Z ->
  val (control_successes r) = Fin 0 -> val (treatment_successes r) = Fin 0 ->
  exists rep,
    analyze_metric Phi Qf self r = Ok rep /\
    val (p_value rep) = NaN /\ statistically_significant rep = false.
Proof.
  intros H1 H2 E1 E2.
  destruct (analyze_metric_p_value self r H1 H2) as (rep & Hrep & Hp & Hs).
  assert (Hnan : val (p_value rep) = NaN).
  { rewrite Hp, E1, E2. apply IZR_lt in H1, H2. rewrite !fdiv_Fin by lra.
    replace (0 / IZR (treatment_n r)) with (0 / IZR (control_n r))
      by (field; lra).
    apply pooled_p_value_degenerate; try lra.
    unfold Spec.pooled_variance. field. lra. }
  exists rep. split; [assumption |]. split; [assumption |].
  now rewrite Hs, Hnan.
Qed.

(** With finite rates in [0,1], counts that are neither all failures nor
    all successes and alpha in (0,2), every number of the report is real:
    the interval and the p-value are the formulas on real numbers. *)
Lemma analyze_metric_regular (self : t) (r : MetricReport)
    (a p1 p2 x1 x2 : R) :
  (0 < control_n r)%Z -> (0 < treatment_n r)%Z ->
  val (alpha self) = Fin a -> 0 < a < 2 ->
  val (control_rate r) = Fin p1 -> 0 <= p1 <= 1 ->
  val (treatment_rate r) = Fin p2 -> 0 <= p2 <= 1 ->
  val (control_successes r) = Fin x1 ->
  val (treatment_successes r) = Fin x2 ->
  0 < x1 + x2 < IZR (control_n r) + IZR (treatment_n r) ->
  let n1 := IZR (control_n r) in
  let n2 := IZR (treatment_n r) in
  let SE := sqrt (p1 * (1 - p1) / n1 + p2 * (1 - p2) / n2) in
  let z := Qf (1 - a / 2) in
  let SE_null := sqrt (Spec.pooled_variance x1 n1 x2 n2) in
  exists rep,
    analyze_metric Phi Qf self r = Ok rep /\
    val (ci_lower rep) = Fin (p2 - p1 - z * SE) /\
    val (ci_upper rep) = Fin (p2 - p1 + z * SE) /\
    val (p_value rep) = Fin (2 * (1 - Phi (Rabs ((x2 / n2 - x1 / n1) / SE_null)))).
Proof.
  intros H1 H2 Ea Ha Ep1 Hp1 Ep2 Hp2 Ex1 Ex2 Hx n1 n2 SE z SE_null.
  destruct (proportion_z_test_spec Phi self (control_successes r)
              (treatment_successes r) H1 H2) as (p & Hp & Hpv).
  destruct (proportion_diff_ci_spec Qf self (control_rate r) (treatment_rate r)
              (n1 := control_n r) (n2 := treatment_n r))
    as (lo & hi & Hci & Hval); [lia | lia |].
  unfold analyze_metric. rewrite Hci. simpl bind. rewrite Hp. simpl bind.
  eexists. split; [reflexivity |]. simpl.
  apply IZR_lt in H1, H2. fold n1 n2 in H1, H2, Hx, Hval, Hpv.
  rewrite Ea, Ep1, Ep2 in Hval. unfold Spec.interval, Spec.z_crit, Spec.SE in Hval.
  revert Hval. fin_arith. rewrite fppf_Fin by lra.
  rewrite fsqrt_Fin.
  - fin_arith. intro Hval. injection Hval as Hlo Hhi.
    rewrite Hlo, Hhi, Hpv, Ex1, Ex2. fin_arith.
    rewrite pooled_p_value_Fin by (try apply pooled_variance_pos; lra).
    repeat split; reflexivity.
  - apply Rplus_le_le_0_compat; apply Rmult_le_pos;
      try (left; now apply Rinv_0_lt_compat); nra.
Qed.

End Analyze.

Section AnalyzeExamples.

Import InferenceEngine Example.

Lemma analyze_metric_interval_and_test_witness :
  (0 < control_n cvr_report)%Z /\ (0 < treatment_n cvr_report)%Z /\
  val (control_rate cvr_report) = fdiv (Fin 350) (Fin 10000) /\
  val (treatment_rate cvr_report) = fdiv (Fin 430) (Fin 10000) /\
  exists rep,
    analyze_metric Phi0 Qf0 engine cvr_report = Ok rep /\
    (val (ci_lower rep), val (ci_upper rep)) =
      Spec.interval Qf0 (val (alpha engine))
        (Fin 0.035) (Fin 10000) (Fin 0.043) (Fin 10000) /\
    val (p_value rep) =
      Spec.pooled_p_value Phi0 (Fin 0.035) (Fin 0.043)
        (Fin 350) (Fin 10000) (Fin 430) (Fin 10000) /\
    statistically_significant rep =
      flt (val (p_value rep)) (val (alpha engine)).
Proof.
  assert (E1 : val (control_rate cvr_report) = fdiv (Fin 350) (Fin 10000)).
  { rewrite fdiv_Fin by lra. cbn. f_equal. lra. }
  assert (E2 : val (treatment_rate cvr_report) = fdiv (Fin 430) (Fin 10000)).
  { rewrite fdiv_Fin by lra. cbn. f_equal. lra. }
  split; [reflexivity |]. split; [reflexivity |].
  split; [exact E1 |]. split; [exact E2 |].
  apply (@analyze_metric_interval_and_test Phi0 Qf0 engine cvr_report);
    [reflexivity | reflexivity | exact E1 | exact E2].
Defined.

End AnalyzeExamples.

Section MatchedGroups.

Variables Phi Qf : R -> R.

Hypothesis Phi_half : Phi 0 = 1 / 2.

Import InferenceEngine Example.

(** Matched groups: the p-value is 1 and the difference is not
    significant at the level 0.05. *)
Lemma analyze_metric_matched_groups :
  exists rep,
    analyze_metric Phi Qf engine matched_report = Ok rep /\
    val (p_value rep) = Fin 1 /\ statistically_significant rep = false.
Proof.
  destruct (analyze_metric_p_value Phi Qf engine matched_report)
    as (rep & Hrep & Hp & Hs); [simpl; lia | simpl; lia |].
  assert (Hv : 0 < Spec.pooled_variance 350 5000 350 5000)
    by (apply pooled_variance_pos; lra).
  assert (Hq := sqrt_lt_R0 _ Hv).
  assert (H1 : val (p_value rep) = Fin 1).
  { rewrite Hp. simpl. rewrite (fdiv_Fin 350 (y := 5000)) by lra.
    rewrite pooled_p_value_Fin by lra.
    replace ((350 / 5000 - 350 / 5000)
             / sqrt (Spec.pooled_variance 350 5000 350 5000)) with 0
      by (field; lra).
    rewrite Rabs_R0, Phi_half. f_equal. lra. }
  exists rep. split; [assumption |]. split; [assumption |].
  rewrite Hs, H1, engine_alpha. apply flt_Fin_false. lra.
Qed.

End MatchedGroups.

(** ** The range of the p-value *)

Section PValueRange.

Variable Phi : R -> R.

Import InferenceEngine.

(** What the development assumes of the normal distribution function. *)
Hypothesis Phi_half : Phi 0 = 1 / 2.
Hypothesis Phi_increasing : forall x y, x < y -> Phi x < Phi y.
Hypothesis Phi_le_1 : forall x, Phi x <= 1.

Lemma Phi_abs_range (z : R) : 1 / 2 <= Phi (Rabs z) <= 1.
Proof.
  split; [| apply Phi_le_1].
  destruct (Rabs_pos z) as [Hlt | Heq].
  - apply Phi_increasing in Hlt. lra.
  - rewrite <- Heq. lra.
Qed.

(** Unless every unit or no unit of the two groups succeeded, the test
    returns a p-value in [0,1]. *)
Lemma proportion_z_test_range (self : t) (x1 n1 x2 n2 : Z) :
  (0 < n1)%Z -> (0 < n2)%Z -> (0 < x1 + x2 < n1 + n2)%Z ->
  exists p v,
    _proportion_z_test Phi self (int x1) (int n1) (int x2) (int n2) = Ok p /\
    val p = Fin v /\ 0 <= v <= 1.
Proof.
  intros H1 H2 [Hlo Hhi].
  destruct (proportion_z_test_spec Phi self (int x1) (int x2) H1 H2)
    as (p & Hp & Hv).
  apply IZR_lt in H1, H2, Hlo, Hhi. rewrite plus_IZR in Hlo, Hhi.
  rewrite plus_IZR in Hhi.
  simpl val in Hv. rewrite !fdiv_Fin in Hv by lra.
  rewrite pooled_p_value_Fin in Hv
    by (try apply pooled_variance_pos; lra).
  exists p. eexists. split; [exact Hp |]. split; [exact Hv |].
  match goal with |- context [Phi (Rabs ?z)] =>
    pose proof (Phi_abs_range z) end.
  lra.
Qed.

End PValueRange.

Section PValueDegenerate.

Variable Phi : R -> R.

Import InferenceEngine.

(** When no unit of either group succeeded, the pooled standard error is
    zero, the statistic is 0/0 and the p-value is [nan]. *)
Lemma proportion_z_test_no_success (self : t) (n1 n2 : Z) :
  (0 < n1)%Z -> (0 < n2)%Z ->
  exists p,
    _proportion_z_test Phi self (int 0) (int n1) (int 0) (int n2) = Ok p /\
    val p = NaN.
Proof.
  intros H1 H2.
  destruct (proportion_z_test_spec Phi self (int 0) (int 0) H1 H2)
    as (p & Hp & Hv).
  exists p. split; [exact Hp |]. rewrite Hv.
  apply IZR_lt in H1, H2. simpl val. rewrite !fdiv_Fin by lra.
  replace (0 / IZR n2) with (0 / IZR n1) by (field; lra).
  apply pooled_p_value_degenerate; try lra.
  unfold Spec.pooled_variance. field. lra.
Qed.

(** C5 at x1 = 0, n1 = 10, x2 = 0, n2 = 10: the test returns [nan], which
    is not in [0,1]. *)
Theorem proportion_z_test_0_10_0_10 (self : t) :
  exists p,
    _proportion_z_test Phi self (int 0) (int 10) (int 0) (int 10) = Ok p /\
    val p = NaN.
Proof. apply proportion_z_test_no_success; lia. Qed.

End PValueDegenerate.

(** ** Operation B: the minimum detectable effect *)

Section MDE.

Variable Qf : R -> R.

Import InferenceEngine.

(** With a sample size other than zero nothing raises. *)
Lemma compute_mde_nonzero_size (self : t) (baseline_rate : num)
    (n_per_variant : Z) (power : num) :
  n_per_variant <> 0%Z ->
  compute_mde Qf self baseline_rate n_per_variant power =
  Ok (Num Numpy (Spec.mde Qf (val (alpha self)) (val baseline_rate)
                   (Fin (IZR n_per_variant)) (val power))).
Proof.
  intro Hn. unfold compute_mde. rewrite alpha_half. simpl bind.
  rewrite truediv_int by assumption. simpl bind.
  destruct (kind_of baseline_rate); reflexivity.
Qed.

(** C8, as the code has it.  [compute_mde] checks none of its arguments.
    It raises only when [n_per_variant] is zero and [baseline_rate] is a
    builtin number, by the division; in every other case, whatever the
    sample size, the baseline rate and the power are, it returns the value
    of the formula in IEEE arithmetic. *)
Theorem compute_mde_outcome (self : t) (baseline_rate : num)
    (n_per_variant : Z) (power : num) :
  compute_mde Qf self baseline_rate n_per_variant power =
  match n_per_variant, kind_of baseline_rate with
  | 0%Z, Builtin => Raise ZeroDivisionError
  | _, _ =>
      Ok (Num Numpy (Spec.mde Qf (val (alpha self)) (val baseline_rate)
                       (Fin (IZR n_per_variant)) (val power)))
  end.
Proof.
  destruct (Z.eq_dec n_per_variant 0) as [-> | Hn].
  - unfold compute_mde. rewrite alpha_half. simpl bind.
    destruct (kind_of baseline_rate) eqn:Hk.
    + rewrite truediv_builtin_zero; [reflexivity |].
      simpl. now rewrite Hk.
    + rewrite truediv_numpy_l by (simpl; now rewrite Hk). reflexivity.
  - rewrite compute_mde_nonzero_size by assumption.
    destruct n_per_variant; [contradiction | |];
      destruct (kind_of baseline_rate); reflexivity.
Qed.

(** A negative sample size gives [nan]. *)
Lemma mde_negative_size (alpha power : float) (p n : R) :
  0 < p < 1 -> n < 0 -> Spec.mde Qf alpha (Fin p) (Fin n) power = NaN.
Proof.
  intros Hp Hn. unfold Spec.mde. fin_arith.
  rewrite fsqrt_neg; [apply fmul_NaN_r |].
  apply Ropp_lt_cancel. rewrite Ropp_0.
  replace (- (2 * p * (1 - p) / n)) with (2 * p * (1 - p) / (- n)) by (field; lra).
  apply Rdiv_lt_0_compat; nra.
Qed.

(** A power outside [0,1] gives [nan]. *)
Lemma mde_power_outside (alpha p n : float) (w : R) :
  w < 0 \/ 1 < w -> Spec.mde Qf alpha p n (Fin w) = NaN.
Proof.
  intro Hw. unfold Spec.mde. rewrite fppf_outside by assumption.
  now rewrite fadd_NaN_r, fmul_NaN_l.
Qed.

(** With regular arguments the result is the real number of the formula. *)
Lemma mde_Fin (a p n w : R) :
  0 < a < 2 -> 0 <= p <= 1 -> 0 < n -> 0 < w < 1 ->
  Spec.mde Qf (Fin a) (Fin p) (Fin n) (Fin w) =
  Fin ((Qf (1 - a / 2) + Qf w) * sqrt (2 * p * (1 - p) / n)).
Proof.
  intros Ha Hp Hn Hw. unfold Spec.mde, Spec.z_crit. fin_arith.
  rewrite !fppf_Fin by lra. fin_arith.
  rewrite fsqrt_Fin; [reflexivity |].
  apply Rmult_le_pos; [nra |]. left. now apply Rinv_0_lt_compat.
Qed.

End MDE.

Section MDEMonotone.

Variable Qf : R -> R.

Import InferenceEngine.

(** What the development assumes of the normal quantile function. *)
Hypothesis Qf_increasing : forall p q, 0 < p -> p < q -> q < 1 -> Qf p < Qf q.
Hypothesis Qf_symmetric : forall q, 0 < q < 1 -> Qf (1 - q) = - Qf q.

(** The factor z_alpha + z_beta has the sign of power - alpha/2. *)
Lemma z_sum_pos (a w : R) :
  0 < a < 2 -> a / 2 < w < 1 -> 0 < Qf (1 - a / 2) + Qf w.
Proof.
  intros Ha Hw. rewrite Qf_symmetric by lra.
  assert (Qf (a / 2) < Qf w) by (apply Qf_increasing; lra). lra.
Qed.

Lemma z_sum_neg (a w : R) :
  0 < a < 2 -> 0 < w < a / 2 -> Qf (1 - a / 2) + Qf w < 0.
Proof.
  intros Ha Hw. rewrite Qf_symmetric by lra.
  assert (Qf w < Qf (a / 2)) by (apply Qf_increasing; lra). lra.
Qed.

Lemma sqrt_ratio_decreasing (c n m : R) :
  0 < c -> 0 < n < m -> sqrt (c / m) < sqrt (c / n).
Proof.
  intros Hc [Hn Hm]. apply sqrt_lt_1_alt. split.
  - left. apply Rdiv_lt_0_compat; lra.
  - apply Rmult_lt_compat_l; [assumption |].
    apply Rinv_lt_contravar; [nra | assumption].
Qed.

Lemma compute_mde_Fin (self : t) (baseline_rate power : num)
    (a p w : R) (n : Z) :
  val (alpha self) = Fin a -> val baseline_rate = Fin p -> val power = Fin w ->
  0 < a < 2 -> 0 <= p <= 1 -> 0 < w < 1 -> (0 < n)%Z ->
  compute_mde Qf self baseline_rate n power =
  Ok (Num Numpy (Fin ((Qf (1 - a / 2) + Qf w) * sqrt (2 * p * (1 - p) / IZR n)))).
Proof.
  intros Ea Ep Ew Ha Hp Hw Hn.
  rewrite compute_mde_nonzero_size by lia. rewrite Ea, Ep, Ew.
  apply IZR_lt in Hn. now rewrite mde_Fin.
Qed.

Lemma mde_value_decreasing (a p w n m : R) :
  0 < a < 1 -> 0 < p < 1 -> a / 2 < w < 1 -> 0 < n < m ->
  (Qf (1 - a / 2) + Qf w) * sqrt (2 * p * (1 - p) / m) <
  (Qf (1 - a / 2) + Qf w) * sqrt (2 * p * (1 - p) / n).
Proof.
  intros Ha Hp Hw Hn.
  apply Rmult_lt_compat_l; [apply z_sum_pos; lra |].
  apply sqrt_ratio_decreasing; [nra | lra].
Qed.

(** C9, as the code has it.  For a baseline rate in (0,1) and a power
    above alpha/2 (and below 1), the minimum detectable effect is strictly
    decreasing in the sample size. *)
Theorem compute_mde_decreasing (self : t) (baseline_rate power : num)
    (a p w : R) (n m : Z) :
  val (alpha self) = Fin a -> val baseline_rate = Fin p -> val power = Fin w ->
  0 < a < 1 -> 0 < p < 1 -> a / 2 < w < 1 -> (0 < n < m)%Z ->
  exists x y,
    compute_mde Qf self baseline_rate n power = Ok (Num Numpy (Fin x)) /\
    compute_mde Qf self baseline_rate m power = Ok (Num Numpy (Fin y)) /\
    y < x.
Proof.
  intros Ea Ep Ew Ha Hp Hw [Hn Hm].
  rewrite (compute_mde_Fin self baseline_rate power (n := n) Ea Ep Ew)
    by (lra || lia).
  rewrite (compute_mde_Fin self baseline_rate power (n := m) Ea Ep Ew)
    by (lra || lia).
  eexists _, _. split; [reflexivity |]. split; [reflexivity |].
  apply IZR_lt in Hn, Hm. apply mde_value_decreasing; lra.
Qed.

(** Below alpha/2 the factor is negative and the effect increases with
    the sample size. *)
Lemma compute_mde_low_power_increasing (self : t) (baseline_rate power : num)
    (a p w : R) (n m : Z) :
  val (alpha self) = Fin a -> val baseline_rate = Fin p -> val power = Fin w ->
  0 < a < 1 -> 0 < p < 1 -> 0 < w < a / 2 -> (0 < n < m)%Z ->
  exists x y,
    compute_mde Qf self baseline_rate n power = Ok (Num Numpy (Fin x)) /\
    compute_mde Qf self baseline_rate m power = Ok (Num Numpy (Fin y)) /\
    x < y.
Proof.
  intros Ea Ep Ew Ha Hp Hw [Hn Hm].
  rewrite (compute_mde_Fin self baseline_rate power (n := n) Ea Ep Ew)
    by (lra || lia).
  rewrite (compute_mde_Fin self baseline_rate power (n := m) Ea Ep Ew)
    by (lra || lia).
  eexists _, _. split; [reflexivity |]. split; [reflexivity |].
  apply IZR_lt in Hn, Hm.
  assert (Hs := z_sum_neg (a := a) (w := w)).
  assert (Hq : sqrt (2 * p * (1 - p) / IZR m) < sqrt (2 * p * (1 - p) / IZR n))
    by (apply sqrt_ratio_decreasing; [nra | lra]).
  assert (0 < - (Qf (1 - a / 2) + Qf w)) by lra.
  nra.
Qed.

(** The sizing of the tests: at confidence 0.95, baseline 0.035 and power
    0.8, four times the sample gives a smaller effect. *)
Lemma compute_mde_25000_100000 :
  exists x y,
    compute_mde Qf Example.engine (lit 0.035) 25000 (lit 0.8)
      = Ok (Num Numpy (Fin x)) /\
    compute_mde Qf Example.engine (lit 0.035) 100000 (lit 0.8)
      = Ok (Num Numpy (Fin y)) /\
    y < x.
Proof.
  rewrite !(compute_mde_Fin Example.engine (lit 0.035) (lit 0.8)
              (a := 1 - 0.95) (p := 0.035) (w := 0.8))
    by (apply engine_alpha || reflexivity || lra || lia).
  eexists _, _. split; [reflexivity |]. split; [reflexivity |].
  apply mde_value_decreasing; lra.
Qed.

End MDEMonotone.

Section MDEExamples.

Import InferenceEngine Example.

(** C8 as stated fails: with a negative sample size nothing is raised,
    the result is [nan]. *)
Lemma compute_mde_negative_size_returns_nan :
  exists v,
    compute_mde Qf0 engine (lit 0.035) (-25000) (lit 0.8) = Ok v /\
    val v = NaN.
Proof.
  rewrite compute_mde_nonzero_size by lia.
  eexists. split; [reflexivity |]. simpl val.
  apply mde_negative_size; lra.
Qed.

(** C9 as stated fails: at power 0.01, below alpha/2 = 0.025, the larger
    sample has the larger effect. *)
Lemma compute_mde_low_power_not_decreasing :
  exists x y,
    compute_mde Qf0 engine (lit 0.035) 25000 (lit 0.01)
      = Ok (Num Numpy (Fin x)) /\
    compute_mde Qf0 engine (lit 0.035) 100000 (lit 0.01)
      = Ok (Num Numpy (Fin y)) /\
    ~ y < x.
Proof.
  destruct (@compute_mde_low_power_increasing Qf0 Qf0_increasing Qf0_symmetric
              engine (lit 0.035) (lit 0.01) (1 - 0.95) 0.035 0.01 25000 100000)
    as (x & y & Hx & Hy & Hlt);
    try (apply engine_alpha || reflexivity || lra || lia).
  exists x, y. repeat split; trivial. lra.
Qed.

Lemma compute_mde_decreasing_witness :
  (0 < 25000 < 100000)%Z /\
  exists x y,
    compute_mde Qf0 engine (lit 0.035) 25000 (lit 0.8)
      = Ok (Num Numpy (Fin x)) /\
    compute_mde Qf0 engine (lit 0.035) 100000 (lit 0.8)
      = Ok (Num Numpy (Fin y)) /\
    y < x.
Proof.
  split; [lia |].
  apply (@compute_mde_decreasing Qf0 Qf0_increasing Qf0_symmetric
           engine (lit 0.035) (lit 0.8) (1 - 0.95) 0.035 0.8 25000 100000);
    try (apply engine_alpha || reflexivity || lra || lia).
Defined.

End MDEExamples.

Section PreconditionExamples.

Import InferenceEngine Example.

Lemma analyze_metric_empty_group_raises_witness :
  (control_n empty_treatment_report = 0%Z \/
   treatment_n empty_treatment_report = 0%Z) /\
  analyze_metric Phi0 Qf0 engine empty_treatment_report
    = Raise ZeroDivisionError.
Proof.
  split; [right; reflexivity |].
  apply (analyze_metric_empty_group_raises Phi0 Qf0 engine
           empty_treatment_report).
  right. reflexivity.
Defined.

End PreconditionExamples.

(** ** Metric aggregation *)

Section Aggregation.

Import MetricComputer.

Lemma same_sym (a b : cell) : same a b = same b a.
Proof.
  unfold same. destruct (cell_eq_dec a b), (cell_eq_dec b a); congruence.
Qed.

Lemma filter_filter_andb (A : Type) (f g : A -> bool) (l : list A) :
  filter g (filter f l) = filter (fun a => f a && g a) l.
Proof.
  induction l as [| a l IH]; simpl; trivial.
  destruct (f a); simpl; [destruct (g a) |]; now rewrite IH.
Qed.

(** The successes of a group, counted on its outcome column. *)
Lemma count_true_group (d : DataFrame) (v outcome : string) :
  count_true (map (fun r : row => r outcome) (filter (Spec.in_group v) (rows d)))
  = Spec.group_successes d v outcome.
Proof.
  unfold count_true, Spec.group_successes.
  rewrite filter_map_swap, length_map, filter_filter_andb.
  f_equal. f_equal. apply filter_ext. intro r. now rewrite same_sym.
Qed.

Lemma group_successes_bounds (d : DataFrame) (v outcome : string) :
  (0 <= Spec.group_successes d v outcome <= Spec.group_n d v)%Z.
Proof.
  unfold Spec.group_successes, Spec.group_n.
  rewrite <- filter_filter_andb.
  pose proof (filter_length_le (fun r : row => same (r outcome) (Bool true))
                (filter (Spec.in_group v) (rows d))).
  lia.
Qed.

Lemma has_str_binary (outcome : string) (l : list row) :
  forallb (fun r : row => match r outcome with Bool _ => true | _ => false end) l
    = true ->
  has_str (map (fun r : row => r outcome) l) = false.
Proof.
  induction l as [| r l IH]; simpl; trivial.
  intro H. apply andb_true_iff in H as [Hr Hl].
  rewrite (IH Hl). now destruct (r outcome).
Qed.

Lemma forallb_filter_weaken (A : Type) (f g : A -> bool) (l : list A) :
  forallb f l = true -> forallb f (filter g l) = true.
Proof.
  rewrite !forallb_forall. intros H x Hx. apply filter_In in Hx. now apply H.
Qed.

(** The rate of a group of [n] units with [x] successes: [x / n] guarded
    by [n > 0]. *)
Lemma group_rate (x n : Z) :
  (0 <= x <= n)%Z ->
  exists rate c,
    (if (0 <? n)%Z then truediv (np_int x) (int n) else Ok (int 0)) = Ok rate /\
    val rate = Fin c /\
    ((0 < n)%Z -> c = IZR x / IZR n) /\ (n = 0%Z -> c = 0) /\ 0 <= c <= 1.
Proof.
  intros [Hx Hn]. destruct (0 <? n)%Z eqn:E.
  - apply Z.ltb_lt in E. rewrite truediv_int by lia.
    eexists _, _. split; [reflexivity |]. simpl val.
    assert (Hn' := IZR_lt _ _ E). assert (Hx' := IZR_le _ _ Hx).
    assert (Hxn := IZR_le _ _ Hn).
    rewrite fdiv_Fin by lra.
    split; [reflexivity |]. split; [reflexivity |]. split; [lia |].
    split.
    + apply Rmult_le_pos; [lra |]. left. now apply Rinv_0_lt_compat.
    + apply Rmult_le_reg_r with (IZR n); [lra |].
      replace (IZR x / IZR n * IZR n) with (IZR x) by (field; lra). lra.
  - apply Z.ltb_ge in E. exists (int 0), 0. simpl.
    repeat split; trivial; try lra; lia.
Qed.

(** The lift relative to the control rate, guarded by [control_rate > 0]. *)
Lemma relative_lift (lift rate : num) (l c : R) :
  val lift = Fin l -> val rate = Fin c -> 0 <= c ->
  exists rel x,
    (if gtb rate (int 0)
     then bind (truediv lift rate) (fun q => Ok (mul q (int 100)))
     else Ok (int 0)) = Ok rel /\
    val rel = Fin x /\ (0 < c -> x = l / c * 100) /\ (c = 0 -> x = 0).
Proof.
  intros El Ec Hc. unfold gtb. rewrite Ec. simpl val.
  destruct (Rlt_dec 0 c) as [Hpos | Hzero].
  - rewrite flt_Fin_true by assumption.
    destruct rate as [k v]. simpl in Ec. subst v.
    rewrite truediv_nonzero by lra. simpl bind.
    eexists _, _. split; [reflexivity |]. simpl val. rewrite El.
    rewrite fdiv_Fin by lra. fin_arith.
    split; [reflexivity |]. split; [reflexivity | lra].
  - rewrite flt_Fin_false by lra.
    exists (int 0), 0. simpl. repeat split; trivial; lra.
Qed.

(** Selecting the units of a variant. *)
Lemma where_eq_variant (d : DataFrame) (v : string) :
  has_column d "variant" = true ->
  where_eq d "variant" (Str v) =
  Ok {| columns := columns d; rows := filter (Spec.in_group v) (rows d) |}.
Proof. intro H. unfold where_eq. now rewrite H. Qed.

(** The outcome column of a group, and its sum. *)
Lemma getitem_group (d : DataFrame) (v outcome : string) :
  Spec.binary_column d outcome = true ->
  getitem {| columns := columns d; rows := filter (Spec.in_group v) (rows d) |}
          outcome
  = Ok (map (fun r : row => r outcome) (filter (Spec.in_group v) (rows d))).
Proof.
  unfold Spec.binary_column. intro H. apply andb_true_iff in H as [Hc Hb].
  unfold getitem, has_column in *. simpl columns. now rewrite Hc.
Qed.

Lemma Series_sum_group (d : DataFrame) (v outcome : string) :
  Spec.binary_column d outcome = true ->
  Series_sum (map (fun r : row => r outcome) (filter (Spec.in_group v) (rows d)))
  = Ok (np_int (Spec.group_successes d v outcome)).
Proof.
  unfold Spec.binary_column. intro H. apply andb_true_iff in H as [Hc Hb].
  unfold Series_sum.
  rewrite has_str_binary by now apply forallb_filter_weaken.
  now rewrite count_true_group.
Qed.

(** C2.  On a frame with a variant column and a binary outcome column the
    aggregation returns a report and raises nothing.  In the report the size
    and the successes of each group are the counts of the frame; each rate is
    successes/n when n > 0 and 0 when n = 0, a real number in [0,1];
    [absolute_lift] is the treatment rate less the control rate; and
    [relative_lift_pct] is absolute_lift/control_rate x 100 when the control
    rate is positive and 0 when it is 0. *)
Theorem compute_binary_metric_total (self : t) (name outcome : string) :
  has_column (df self) "variant" = true ->
  Spec.binary_column (df self) outcome = true ->
  exists (r : MetricReport) (c t rel : R),
    _compute_binary_metric self name outcome = Ok r /\
    control_n r = Spec.group_n (df self) "control" /\
    treatment_n r = Spec.group_n (df self) "treatment" /\
    val (control_successes r)
      = Fin (IZR (Spec.group_successes (df self) "control" outcome)) /\
    val (treatment_successes r)
      = Fin (IZR (Spec.group_successes (df self) "treatment" outcome)) /\
    val (control_rate r) = Fin c /\
    val (treatment_rate r) = Fin t /\
    ((0 < control_n r)%Z ->
       c = IZR (Spec.group_successes (df self) "control" outcome)
           / IZR (control_n r)) /\
    (control_n r = 0%Z -> c = 0) /\
    ((0 < treatment_n r)%Z ->
       t = IZR (Spec.group_successes (df self) "treatment" outcome)
           / IZR (treatment_n r)) /\
    (treatment_n r = 0%Z -> t = 0) /\
    0 <= c <= 1 /\ 0 <= t <= 1 /\
    val (absolute_lift r) = Fin (t - c) /\
    val (relative_lift_pct r) = Fin rel /\
    (0 < c -> rel = (t - c) / c * 100) /\
    (c = 0 -> rel = 0).
Proof.
  intros Hv Hb. unfold _compute_binary_metric.
  rewrite !where_eq_variant by assumption. simpl bind.
  rewrite !getitem_group by assumption. simpl bind.
  rewrite !Series_sum_group by assumption. simpl bind.
  destruct (group_rate (group_successes_bounds (df self) "control" outcome))
    as (cr & c & Hcr & Ec & Hc1 & Hc0 & Hcb).
  destruct (group_rate (group_successes_bounds (df self) "treatment" outcome))
    as (tr & t & Htr & Et & Ht1 & Ht0 & Htb).
  destruct (@relative_lift (sub tr cr) cr (t - c) c)
    as (rl & rel & Hrl & Erel & Hr1 & Hr0);
    [simpl; rewrite Et, Ec; reflexivity | assumption | lra |].
  unfold len. simpl rows. fold (Spec.group_n (df self) "control").
  fold (Spec.group_n (df self) "treatment").
  rewrite Hcr. simpl bind. rewrite Htr. simpl bind. rewrite Hrl. simpl bind.
  eexists _, c, t, rel. split; [reflexivity |]. simpl.
  rewrite Ec, Et. repeat split; trivial; try lra.
Qed.

End Aggregation.

Section AggregationExamples.

Import MetricComputer Example.

Lemma compute_binary_metric_total_witness :
  has_column frame "variant" = true /\
  Spec.binary_column frame "converted" = true /\
  exists (r : MetricReport) (c t rel : R),
    _compute_binary_metric {| df := frame; eligible_only := false |}
      "CVR" "converted" = Ok r /\
    control_n r = 2%Z /\ treatment_n r = 2%Z /\
    val (control_rate r) = Fin c /\ val (treatment_rate r) = Fin t /\
    0 <= c <= 1 /\ 0 <= t <= 1 /\
    val (absolute_lift r) = Fin (t - c) /\
    val (relative_lift_pct r) = Fin rel.
Proof.
  split; [reflexivity |]. split; [reflexivity |].
  destruct (@compute_binary_metric_total {| df := frame; eligible_only := false |}
              "CVR" "converted" eq_refl eq_refl)
    as (r & c & t & rel & H & Hn1 & Hn2 & _ & _ & Hc & Ht & _ & _ & _ & _ & Hcb
        & Htb & Hl & Hr & _).
  exists r, c, t, rel. repeat split; trivial; tauto.
Defined.

End AggregationExamples.

(** ** Validation: the overall verdict *)

Section Verdict.

Import ValidationResult.

Lemma passed_iff (rep : ValidationReport.t) :
  ValidationReport.passed rep = true <->
  (forall r, In r (ValidationReport.results rep) ->
             severity r = "error"%string -> passed r = true).
Proof.
  unfold ValidationReport.passed. rewrite forallb_forall. split.
  - intros H r Hin Hsev. apply H. apply filter_In. split; [assumption |].
    now apply String.eqb_eq.
  - intros H r Hin. apply filter_In in Hin as [Hin Hsev].
    apply H; [assumption |]. now apply String.eqb_eq.
Qed.

Lemma passed_skips (l1 l2 : list ValidationResult.t) (w : ValidationResult.t) :
  severity w <> "error"%string ->
  ValidationReport.passed {| ValidationReport.results := l1 ++ w :: l2 |} =
  ValidationReport.passed {| ValidationReport.results := l1 ++ l2 |}.
Proof.
  intro H. unfold ValidationReport.passed. simpl.
  rewrite !filter_app. simpl.
  destruct (String.eqb (severity w) "error") eqn:E; [| reflexivity].
  apply String.eqb_eq in E. contradiction.
Qed.

(** The eligibility check warns below 80% and passes from 80% on; it
    raises nothing on a frame with rows and a boolean eligibility column. *)
Lemma check_eligibility_outcome (self : DataValidator.t) :
  Spec.binary_column (DataValidator.df self) "eligible" = true ->
  (0 < len (DataValidator.df self))%Z ->
  exists w,
    DataValidator._check_eligibility self = Ok (DataValidator.append self w) /\
    check_name w = "Eligibility Check"%string /\
    if (100 * Spec.eligible_count (DataValidator.df self)
        <? 80 * len (DataValidator.df self))%Z
    then passed w = false /\ severity w = "warning"%string
    else passed w = true /\ severity w = "error"%string.
Proof.
  intros Hb Hn. unfold DataValidator._check_eligibility.
  unfold Spec.binary_column in Hb. apply andb_true_iff in Hb as [Hc Hb].
  unfold getitem. rewrite Hc. simpl bind.
  unfold Series_sum. rewrite has_str_binary by assumption. simpl bind.
  fold (Spec.eligible_count (DataValidator.df self)).
  set (k := Spec.eligible_count (DataValidator.df self)).
  set (n := len (DataValidator.df self)) in *.
  unfold ltb. simpl val.
  assert (Hn' := IZR_lt _ _ Hn). rewrite fdiv_Fin by lra. fin_arith.
  destruct (100 * k <? 80 * n)%Z eqn:E.
  - apply Z.ltb_lt in E. apply IZR_lt in E. rewrite !mult_IZR in E.
    rewrite flt_Fin_true.
    + eexists. split; [reflexivity |]. simpl. auto.
    + apply Rmult_lt_reg_r with (IZR n); [lra |].
      replace (IZR k / IZR n * 100 * IZR n) with (100 * IZR k) by (field; lra).
      lra.
  - apply Z.ltb_ge in E. apply IZR_le in E. rewrite !mult_IZR in E.
    rewrite flt_Fin_false.
    + eexists. split; [reflexivity |]. simpl. auto.
    + apply Rmult_le_reg_r with (IZR n); [lra |].
      replace (IZR k / IZR n * 100 * IZR n) with (100 * IZR k) by (field; lra).
      lra.
Qed.

(** C7.  The overall verdict of a report is true exactly when every result
    of severity error passed; a result of another severity, such as a
    warning, does not change it wherever it stands in the report; and the
    eligibility check below 80% (at 50% for one) appends a failed result of
    severity warning, which leaves the verdict as it was. *)
Theorem warnings_never_block :
  (forall rep : ValidationReport.t,
     ValidationReport.passed rep = true <->
     (forall r, In r (ValidationReport.results rep) ->
                severity r = "error"%string -> passed r = true)) /\
  (forall (l1 l2 : list ValidationResult.t) (w : ValidationResult.t),
     severity w = "warning"%string -> passed w = false ->
     ValidationReport.passed {| ValidationReport.results := l1 ++ w :: l2 |} =
     ValidationReport.passed {| ValidationReport.results := l1 ++ l2 |}) /\
  (forall self : DataValidator.t,
     Spec.binary_column (DataValidator.df self) "eligible" = true ->
     (0 < len (DataValidator.df self))%Z ->
     (100 * Spec.eligible_count (DataValidator.df self)
      < 80 * len (DataValidator.df self))%Z ->
     exists w,
       DataValidator._check_eligibility self = Ok (DataValidator.append self w) /\
       passed w = false /\ severity w = "warning"%string /\
       ValidationReport.passed
         {| ValidationReport.results :=
              DataValidator.results (DataValidator.append self w) |} =
       ValidationReport.passed
         {| ValidationReport.results := DataValidator.results self |}).
Proof.
  split; [exact passed_iff |]. split.
  - intros l1 l2 w Hs _. apply passed_skips. rewrite Hs. discriminate.
  - intros self Hb Hn Hlow.
    destruct (check_eligibility_outcome self Hb Hn) as (w & Hw & _ & Hcase).
    apply Z.ltb_lt in Hlow. rewrite Hlow in Hcase. destruct Hcase as [Hp Hs].
    exists w. repeat split; trivial.
    unfold DataValidator.append. simpl DataValidator.results.
    rewrite <- (app_nil_r (DataValidator.results self)) at 2.
    apply passed_skips. rewrite Hs. discriminate.
Qed.

(** At 50% eligible: a failed result of severity warning. *)
Lemma check_eligibility_half :
  exists w,
    DataValidator._check_eligibility
      (DataValidator.__init__ Example.half_eligible_frame)
    = Ok (DataValidator.append
            (DataValidator.__init__ Example.half_eligible_frame) w) /\
    passed w = false /\ severity w = "warning"%string.
Proof.
  destruct (check_eligibility_outcome
              (DataValidator.__init__ Example.half_eligible_frame))
    as (w & Hw & _ & Hcase); [reflexivity | reflexivity |].
  exists w. split; [exact Hw |]. exact Hcase.
Qed.

End Verdict.

(** ** Validation: the sample ratio mismatch check *)

Section SRM.

Import ValidationResult.

Lemma same_true (a b : cell) : same a b = true <-> a = b.
Proof. unfold same. destruct (cell_eq_dec a b); split; congruence. Qed.

Lemma In_Series_unique (x : cell) (s : Series) :
  In x (Series_unique s) <-> In x s.
Proof.
  induction s as [| c s IH]; simpl; [tauto |].
  rewrite filter_In, IH, negb_true_iff. unfold same.
  destruct (cell_eq_dec x c) as [-> | Hne]; [tauto |].
  split; [tauto |]. intros [-> | H]; [contradiction | tauto].
Qed.

Lemma find_counts (c : cell -> Z) (key : cell) (l : list cell) :
  find (fun kv : cell * Z => same (fst kv) key) (map (fun v => (v, c v)) l) =
  match find (fun v => same v key) l with
  | Some v => Some (v, c v)
  | None => None
  end.
Proof.
  induction l as [| v l IH]; simpl; trivial.
  destruct (same v key); [reflexivity | exact IH].
Qed.

(** The count a variant is observed with: the number of its rows, also
    when it does not occur and the default is returned. *)
Lemma get_value_counts (d : DataFrame) (v : string) :
  val (get (Series_value_counts (map (fun r : row => r "variant"%string) (rows d)))
           (Str v) 0)
  = Fin (IZR (Spec.group_n d v)).
Proof.
  set (s := map (fun r : row => r "variant"%string) (rows d)).
  assert (Hcount : Z.of_nat (length (filter (same (Str v)) s)) = Spec.group_n d v).
  { unfold Spec.group_n, s. rewrite filter_map_swap, length_map.
    f_equal. f_equal. apply filter_ext. intro r. unfold Spec.in_group, eqb.
    rewrite same_sym. destruct (r "variant"%string); reflexivity. }
  unfold get, Series_value_counts. rewrite find_counts.
  destruct (find (fun v0 => same v0 (Str v)) _) as [k |] eqn:E.
  - apply find_some in E as [_ E]. apply same_true in E. subst k.
    simpl. now rewrite Hcount.
  - simpl. rewrite <- Hcount. do 3 f_equal.
    destruct (filter (same (Str v)) s) as [| x l] eqn:F; [reflexivity |].
    exfalso.
    assert (Hx : In x (filter (same (Str v)) s)) by (rewrite F; now left).
    apply filter_In in Hx as [Hin Hs]. apply same_true in Hs. subst x.
    assert (Ht : same (Str v) (Str v) = true) by now apply same_true.
    rewrite (find_none _ _ E (Str v)) in Ht; [discriminate |].
    apply filter_In. split; [now apply In_Series_unique | reflexivity].
Qed.

End SRM.

(** ** The rounding of the check *)

Section RoundingFacts.

Variable rnd : R -> R.

Hypothesis rnd_nearest : Spec.rounds_to_nearest rnd.

Lemma rnd_monotone (x y : R) : x <= y -> rnd x <= rnd y.
Proof. apply rnd_nearest. Qed.

Lemma rnd_double (x : R) : double x -> rnd x = x.
Proof. apply rnd_nearest. Qed.

Lemma double_Z (z : Z) : (Z.abs z <= 2 ^ 53)%Z -> double (IZR z).
Proof.
  intro H. exists z, 0%nat. split; [exact H |]. split; [lia |].
  simpl. field.
Qed.

Lemma rnd_Z (z : Z) : (Z.abs z <= 2 ^ 53)%Z -> rnd (IZR z) = IZR z.
Proof. intro H. now apply rnd_double, double_Z. Qed.


Lemma double_pow (e : nat) : (e <= 1074)%nat -> double (1 / 2 ^ e).
Proof.
  intro H. exists 1%Z, e. split; [simpl; lia |]. split; [exact H |].
  reflexivity.
Qed.

(** A number that is at least a positive double is not rounded to zero. *)
Lemma rnd_pos (d x : R) : double d -> 0 < d -> d <= x -> 0 < rnd x.
Proof.
  intros Hd Hpos Hle. apply rnd_monotone in Hle. rewrite (rnd_double Hd) in Hle.
  lra.
Qed.

(** The two expected counts of a table with rows, for a ratio that is a
    double inside (0,1), are positive. *)
Lemma expected_control_pos (N r : R) :
  double r -> 0 < r -> 1 <= N -> 0 < Spec.expected_control rnd N r.
Proof.
  intros Hd Hr HN. unfold Spec.expected_control.
  apply (rnd_pos Hd Hr). nra.
Qed.

Lemma one_minus_double (r : R) :
  double r -> r < 1 -> exists e, (e <= 1074)%nat /\ 1 / 2 ^ e <= 1 - r.
Proof.
  intros (m & e & Hm & He & ->) Hlt. exists e. split; [exact He |].
  assert (Hp : 0 < 2 ^ e) by (apply pow_lt; lra).
  assert (Hz : (m < 2 ^ Z.of_nat e)%Z).
  { apply lt_IZR. rewrite <- (Z2Nat.id 2) by lia.
    rewrite <- Nat2Z.inj_pow, <- INR_IZR_INZ, pow_INR.
    change (INR (Z.to_nat 2)) with (INR 2). simpl INR.
    replace (1 + 1) with 2 by ring.
    apply Rmult_lt_reg_r with (/ 2 ^ e); [now apply Rinv_0_lt_compat |].
    rewrite Rinv_r by lra. exact Hlt. }
  assert (Hz' : IZR m + 1 <= 2 ^ e).
  { assert (K : (m + 1 <= 2 ^ Z.of_nat e)%Z) by lia.
    apply IZR_le in K. rewrite plus_IZR in K.
    rewrite <- (Z2Nat.id 2) in K by lia.
    rewrite <- Nat2Z.inj_pow, <- INR_IZR_INZ, pow_INR in K.
    change (INR (Z.to_nat 2)) with (INR 2) in K. simpl INR in K.
    replace (1 + 1) with 2 in K by ring. exact K. }
  apply Rmult_le_reg_r with (2 ^ e); [exact Hp |].
  replace (1 / 2 ^ e * 2 ^ e) with 1 by (field; lra).
  replace ((1 - IZR m / 2 ^ e) * 2 ^ e) with (2 ^ e - IZR m) by (field; lra).
  lra.
Qed.

Lemma expected_treatment_pos (N r : R) :
  double r -> r < 1 -> 1 <= N -> 0 < Spec.expected_treatment rnd N r.
Proof.
  intros Hd Hr HN. unfold Spec.expected_treatment.
  destruct (one_minus_double Hd Hr) as (e & He & Hle).
  assert (Hp : 0 < 1 / 2 ^ e).
  { apply Rdiv_lt_0_compat; [lra | apply pow_lt; lra]. }
  assert (H1 : 1 / 2 ^ e <= rnd (1 - r)).
  { rewrite <- (rnd_double (double_pow He)). now apply rnd_monotone. }
  apply (rnd_pos (double_pow He) Hp). nra.
Qed.

End RoundingFacts.

Section SRMCheck.

Import ValidationResult.

Variable rnd : R -> R.

Hypothesis rnd_nearest : Spec.rounds_to_nearest rnd.

Lemma fround_Fin (x : R) : fround rnd (Fin x) = Fin (rnd x).
Proof. reflexivity. Qed.

(** What the check does on a frame with rows, for a ratio that is a
    double inside (0,1). *)
Lemma srm_outcome (cfg : config.t) (self : DataValidator.t) (r : R) :
  has_column (DataValidator.df self) "variant" = true ->
  val (config.ALLOCATION_RATIO cfg) = Fin r -> double r -> 0 < r < 1 ->
  (0 < len (DataValidator.df self))%Z ->
  exists w,
    DataValidator._check_sample_ratio_mismatch rnd cfg self
      = Ok (DataValidator.append self w) /\
    check_name w = "Sample Ratio Mismatch (SRM)"%string /\
    severity w = "error"%string /\
    passed w =
      negb (flt (Fin (Spec.critical_value rnd))
              (Fin (Spec.chi_square rnd (IZR (len (DataValidator.df self))) r
                      (IZR (Spec.group_n (DataValidator.df self) "control"))
                      (IZR (Spec.group_n (DataValidator.df self) "treatment"))))).
Proof.
  intros Hv Er Hd Hr Hn. unfold DataValidator._check_sample_ratio_mismatch.
  unfold getitem. rewrite Hv. simpl bind.
  pose proof (get_value_counts (DataValidator.df self) "control") as Hc.
  pose proof (get_value_counts (DataValidator.df self) "treatment") as Ht.
  destruct (get _ (Str "control") 0) as [kc vc]. simpl in Hc. subst vc.
  destruct (get _ (Str "treatment") 0) as [kt vt]. simpl in Ht. subst vt.
  destruct (config.ALLOCATION_RATIO cfg) as [kr vr]. simpl in Er. subst vr.
  set (N := IZR (len (DataValidator.df self))).
  set (oc := IZR (Spec.group_n (DataValidator.df self) "control")).
  set (ot := IZR (Spec.group_n (DataValidator.df self) "treatment")).
  assert (HN : 1 <= N).
  { unfold N. apply IZR_le. lia. }
  assert (He1 := expected_control_pos rnd_nearest Hd (proj1 Hr) HN).
  assert (He2 := expected_treatment_pos rnd_nearest Hd (proj2 Hr) HN).
  unfold Spec.expected_control in He1. unfold Spec.expected_treatment in He2.
  unfold fl, pow2, abs, mul, sub, int. cbn [kind_of val]. fold N.
  repeat (fin_arith; rewrite ?fround_Fin).
  rewrite !truediv_nonzero by lra. cbn [bind kind_of val].
  repeat (fin_arith; rewrite ?fround_Fin).
  unfold gtb, add, DataValidator.critical_value, lit. cbn [kind_of val].
  repeat (fin_arith; rewrite ?fround_Fin).
  fold (Rsqr (rnd (oc - rnd (N * r)))).
  fold (Rsqr (rnd (ot - rnd (N * rnd (1 - r))))).
  fold (Spec.expected_control rnd N r). fold (Spec.expected_treatment rnd N r).
  fold (Spec.chi_term rnd oc (Spec.expected_control rnd N r)).
  fold (Spec.chi_term rnd ot (Spec.expected_treatment rnd N r)).
  fold (Spec.chi_square rnd N r oc ot). fold (Spec.critical_value rnd).
  destruct (flt (Fin (Spec.critical_value rnd)) (Fin (Spec.chi_square rnd N r oc ot)));
    eexists; (split; [reflexivity |]); simpl; auto.
Qed.






(** On a frame without rows the expected counts are zero and the first
    quotient of the statistic, between builtin numbers, raises. *)
Lemma srm_no_rows (cfg : config.t) (self : DataValidator.t) (r : R) :
  has_column (DataValidator.df self) "variant" = true ->
  rows (DataValidator.df self) = [] ->
  kind_of (config.ALLOCATION_RATIO cfg) = Builtin ->
  val (config.ALLOCATION_RATIO cfg) = Fin r ->
  DataValidator._check_sample_ratio_mismatch rnd cfg self
  = Raise ZeroDivisionError.
Proof.
  intros Hv E Hk Er. unfold DataValidator._check_sample_ratio_mismatch, getitem.
  rewrite Hv. unfold len. rewrite E. cbn [bind map length Z.of_nat].
  change (get (Series_value_counts []) (Str "control") 0) with (int 0).
  destruct (config.ALLOCATION_RATIO cfg) as [kr vr]. cbn in Hk, Er. subst kr vr.
  unfold truediv at 1. unfold fl, pow2, mul, sub, int. cbn [kind_of val join].
  repeat (fin_arith; rewrite ?fround_Fin).
  replace (0 * r) with (IZR 0) by lra.
  rewrite (rnd_Z rnd_nearest) by lia. now rewrite fis_zero_0.
Qed.

End SRMCheck.

Section SRMExamples.

Import ValidationResult Example.

Lemma exact_rounds_to_nearest : Spec.rounds_to_nearest exact.
Proof. split; intros; assumption || reflexivity. Qed.

Lemma double_0_5 : double 0.5.
Proof.
  exists 1%Z, 1%nat. split; [simpl; lia |]. split; [lia |]. simpl. lra.
Qed.



End SRMExamples.

(** ** Validation: the run of the six checks *)

Section Validate.

Import ValidationResult Example.

Lemma check_schema_total (self : DataValidator.t) :
  exists w,
    DataValidator._check_schema self = Ok (DataValidator.append self w) /\
    check_name w = "Schema Check"%string.
Proof.
  unfold DataValidator._check_schema.
  destruct (filter _ DataValidator.required_cols);
    eexists; (split; [reflexivity |]); reflexivity.
Qed.

(** The null check selects its five columns first: when one of them is
    missing the selection raises [KeyError]. *)
Lemma check_nulls_missing_column (self : DataValidator.t) (c : string) :
  In c DataValidator.required_non_null ->
  has_column (DataValidator.df self) c = false ->
  exists keys,
    DataValidator._check_nulls self = Raise (KeyError keys) /\ In c keys.
Proof.
  intros Hin Hc. unfold DataValidator._check_nulls, getitems.
  destruct (filter _ DataValidator.required_non_null) as [| k keys] eqn:E.
  - exfalso.
    assert (H : In c (filter (fun c0 => negb (has_column (DataValidator.df self) c0))
                        DataValidator.required_non_null)).
    { apply filter_In. split; [assumption |]. now rewrite Hc. }
    rewrite E in H. contradiction.
  - exists (k :: keys). split; [reflexivity |].
    rewrite <- E. apply filter_In. split; [assumption |]. now rewrite Hc.
Qed.

(** A frame without one of the five columns: the run raises, also though
    the schema check has recorded its failure, and no report is returned. *)
Lemma validate_missing_column (rnd : R -> R) (cfg : config.t) (d : DataFrame)
    (c : string) :
  In c DataValidator.required_non_null ->
  has_column d c = false ->
  exists keys,
    DataValidator.validate rnd cfg (DataValidator.__init__ d)
      = Raise (KeyError keys)
    /\ In c keys.
Proof.
  intros Hin Hc. unfold DataValidator.validate.
  destruct (check_schema_total (DataValidator.__init__ d)) as (w & Hw & _).
  rewrite Hw. simpl bind.
  destruct (@check_nulls_missing_column
              (DataValidator.append (DataValidator.__init__ d) w) c Hin Hc)
    as (keys & Hk & Hin').
  rewrite Hk. exists keys. split; [reflexivity | assumption].
Qed.

(** C6 on the table of the repository's own test, the valid table without
    its column [clicked]: the run ends in [KeyError] and returns no report,
    whatever the rounding of the later SRM check. *)
Theorem validate_without_clicked_raises (rnd : R -> R) :
  DataValidator.validate rnd config.default
    (DataValidator.__init__ frame_without_clicked)
  = Raise (KeyError ["clicked"%string]).
Proof. reflexivity. Qed.

Lemma filter_none (A : Type) (f : A -> bool) (l : list A) :
  forallb f l = true -> filter (fun a => negb (f a)) l = [].
Proof.
  induction l as [| a l IH]; simpl; trivial.
  intro H. apply andb_true_iff in H as [Ha Hl]. rewrite Ha. simpl. now apply IH.
Qed.

Lemma check_nulls_total (self : DataValidator.t) :
  forallb (has_column (DataValidator.df self)) DataValidator.required_non_null
    = true ->
  exists w,
    DataValidator._check_nulls self = Ok (DataValidator.append self w) /\
    check_name w = "Null Check"%string.
Proof.
  intro H. unfold DataValidator._check_nulls, getitems.
  rewrite (filter_none _ _ H). simpl bind.
  match goal with |- context [if ?b then _ else _] => destruct b end;
    eexists; (split; [reflexivity |]); reflexivity.
Qed.

Lemma check_variants_total (self : DataValidator.t) :
  has_column (DataValidator.df self) "variant" = true ->
  exists w,
    DataValidator._check_variants self = Ok (DataValidator.append self w) /\
    check_name w = "Variant Integrity"%string.
Proof.
  intro H. unfold DataValidator._check_variants, getitem. rewrite H. simpl bind.
  match goal with |- context [match ?l with [] => _ | _ :: _ => _ end] =>
    destruct l end;
    eexists; (split; [reflexivity |]); reflexivity.
Qed.

Lemma check_contamination_total (self : DataValidator.t) :
  has_column (DataValidator.df self) "user_id" = true ->
  has_column (DataValidator.df self) "variant" = true ->
  exists w,
    DataValidator._check_contamination self = Ok (DataValidator.append self w) /\
    check_name w = "Contamination Check"%string.
Proof.
  intros Hu Hv. unfold DataValidator._check_contamination, groupby_nunique.
  rewrite Hu, Hv. simpl bind.
  match goal with |- context [if ?b then _ else _] => destruct b end;
    eexists; (split; [reflexivity |]); reflexivity.
Qed.

(** On a frame with rows, with the columns the checks read and a boolean
    eligibility column, and for a ratio that is a double inside (0,1), the
    run returns a report of six results, one per check and in the order of
    the checks. *)
Lemma validate_six_results (rnd : R -> R) (cfg : config.t) (d : DataFrame)
    (r : R) :
  Spec.rounds_to_nearest rnd ->
  forallb (has_column d) DataValidator.required_non_null = true ->
  Spec.binary_column d "eligible" = true ->
  (0 < len d)%Z ->
  val (config.ALLOCATION_RATIO cfg) = Fin r -> double r -> 0 < r < 1 ->
  exists rep,
    DataValidator.validate rnd cfg (DataValidator.__init__ d) = Ok rep /\
    map check_name (ValidationReport.results rep) =
    ["Schema Check"; "Null Check"; "Variant Integrity";
     "Sample Ratio Mismatch (SRM)"; "Contamination Check";
     "Eligibility Check"]%string.
Proof.
  intros Hrnd Hcols Hel Hn Er Hd Hr.
  assert (Hu : has_column d "user_id" = true).
  { simpl in Hcols. now destruct (has_column d "user_id"). }
  assert (Hv : has_column d "variant" = true).
  { simpl in Hcols. destruct (has_column d "user_id"); [| discriminate].
    now destruct (has_column d "variant"). }
  unfold DataValidator.validate.
  destruct (check_schema_total (DataValidator.__init__ d)) as (w1 & H1 & N1).
  rewrite H1. simpl bind.
  destruct (@check_nulls_total (DataValidator.append (DataValidator.__init__ d) w1))
    as (w2 & H2 & N2); [exact Hcols |].
  rewrite H2. simpl bind.
  destruct (@check_variants_total
              (DataValidator.append
                 (DataValidator.append (DataValidator.__init__ d) w1) w2))
    as (w3 & H3 & N3); [exact Hv |].
  rewrite H3. simpl bind.
  match goal with
  | |- context [DataValidator._check_sample_ratio_mismatch rnd cfg ?s] =>
    destruct (@srm_outcome rnd Hrnd cfg s r Hv Er Hd Hr Hn)
      as (w4 & H4 & N4 & _)
  end.
  rewrite H4. simpl bind.
  match goal with |- context [DataValidator._check_contamination ?s] =>
    destruct (@check_contamination_total s Hu Hv) as (w5 & H5 & N5) end.
  rewrite H5. simpl bind.
  match goal with |- context [DataValidator._check_eligibility ?s] =>
    destruct (@check_eligibility_outcome s Hel Hn) as (w6 & H6 & N6 & _) end.
  rewrite H6. simpl bind.
  eexists. split; [reflexivity |]. simpl. now rewrite N1, N2, N3, N4, N5, N6.
Qed.

(** A frame without rows: the run ends in the SRM check, by the division. *)
Lemma validate_empty_frame_raises (rnd : R -> R) :
  Spec.rounds_to_nearest rnd ->
  DataValidator.validate rnd config.default (DataValidator.__init__ empty_frame)
  = Raise ZeroDivisionError.
Proof.
  intro Hrnd. unfold DataValidator.validate.
  change (DataValidator._check_schema (DataValidator.__init__ empty_frame))
    with (Ok (DataValidator.append (DataValidator.__init__ empty_frame)
                (ValidationResult.default "Schema Check" true
                   (AllColumnsPresent 10)))).
  simpl bind.
  now rewrite (@srm_no_rows rnd Hrnd config.default _ 0.5).
Qed.

End Validate.

(** ** The segment breakdown *)

Section Breakdown.

Import MetricComputer.

Lemma mapM_total (A B : Type) (f : A -> result B) (P : A -> B -> Prop)
    (l : list A) :
  (forall a, In a l -> exists b, f a = Ok b /\ P a b) ->
  exists bs, mapM f l = Ok bs /\ Forall2 P l bs.
Proof.
  induction l as [| a l IH]; intro H.
  - exists []. split; [reflexivity | constructor].
  - destruct (H a) as (b & Hb & Pb); [now left |].
    destruct IH as (bs & Hbs & Pbs); [intros x Hx; apply H; now right |].
    exists (b :: bs). simpl. rewrite Hb, Hbs. split; [reflexivity |].
    now constructor.
Qed.

(** Behind the guard [rate > 0] the division cannot raise. *)
Lemma guarded_lift_total (lift rate : num) :
  exists v,
    (if gtb rate (int 0)
     then bind (truediv lift rate) (fun q => Ok (mul q (int 100)))
     else Ok (int 0)) = Ok v.
Proof.
  destruct (gtb rate (int 0)) eqn:G; [| eexists; reflexivity].
  destruct (truediv_cases lift rate) as [H | H]; rewrite H;
    [| eexists; reflexivity].
  exfalso. unfold truediv in H. unfold gtb in G. simpl val in G.
  destruct (kind_of lift), (kind_of rate); try discriminate.
  destruct (val rate) as [x | | |]; simpl in H; try discriminate.
  destruct (Req_dec_T x 0) as [-> | ]; [| discriminate].
  rewrite flt_Fin_false in G by lra. discriminate.
Qed.




Lemma Series_unique_nil (s : Series) : Series_unique s = [] -> s = [].
Proof. destruct s; [reflexivity | discriminate]. Qed.




End Breakdown.

(** ** A sort that keeps the promise *)

Section Sorter.

Import Example.

Variable ascending : bool.
Variable key : SegmentRow -> Z.

Lemma insert_row_perm (x : SegmentRow) (l : list SegmentRow) :
  Permutation (insert_row ascending key x l) (x :: l).
Proof.
  induction l as [| y l IH]; simpl; [reflexivity |].
  destruct (goes_before ascending key x y); [reflexivity |].
  rewrite IH. apply perm_swap.
Qed.

Lemma goes_before_true (x y : SegmentRow) :
  goes_before ascending key x y = true -> Spec.in_order ascending key x y.
Proof.
  unfold goes_before, Spec.in_order. destruct ascending; intro H;
    apply Z.ltb_lt in H; lia.
Qed.

Lemma goes_before_false (x y : SegmentRow) :
  goes_before ascending key x y = false -> Spec.in_order ascending key y x.
Proof.
  unfold goes_before, Spec.in_order. destruct ascending; intro H;
    apply Z.ltb_ge in H; lia.
Qed.

Lemma insert_row_hd (x y : SegmentRow) (l : list SegmentRow) :
  HdRel (Spec.in_order ascending key) y l -> Spec.in_order ascending key y x ->
  HdRel (Spec.in_order ascending key) y (insert_row ascending key x l).
Proof.
  intros Hl Hx. destruct l as [| z l]; simpl; [now constructor |].
  destruct (goes_before ascending key x z); constructor; trivial.
  now apply HdRel_inv in Hl.
Qed.

Lemma insert_row_sorted (x : SegmentRow) (l : list SegmentRow) :
  Sorted (Spec.in_order ascending key) l ->
  Sorted (Spec.in_order ascending key) (insert_row ascending key x l).
Proof.
  induction 1 as [| y l Hl IH Hy]; simpl; [repeat constructor |].
  destruct (goes_before ascending key x y) eqn:E.
  - repeat constructor; trivial. now apply goes_before_true.
  - constructor; [assumption |].
    apply insert_row_hd; [assumption | now apply goes_before_false].
Qed.

End Sorter.

Lemma insertion_sort_promise : Spec.sort_values_promise Example.insertion_sort.
Proof.
  intros by_ ascending key l Hkey. unfold Example.insertion_sort.
  rewrite Hkey. induction l as [| x l [IHp IHs]]; simpl.
  - split; constructor.
  - split; [| now apply insert_row_sorted].
    rewrite insert_row_perm. now constructor.
Qed.

Section BreakdownExamples.

Import MetricComputer Example.



End BreakdownExamples.

(* ================================================================= *)
(** * Further properties of the code *)

(** ** The checks one by one *)

Section Checks.

Import ValidationResult.

Lemma filter_negb_nil (A : Type) (f : A -> bool) (l : list A) :
  filter (fun a => negb (f a)) l = [] <-> forallb f l = true.
Proof.
  induction l as [| a l IH]; simpl; [tauto |].
  destruct (f a); simpl; [exact IH |]. split; discriminate.
Qed.

Lemma check_schema_outcome (self : DataValidator.t) :
  exists w,
    DataValidator._check_schema self = Ok (DataValidator.append self w) /\
    check_name w = "Schema Check"%string /\ severity w = "error"%string /\
    passed w = forallb (has_column (DataValidator.df self))
                       DataValidator.required_cols /\
    (passed w = false ->
     message w = MissingColumns
                   (filter (fun c => negb (has_column (DataValidator.df self) c))
                           DataValidator.required_cols)).
Proof.
  unfold DataValidator._check_schema.
  destruct (filter _ DataValidator.required_cols) as [| c l] eqn:E.
  - eexists. split; [reflexivity |].
    unfold default. cbn [check_name passed severity message].
    apply filter_negb_nil in E. rewrite E.
    repeat split; trivial. discriminate.
  - eexists. split; [reflexivity |].
    unfold default. cbn [check_name passed severity message].
    repeat split; trivial.
    destruct (forallb _ DataValidator.required_cols) eqn:F; [| reflexivity].
    apply filter_negb_nil in F. rewrite F in E. discriminate.
Qed.

(** X1.  The schema check never raises and appends one result of severity
    error, passed exactly when each of the ten required columns is a column
    of the table; when it fails, its message lists the required columns the
    table lacks, in the order of the requirement. *)
Theorem check_schema_passes_iff (self : DataValidator.t) :
  exists w,
    DataValidator._check_schema self = Ok (DataValidator.append self w) /\
    severity w = "error"%string /\
    (passed w = true <->
     forall c, In c DataValidator.required_cols ->
               has_column (DataValidator.df self) c = true) /\
    (passed w = false ->
     message w = MissingColumns
                   (filter (fun c => negb (has_column (DataValidator.df self) c))
                           DataValidator.required_cols)).
Proof.
  destruct (check_schema_outcome self) as (w & Hw & _ & Hs & Hp & Hm).
  exists w. repeat split; trivial.
  - intro H. rewrite Hp in H. now apply forallb_forall.
  - intro H. rewrite Hp. now apply forallb_forall.
Qed.

Lemma length_filter_pos (A : Type) (p : A -> bool) (l : list A) :
  (0 <? Z.of_nat (length (filter p l)))%Z = existsb p l.
Proof.
  induction l as [| a l IH]; simpl; trivial.
  destruct (p a); simpl; [| exact IH]. apply Z.ltb_lt. lia.
Qed.

Lemma sum_counts_pos (A : Type) (g : A -> Z) (l : list A) :
  (forall a, (0 <= g a)%Z) ->
  (0 <? fold_right Z.add 0%Z (map g l))%Z = existsb (fun a => (0 <? g a)%Z) l.
Proof.
  intro Hg. induction l as [| a l IH]; simpl; trivial.
  assert (Hs : (0 <= fold_right Z.add 0 (map g l))%Z).
  { clear IH. induction l as [| b l IH]; simpl; [lia |]. specialize (Hg b). lia. }
  specialize (Hg a).
  destruct (0 <? g a)%Z eqn:E; simpl.
  - apply Z.ltb_lt in E. apply Z.ltb_lt. lia.
  - apply Z.ltb_ge in E. rewrite <- IH.
    replace (g a) with 0%Z by lia. reflexivity.
Qed.

Lemma existsb_negb_forallb (A : Type) (p : A -> bool) (l : list A) :
  existsb p l = negb (forallb (fun a => negb (p a)) l).
Proof.
  induction l as [| a l IH]; simpl; trivial.
  rewrite IH. now destruct (p a).
Qed.

Lemma forallb_ext (A : Type) (f g : A -> bool) (l : list A) :
  (forall a, f a = g a) -> forallb f l = forallb g l.
Proof.
  intro H. induction l as [| a l IH]; simpl; trivial. now rewrite H, IH.
Qed.

Lemma forallb_map (A B : Type) (f : A -> B) (p : B -> bool) (l : list A) :
  forallb p (map f l) = forallb (fun a => p (f a)) l.
Proof.
  induction l as [| a l IH]; simpl; trivial. now rewrite IH.
Qed.

(** The verdict of the null check when its five columns are present. *)
Lemma check_nulls_outcome (self : DataValidator.t) :
  forallb (has_column (DataValidator.df self)) DataValidator.required_non_null
    = true ->
  exists w,
    DataValidator._check_nulls self = Ok (DataValidator.append self w) /\
    check_name w = "Null Check"%string /\ severity w = "error"%string /\
    passed w = Data.null_free (DataValidator.df self)
                              DataValidator.required_non_null.
Proof.
  intro H. unfold DataValidator._check_nulls, getitems.
  rewrite (filter_none _ _ H). cbn [bind columns rows].
  rewrite map_map. cbn [snd].
  rewrite (sum_counts_pos
             (fun c => Series_isnull_sum
                         (map (fun r : row => r c) (rows (DataValidator.df self)))))
    by (intro c; unfold Series_isnull_sum; lia).
  assert (E : existsb
                (fun c => (0 <? Series_isnull_sum
                                  (map (fun r : row => r c)
                                       (rows (DataValidator.df self))))%Z)
                DataValidator.required_non_null
              = negb (Data.null_free (DataValidator.df self)
                                     DataValidator.required_non_null)).
  { unfold Data.null_free. rewrite existsb_negb_forallb. f_equal.
    apply forallb_ext. intro c. unfold Series_isnull_sum.
    rewrite length_filter_pos, existsb_negb_forallb, negb_involutive.
    now rewrite forallb_map. }
  rewrite E.
  destruct (Data.null_free _ _); cbn [negb];
    eexists; (split; [reflexivity |]); unfold default;
    cbn [check_name passed severity]; auto.
Qed.

(** X2.  On a table with the five columns it reads, the null check appends
    one result of severity error, passed exactly when no row has a missing
    value in any of the five columns. *)
Theorem check_nulls_passes_iff (self : DataValidator.t) :
  forallb (has_column (DataValidator.df self)) DataValidator.required_non_null
    = true ->
  exists w,
    DataValidator._check_nulls self = Ok (DataValidator.append self w) /\
    severity w = "error"%string /\
    (passed w = true <->
     forall (r : row) (c : string),
       In r (rows (DataValidator.df self)) ->
       In c DataValidator.required_non_null -> r c <> Null).
Proof.
  intro H. destruct (check_nulls_outcome self H) as (w & Hw & _ & Hs & Hp).
  exists w. split; [exact Hw |]. split; [exact Hs |]. rewrite Hp.
  unfold Data.null_free. rewrite forallb_forall. split.
  - intros Hall r c Hr Hc E. specialize (Hall c Hc).
    rewrite forallb_forall in Hall. specialize (Hall r Hr).
    rewrite E in Hall. discriminate.
  - intros Hall c Hc. apply forallb_forall. intros r Hr.
    specialize (Hall r c Hr Hc). now destruct (r c).
Qed.

Lemma forallb_Series_unique (p : cell -> bool) (s : Series) :
  forallb p (Series_unique s) = forallb p s.
Proof.
  apply eq_iff_eq_true. rewrite !forallb_forall.
  split; intros H x Hx; apply H; now apply In_Series_unique.
Qed.

(** The verdict of the variant check. *)
Lemma check_variants_outcome (self : DataValidator.t) :
  has_column (DataValidator.df self) "variant" = true ->
  exists w,
    DataValidator._check_variants self = Ok (DataValidator.append self w) /\
    check_name w = "Variant Integrity"%string /\ severity w = "error"%string /\
    passed w = Data.variants_valid (DataValidator.df self).
Proof.
  intro H. unfold DataValidator._check_variants, getitem. rewrite H.
  cbn [bind].
  set (s := map (fun r : row => r "variant"%string) (rows (DataValidator.df self))).
  assert (E : Data.variants_valid (DataValidator.df self)
              = forallb (fun v => existsb (same v) DataValidator.valid_variants)
                        (Series_unique s)).
  { rewrite forallb_Series_unique. unfold s. now rewrite forallb_map. }
  rewrite E.
  destruct (filter _ (Series_unique s)) as [| v l] eqn:F.
  - apply filter_negb_nil in F. rewrite F.
    eexists. split; [reflexivity |]. unfold default.
    cbn [check_name passed severity]. auto.
  - destruct (forallb _ (Series_unique s)) eqn:G.
    + apply filter_negb_nil in G. rewrite G in F. discriminate.
    + eexists. split; [reflexivity |]. unfold default.
      cbn [check_name passed severity]. auto.
Qed.

(** X3.  On a table with a variant column the variant check appends one
    result of severity error, passed exactly when the variant of every row
    is 'control' or 'treatment'; a missing variant fails it. *)
Theorem check_variants_passes_iff (self : DataValidator.t) :
  has_column (DataValidator.df self) "variant" = true ->
  exists w,
    DataValidator._check_variants self = Ok (DataValidator.append self w) /\
    severity w = "error"%string /\
    (passed w = true <->
     forall r : row, In r (rows (DataValidator.df self)) ->
       r "variant"%string = Str "control" \/ r "variant"%string = Str "treatment") /\
    ((exists r : row, In r (rows (DataValidator.df self)) /\
                      r "variant"%string = Null) ->
     passed w = false).
Proof.
  intro H. destruct (check_variants_outcome self H) as (w & Hw & _ & Hs & Hp).
  assert (Hiff : passed w = true <->
            forall r : row, In r (rows (DataValidator.df self)) ->
              r "variant"%string = Str "control"
              \/ r "variant"%string = Str "treatment").
  { rewrite Hp. unfold Data.variants_valid. rewrite forallb_forall.
    split; intros Hall r Hr; specialize (Hall r Hr).
    - simpl in Hall. rewrite orb_false_r in Hall.
      apply orb_true_iff in Hall as [E | E]; apply same_true in E; auto.
    - simpl. rewrite orb_false_r. apply orb_true_iff.
      destruct Hall as [E | E]; rewrite E; [left | right]; now apply same_true. }
  exists w. split; [exact Hw |]. split; [exact Hs |]. split; [exact Hiff |].
  intros (r & Hr & E). destruct (passed w) eqn:P; [| reflexivity].
  destruct (proj1 Hiff eq_refl r Hr) as [E' | E']; rewrite E in E'; discriminate.
Qed.

Lemma NoDup_Series_unique (s : Series) : NoDup (Series_unique s).
Proof.
  induction s as [| c s IH]; simpl; constructor.
  - intro H. apply filter_In in H as [_ H].
    assert (same c c = true) by now apply same_true.
    destruct (same c c); discriminate.
  - now apply NoDup_filter.
Qed.

Lemma two_distinct_length (A : Type) (a b : A) (l : list A) :
  In a l -> In b l -> a <> b -> (2 <= length l)%nat.
Proof.
  intros Ha Hb Hne. destruct l as [| x [| y l]]; simpl in *; try lia;
    try contradiction.
  destruct Ha as [-> | []], Hb as [-> | []]. contradiction.
Qed.

(** More than one distinct value that is not missing. *)
Lemma nunique_gt_1 (vs : Series) :
  (1 <? Z.of_nat (length (filter (fun c => negb (isnull c)) (Series_unique vs))))%Z
    = true <->
  exists a b, In a vs /\ In b vs /\ a <> Null /\ b <> Null /\ a <> b.
Proof.
  set (u := filter (fun c => negb (isnull c)) (Series_unique vs)).
  assert (Hin : forall x, In x u <-> In x vs /\ x <> Null).
  { intro x. unfold u. rewrite filter_In, In_Series_unique.
    destruct x; simpl; split; intros [H1 H2]; split; trivial; congruence. }
  assert (Hnd : NoDup u) by (apply NoDup_filter, NoDup_Series_unique).
  rewrite Z.ltb_lt. split.
  - intro H. destruct u as [| a [| b l]] eqn:E; simpl in H; try lia.
    exists a, b.
    destruct (proj1 (Hin a)) as [Ha Ha']; [now left |].
    destruct (proj1 (Hin b)) as [Hb Hb']; [right; now left |].
    repeat split; trivial.
    intro Eab. subst b. inversion Hnd as [| ? ? Hnot _]. apply Hnot. now left.
  - intros (a & b & Ha & Hb & Ha' & Hb' & Hne).
    assert (2 <= length u)%nat; [| lia].
    apply (@two_distinct_length _ a b); trivial; apply Hin; auto.
Qed.

Lemma isnull_false (c : cell) : negb (isnull c) = true <-> c <> Null.
Proof. destruct c; simpl; split; congruence. Qed.

(** The verdict of the contamination check. *)
Lemma check_contamination_outcome (self : DataValidator.t) :
  has_column (DataValidator.df self) "user_id" = true ->
  has_column (DataValidator.df self) "variant" = true ->
  exists w,
    DataValidator._check_contamination self = Ok (DataValidator.append self w) /\
    check_name w = "Contamination Check"%string /\
    severity w = "error"%string /\
    passed w = negb (Data.contaminated (DataValidator.df self)).
Proof.
  intros Hu Hv. unfold DataValidator._check_contamination, groupby_nunique.
  rewrite Hu, Hv. cbn [bind].
  set (d := DataValidator.df self).
  match goal with |- context [filter ?p (map ?g ?keys)] =>
    set (f := p); set (cnt := g); set (ks := keys) end.
  assert (E : (0 <? length (filter f (map cnt ks)))%nat = Data.contaminated d).
  { apply eq_iff_eq_true. rewrite Nat.ltb_lt. unfold Data.contaminated.
    rewrite existsb_exists. split.
    - intro H. destruct (filter f (map cnt ks)) as [| [k n] l] eqn:F;
        [simpl in H; lia |].
      assert (Hk : In (k, n) (filter f (map cnt ks))) by (rewrite F; now left).
      apply filter_In in Hk as [Hk Hn]. apply in_map_iff in Hk as (k' & Ek & Hk').
      unfold cnt in Ek. injection Ek as -> <-. unfold f in Hn. cbn [snd] in Hn.
      apply nunique_gt_1 in Hn as (a & b & Ha & Hb & Ha' & Hb' & Hne).
      apply in_map_iff in Ha as (r1 & E1 & H1).
      apply in_map_iff in Hb as (r2 & E2 & H2).
      apply filter_In in H1 as [H1 K1]. apply filter_In in H2 as [H2 K2].
      apply same_true in K1, K2.
      unfold ks in Hk'. apply filter_In in Hk' as [_ Hnn].
      apply isnull_false in Hnn.
      exists r1. split; [exact H1 |]. apply existsb_exists.
      exists r2. split; [exact H2 |]. unfold Data.clash.
      rewrite K1, K2, E1, E2.
      repeat (apply andb_true_iff; split);
        try (now apply same_true); try (now apply isnull_false).
      apply negb_true_iff. destruct (same a b) eqn:S; [| reflexivity].
      apply same_true in S. contradiction.
    - intros (r1 & H1 & Hc). apply existsb_exists in Hc as (r2 & H2 & Hc).
      unfold Data.clash in Hc.
      repeat (apply andb_true_iff in Hc as [Hc ?]).
      apply same_true in Hc.
      match goal with H : negb (same _ _) = true |- _ =>
        apply negb_true_iff in H; rename H into Hne end.
      assert (Hin : In (cnt (r1 "user_id"%string)) (filter f (map cnt ks))).
      { apply filter_In. split.
        - apply in_map. unfold ks. apply filter_In. split; [| assumption].
          apply In_Series_unique.
          now apply (in_map (fun r : row => r "user_id"%string)).
        - unfold f, cnt. cbn [snd]. apply nunique_gt_1.
          exists (r1 "variant"%string), (r2 "variant"%string).
          repeat split; try (now apply isnull_false).
          + apply in_map_iff. exists r1. split; [reflexivity |].
            apply filter_In. split; [assumption | now apply same_true].
          + apply in_map_iff. exists r2. split; [reflexivity |].
            apply filter_In. split; [assumption |]. apply same_true. now symmetry.
          + intro Eq. rewrite Eq in Hne.
            assert (same (r2 "variant"%string) (r2 "variant"%string) = true)
              by now apply same_true.
            congruence. }
      destruct (filter f (map cnt ks)); [contradiction | simpl; lia]. }
  rewrite E.
  destruct (Data.contaminated d); cbn [negb];
    eexists; (split; [reflexivity |]); unfold default;
    cbn [check_name passed severity]; auto.
Qed.

(** X4.  On a table with the columns [user_id] and [variant] the
    contamination check appends one result of severity error, failed
    exactly when two rows carry the same user identifier and two different
    variants, none of these values missing; rows whose identifier is
    missing count for nothing. *)
Theorem check_contamination_fails_iff (self : DataValidator.t) :
  has_column (DataValidator.df self) "user_id" = true ->
  has_column (DataValidator.df self) "variant" = true ->
  exists w,
    DataValidator._check_contamination self = Ok (DataValidator.append self w) /\
    severity w = "error"%string /\
    (passed w = false <->
     exists r1 r2 : row,
       In r1 (rows (DataValidator.df self)) /\
       In r2 (rows (DataValidator.df self)) /\
       r1 "user_id"%string = r2 "user_id"%string /\
       r1 "user_id"%string <> Null /\
       r1 "variant"%string <> Null /\ r2 "variant"%string <> Null /\
       r1 "variant"%string <> r2 "variant"%string).
Proof.
  intros Hu Hv.
  destruct (check_contamination_outcome self Hu Hv) as (w & Hw & _ & Hs & Hp).
  exists w. split; [exact Hw |]. split; [exact Hs |].
  rewrite Hp, negb_false_iff. unfold Data.contaminated.
  rewrite existsb_exists. split.
  - intros (r1 & H1 & Hc). apply existsb_exists in Hc as (r2 & H2 & Hc).
    unfold Data.clash in Hc. repeat (apply andb_true_iff in Hc as [Hc ?]).
    exists r1, r2. repeat split; trivial;
      try (now apply same_true); try (now apply isnull_false).
    intro E.
    match goal with H : negb (same _ _) = true |- _ =>
      apply negb_true_iff in H; rewrite E in H; rename H into Hne end.
    assert (same (r2 "variant"%string) (r2 "variant"%string) = true)
      by now apply same_true.
    congruence.
  - intros (r1 & r2 & H1 & H2 & Eu & Hu1 & Hv1 & Hv2 & Hne).
    exists r1. split; [exact H1 |]. apply existsb_exists.
    exists r2. split; [exact H2 |]. unfold Data.clash.
    repeat (apply andb_true_iff; split);
      try (now apply same_true); try (now apply isnull_false).
    apply negb_true_iff. destruct (same _ _) eqn:S; [| reflexivity].
    apply same_true in S. contradiction.
Qed.

(** X5.  On a table with rows and a boolean eligibility column the
    eligibility check raises nothing and appends one result: failed, with
    severity warning, exactly when fewer than 80% of the rows are eligible
    (100 k < 80 N for k eligible rows out of N), and passed, with the
    default severity error, from exactly 80% on. *)
Theorem check_eligibility_threshold (self : DataValidator.t) :
  Spec.binary_column (DataValidator.df self) "eligible" = true ->
  (0 < len (DataValidator.df self))%Z ->
  exists w,
    DataValidator._check_eligibility self = Ok (DataValidator.append self w) /\
    (passed w = false <->
     (100 * Spec.eligible_count (DataValidator.df self)
      < 80 * len (DataValidator.df self))%Z) /\
    (severity w = "warning"%string <-> passed w = false) /\
    (severity w = "error"%string <-> passed w = true) /\
    ((100 * Spec.eligible_count (DataValidator.df self)
      = 80 * len (DataValidator.df self))%Z -> passed w = true).
Proof.
  intros Hb Hn.
  destruct (check_eligibility_outcome self Hb Hn) as (w & Hw & _ & H).
  exists w. split; [exact Hw |].
  destruct (100 * Spec.eligible_count (DataValidator.df self)
            <? 80 * len (DataValidator.df self))%Z eqn:E;
    destruct H as [Hp Hs]; rewrite Hp, Hs;
    [apply Z.ltb_lt in E | apply Z.ltb_ge in E];
    repeat split; intros; trivial; try discriminate; try lia.
Qed.

(** The verdict and the warnings of a complete run. *)
Lemma validate_outcome (rnd : R -> R) (cfg : config.t) (d : DataFrame) (r : R) :
  Spec.rounds_to_nearest rnd ->
  forallb (has_column d) DataValidator.required_non_null = true ->
  Spec.binary_column d "eligible" = true ->
  (0 < len d)%Z ->
  val (config.ALLOCATION_RATIO cfg) = Fin r -> double r -> 0 < r < 1 ->
  exists rep w,
    DataValidator.validate rnd cfg (DataValidator.__init__ d) = Ok rep /\
    ValidationReport.passed rep =
      forallb (has_column d) DataValidator.required_cols
      && Data.null_free d DataValidator.required_non_null
      && Data.variants_valid d
      && negb (flt (Fin (Spec.critical_value rnd))
                 (Fin (Spec.chi_square rnd (IZR (len d)) r
                         (IZR (Spec.group_n d "control"))
                         (IZR (Spec.group_n d "treatment")))))
      && negb (Data.contaminated d) /\
    check_name w = "Eligibility Check"%string /\
    ValidationReport.warnings rep =
      (if (100 * Spec.eligible_count d <? 80 * len d)%Z then [w] else []).
Proof.
  intros Hrnd Hcols Hel Hn Er Hd Hr.
  assert (Hu : has_column d "user_id" = true).
  { simpl in Hcols. now destruct (has_column d "user_id"). }
  assert (Hv : has_column d "variant" = true).
  { simpl in Hcols. destruct (has_column d "user_id"); [| discriminate].
    now destruct (has_column d "variant"). }
  unfold DataValidator.validate.
  destruct (check_schema_outcome (DataValidator.__init__ d))
    as (w1 & H1 & _ & S1 & P1 & _).
  rewrite H1. cbn [bind].
  destruct (@check_nulls_outcome
              (DataValidator.append (DataValidator.__init__ d) w1))
    as (w2 & H2 & _ & S2 & P2); [exact Hcols |].
  rewrite H2. cbn [bind].
  destruct (@check_variants_outcome
              (DataValidator.append
                 (DataValidator.append (DataValidator.__init__ d) w1) w2))
    as (w3 & H3 & _ & S3 & P3); [exact Hv |].
  rewrite H3. cbn [bind].
  match goal with
  | |- context [DataValidator._check_sample_ratio_mismatch rnd cfg ?s] =>
    destruct (@srm_outcome rnd Hrnd cfg s r Hv Er Hd Hr Hn)
      as (w4 & H4 & _ & S4 & P4)
  end.
  rewrite H4. cbn [bind].
  match goal with |- context [DataValidator._check_contamination ?s] =>
    destruct (@check_contamination_outcome s Hu Hv) as (w5 & H5 & _ & S5 & P5) end.
  rewrite H5. cbn [bind].
  match goal with |- context [DataValidator._check_eligibility ?s] =>
    destruct (@check_eligibility_outcome s Hel Hn) as (w6 & H6 & N6 & P6) end.
  rewrite H6. cbn [bind].
  cbn [DataValidator.df DataValidator.append DataValidator.__init__] in *.
  eexists. exists w6. split; [reflexivity |].
  unfold ValidationReport.passed, ValidationReport.warnings.
  cbn [ValidationReport.results DataValidator.results DataValidator.append
       DataValidator.__init__ app filter].
  rewrite S1, S2, S3, S4, S5.
  change (String.eqb "error" "error") with true.
  change (String.eqb "error" "warning") with false.
  cbn [andb forallb filter].
  rewrite P1, P2, P3, P4, P5.
  destruct (100 * Spec.eligible_count d <? 80 * len d)%Z;
    destruct P6 as [P6 S6]; rewrite S6, P6.
  - change (String.eqb "warning" "error") with false.
    change (String.eqb "warning" "warning") with true.
    cbn [andb negb forallb]. rewrite !andb_true_r.
    repeat split; trivial. now rewrite <- !andb_assoc.
  - change (String.eqb "error" "error") with true.
    change (String.eqb "error" "warning") with false.
    cbn [andb negb forallb]. rewrite !andb_true_r.
    repeat split; trivial. now rewrite P6, andb_true_r, <- !andb_assoc.
Qed.


(** X7.  The warnings of the report of such a run: none when at least 80%
    of the rows are eligible, and otherwise the one result of the
    eligibility check.  The ratio of the configuration is a Python float,
    so a double; the rounding of the SRM check has no part in the
    warnings. *)
Theorem validate_warnings (rnd : R -> R) (cfg : config.t) (d : DataFrame) (r : R) :
  Spec.rounds_to_nearest rnd ->
  forallb (has_column d) DataValidator.required_non_null = true ->
  Spec.binary_column d "eligible" = true ->
  (0 < len d)%Z ->
  val (config.ALLOCATION_RATIO cfg) = Fin r -> double r -> 0 < r < 1 ->
  exists rep,
    DataValidator.validate rnd cfg (DataValidator.__init__ d) = Ok rep /\
    ((80 * len d <= 100 * Spec.eligible_count d)%Z ->
     ValidationReport.warnings rep = []) /\
    ((100 * Spec.eligible_count d < 80 * len d)%Z ->
     exists w, ValidationReport.warnings rep = [w] /\
               check_name w = "Eligibility Check"%string).
Proof.
  intros Hrnd Hcols Hel Hn Er Hd Hr.
  destruct (@validate_outcome rnd cfg d r Hrnd Hcols Hel Hn Er Hd Hr)
    as (rep & w & Hrep & _ & Hname & Hw).
  exists rep. split; [exact Hrep |].
  destruct (100 * Spec.eligible_count d <? 80 * len d)%Z eqn:E;
    [apply Z.ltb_lt in E | apply Z.ltb_ge in E]; split; intro H; try lia.
  - exists w. now split.
  - exact Hw.
Qed.

End Checks.

Section CheckExamples.

Import ValidationResult Example.

Lemma check_nulls_passes_iff_witness :
  forallb (has_column frame) DataValidator.required_non_null = true /\
  exists w,
    DataValidator._check_nulls validator = Ok (DataValidator.append validator w) /\
    severity w = "error"%string /\
    (passed w = true <->
     forall (r : row) (c : string),
       In r units -> In c DataValidator.required_non_null -> r c <> Null).
Proof.
  split; [reflexivity |]. apply (check_nulls_passes_iff validator). reflexivity.
Defined.

Lemma check_variants_passes_iff_witness :
  has_column frame "variant" = true /\
  exists w,
    DataValidator._check_variants validator
      = Ok (DataValidator.append validator w) /\
    severity w = "error"%string /\
    (passed w = true <->
     forall r : row, In r units ->
       r "variant"%string = Str "control" \/ r "variant"%string = Str "treatment") /\
    ((exists r : row, In r units /\ r "variant"%string = Null) ->
     passed w = false).
Proof.
  split; [reflexivity |]. apply (check_variants_passes_iff validator). reflexivity.
Defined.

Lemma check_contamination_fails_iff_witness :
  has_column frame "user_id" = true /\
  has_column frame "variant" = true /\
  exists w,
    DataValidator._check_contamination validator
      = Ok (DataValidator.append validator w) /\
    severity w = "error"%string /\
    (passed w = false <->
     exists r1 r2 : row,
       In r1 units /\ In r2 units /\
       r1 "user_id"%string = r2 "user_id"%string /\
       r1 "user_id"%string <> Null /\
       r1 "variant"%string <> Null /\ r2 "variant"%string <> Null /\
       r1 "variant"%string <> r2 "variant"%string).
Proof.
  split; [reflexivity |]. split; [reflexivity |].
  apply (check_contamination_fails_iff validator); reflexivity.
Defined.

Lemma check_eligibility_threshold_witness :
  Spec.binary_column frame "eligible" = true /\
  (0 < len frame)%Z /\
  exists w,
    DataValidator._check_eligibility validator
      = Ok (DataValidator.append validator w) /\
    passed w = true /\ severity w = "error"%string.
Proof.
  split; [reflexivity |]. split; [reflexivity |].
  destruct (@check_eligibility_threshold validator eq_refl eq_refl)
    as (w & Hw & Hf & _ & Hs & _).
  exists w. split; [exact Hw |].
  assert (Hp : passed w = true).
  { destruct (passed w); [reflexivity |].
    assert (H : (100 * Spec.eligible_count (DataValidator.df validator)
                 < 80 * len (DataValidator.df validator))%Z)
      by now apply Hf.
    vm_compute in H. discriminate. }
  split; [exact Hp | now apply Hs].
Defined.


Lemma validate_warnings_witness :
  Spec.rounds_to_nearest exact /\
  forallb (has_column frame) DataValidator.required_non_null = true /\
  Spec.binary_column frame "eligible" = true /\
  (0 < len frame)%Z /\
  double 0.5 /\
  exists rep,
    DataValidator.validate exact config.default validator = Ok rep /\
    ValidationReport.warnings rep = [].
Proof.
  split; [exact exact_rounds_to_nearest |].
  split; [reflexivity |]. split; [reflexivity |]. split; [reflexivity |].
  split; [exact double_0_5 |].
  destruct (@validate_warnings exact config.default frame 0.5
              exact_rounds_to_nearest eq_refl eq_refl eq_refl eq_refl double_0_5)
    as (rep & Hrep & Hw & _); [lra |].
  exists rep. split; [exact Hrep |]. apply Hw. vm_compute. discriminate.
Defined.

End CheckExamples.

(** ** Metrics: the groups, the eligible units and the segments *)

Section Groups.

Import MetricComputer.

Lemma in_group_iff (v : string) (r : row) :
  Spec.in_group v r = true <-> r "variant"%string = Str v.
Proof.
  unfold Spec.in_group, eqb. destruct (r "variant"%string) eqn:E.
  - split; discriminate.
  - split; [| discriminate]. intro H. apply same_true in H. discriminate.
  - apply same_true.
Qed.

(** Two selections that exclude each other. *)
Lemma filter_disjoint_length (A : Type) (f g : A -> bool) (l : list A) :
  (forall a, f a = true -> g a = false) ->
  (length (filter f l) + length (filter g l) <= length l)%nat /\
  ((length (filter f l) + length (filter g l) = length l)%nat <->
   forall a, In a l -> f a = true \/ g a = true).
Proof.
  intro Hd. induction l as [| a l [IH1 IH2]]; simpl.
  - split; [lia |]. split; [contradiction | reflexivity].
  - destruct (f a) eqn:Ef; [rewrite (Hd a Ef) | destruct (g a) eqn:Eg]; simpl.
    + split; [lia |]. split.
      * intros H x [<- | Hx]; [now left |]. apply IH2; [lia | assumption].
      * intro H. f_equal. apply IH2. intros x Hx. apply H. now right.
    + split; [lia |]. split.
      * intros H x [<- | Hx]; [now right |]. apply IH2; [lia | assumption].
      * intro H. rewrite Nat.add_succ_r. f_equal. apply IH2.
        intros x Hx. apply H. now right.
    + split; [lia |]. split; [lia |].
      intro H. destruct (H a) as [K | K]; [now left | congruence | congruence].
Qed.

(** What the aggregation returns on a frame with a variant column and a
    binary outcome column: the counts of the two groups and the guarded
    quotients. *)
Lemma binary_metric_report (self : t) (name outcome : string) :
  has_column (df self) "variant" = true ->
  Spec.binary_column (df self) outcome = true ->
  let n1 := Spec.group_n (df self) "control" in
  let n2 := Spec.group_n (df self) "treatment" in
  let x1 := Spec.group_successes (df self) "control" outcome in
  let x2 := Spec.group_successes (df self) "treatment" outcome in
  exists r : MetricReport,
    _compute_binary_metric self name outcome = Ok r /\
    metric_name r = name /\
    control_n r = n1 /\ treatment_n r = n2 /\
    control_successes r = np_int x1 /\ treatment_successes r = np_int x2 /\
    control_rate r
      = (if (0 <? n1)%Z then Num Numpy (Fin (IZR x1 / IZR n1)) else int 0) /\
    treatment_rate r
      = (if (0 <? n2)%Z then Num Numpy (Fin (IZR x2 / IZR n2)) else int 0) /\
    absolute_lift r = sub (treatment_rate r) (control_rate r) /\
    (if gtb (control_rate r) (int 0)
     then bind (truediv (absolute_lift r) (control_rate r))
               (fun q => Ok (mul q (int 100)))
     else Ok (int 0)) = Ok (relative_lift_pct r).
Proof.
  intros Hv Hb n1 n2 x1 x2. unfold _compute_binary_metric.
  rewrite !where_eq_variant by assumption. cbn [bind].
  rewrite !getitem_group by assumption. cbn [bind].
  rewrite !Series_sum_group by assumption. cbn [bind].
  unfold len. cbn [rows].
  fold (Spec.group_n (df self) "control") (Spec.group_n (df self) "treatment").
  fold n1 n2 x1 x2.
  assert (R1 : (if (0 <? n1)%Z then truediv (np_int x1) (int n1) else Ok (int 0))
               = Ok (if (0 <? n1)%Z then Num Numpy (Fin (IZR x1 / IZR n1))
                     else int 0)).
  { destruct (0 <? n1)%Z eqn:E; [| reflexivity]. apply Z.ltb_lt in E.
    rewrite truediv_int by lia. cbn [kind_of val np_int].
    assert (Hn := IZR_lt _ _ E). now rewrite fdiv_Fin by lra. }
  assert (R2 : (if (0 <? n2)%Z then truediv (np_int x2) (int n2) else Ok (int 0))
               = Ok (if (0 <? n2)%Z then Num Numpy (Fin (IZR x2 / IZR n2))
                     else int 0)).
  { destruct (0 <? n2)%Z eqn:E; [| reflexivity]. apply Z.ltb_lt in E.
    rewrite truediv_int by lia. cbn [kind_of val np_int].
    assert (Hn := IZR_lt _ _ E). now rewrite fdiv_Fin by lra. }
  rewrite R1. cbn [bind]. rewrite R2. cbn [bind].
  match goal with |- context [if gtb ?c (int 0) then _ else _] =>
    match goal with |- context [truediv ?l c] =>
      destruct (guarded_lift_total l c) as (rl & Hrl) end end.
  rewrite Hrl. cbn [bind].
  eexists. split; [reflexivity |].
  cbn [metric_name control_n treatment_n control_successes treatment_successes
       control_rate treatment_rate absolute_lift relative_lift_pct].
  repeat split; try reflexivity. exact Hrl.
Qed.

(** X8.  On a frame with a variant column and a binary outcome column the
    two group sizes of the report are at most the number of rows together,
    and they add up to the number of rows exactly when the variant of every
    row is 'control' or 'treatment': a row of another variant, or of none,
    is counted in neither group. *)
Theorem binary_metric_group_sizes (self : t) (name outcome : string) :
  has_column (df self) "variant" = true ->
  Spec.binary_column (df self) outcome = true ->
  exists r : MetricReport,
    _compute_binary_metric self name outcome = Ok r /\
    (0 <= control_n r)%Z /\ (0 <= treatment_n r)%Z /\
    (control_n r + treatment_n r <= len (df self))%Z /\
    ((control_n r + treatment_n r = len (df self))%Z <->
     forall u : row, In u (rows (df self)) ->
       u "variant"%string = Str "control" \/ u "variant"%string = Str "treatment").
Proof.
  intros Hv Hb.
  destruct (@binary_metric_report self name outcome Hv Hb)
    as (r & Hr & _ & Hn1 & Hn2 & _).
  exists r. split; [exact Hr |]. rewrite Hn1, Hn2.
  unfold Spec.group_n, len.
  destruct (@filter_disjoint_length row (Spec.in_group "control")
              (Spec.in_group "treatment") (rows (df self))) as [Hle Heq].
  { intros u Hu. apply in_group_iff in Hu.
    destruct (Spec.in_group "treatment" u) eqn:E; [| reflexivity].
    apply in_group_iff in E. congruence. }
  split; [lia |]. split; [lia |]. split; [lia |].
  split.
  - intros H u Hu. rewrite <- !in_group_iff. apply Heq; [lia | assumption].
  - intro H. assert (K : forall u, In u (rows (df self)) ->
      Spec.in_group "control" u = true \/ Spec.in_group "treatment" u = true).
    { intros u Hu. rewrite !in_group_iff. now apply H. }
    apply Heq in K. lia.
Qed.

End Groups.

Section EligibleOnly.

Import MetricComputer.

Lemma init_eligible (d : DataFrame) :
  Spec.binary_column d "eligible" = true ->
  __init__ d true =
  Ok {| df := {| columns := columns d; rows := filter Data.eligible (rows d) |};
        eligible_only := true |}.
Proof.
  unfold Spec.binary_column, __init__, where_true. intro H.
  apply andb_true_iff in H as [Hc Hb]. now rewrite Hc, Hb.
Qed.

(** X9.  With [eligible_only] set, on a frame with a variant column, a
    boolean eligibility column and a binary outcome column, the constructor
    keeps exactly the rows flagged eligible, and the report of the
    aggregation counts in each group the eligible units only: sizes and
    successes are those of the eligible units of the variant. *)
Theorem eligible_only_report (d : DataFrame) (name outcome : string) :
  has_column d "variant" = true ->
  Spec.binary_column d "eligible" = true ->
  Spec.binary_column d outcome = true ->
  exists (self : t) (r : MetricReport),
    __init__ d true = Ok self /\
    (forall u, In u (rows (df self)) <->
               In u (rows d) /\ u "eligible"%string = Bool true) /\
    _compute_binary_metric self name outcome = Ok r /\
    control_n r = Data.eligible_group_n d "control" /\
    treatment_n r = Data.eligible_group_n d "treatment" /\
    control_successes r
      = np_int (Data.eligible_group_successes d "control" outcome) /\
    treatment_successes r
      = np_int (Data.eligible_group_successes d "treatment" outcome).
Proof.
  intros Hv He Hb. rewrite (init_eligible d He).
  set (self := {| df := {| columns := columns d;
                           rows := filter Data.eligible (rows d) |};
                  eligible_only := true |}).
  assert (Hv' : has_column (df self) "variant" = true) by exact Hv.
  assert (Hb' : Spec.binary_column (df self) outcome = true).
  { unfold Spec.binary_column in *. apply andb_true_iff in Hb as [Hc Hall].
    apply andb_true_iff. split; [exact Hc |].
    cbn [df rows self]. now apply forallb_filter_weaken. }
  destruct (@binary_metric_report self name outcome Hv' Hb')
    as (r & Hr & _ & Hn1 & Hn2 & Hx1 & Hx2 & _).
  exists self, r. split; [reflexivity |]. split.
  { intro u. cbn [df rows self]. rewrite filter_In. unfold Data.eligible.
    now rewrite same_true. }
  split; [exact Hr |].
  rewrite Hn1, Hn2, Hx1, Hx2.
  unfold Spec.group_n, Spec.group_successes, Data.eligible_group_n,
    Data.eligible_group_successes.
  cbn [df rows self]. rewrite !filter_filter_andb.
  repeat split; do 3 f_equal; apply filter_ext; intro u;
    now rewrite ?andb_assoc.
Qed.

(** X10.  Without a column [eligible] the constructor raises [KeyError]
    for that column when [eligible_only] is set, and keeps the frame as it
    is when it is not. *)
Theorem init_without_eligible_column (d : DataFrame) :
  has_column d "eligible" = false ->
  __init__ d true = Raise (KeyError ["eligible"%string]) /\
  __init__ d false = Ok {| df := d; eligible_only := false |}.
Proof.
  intro H. unfold __init__, where_true. now rewrite H.
Qed.

End EligibleOnly.

Section Funnel.

Import MetricComputer.

Lemma filter_length_le_impl (A : Type) (f g : A -> bool) (l : list A) :
  (forall a, In a l -> f a = true -> g a = true) ->
  (length (filter f l) <= length (filter g l))%nat.
Proof.
  induction l as [| a l IH]; intro H; simpl; [lia |].
  assert (IH' := IH (fun x Hx => H x (or_intror Hx))).
  destruct (f a) eqn:Ef.
  - rewrite (H a (or_introl eq_refl) Ef). simpl. lia.
  - destruct (g a); simpl; lia.
Qed.

Lemma guarded_rate_le (x y n : Z) :
  (0 <= x <= y)%Z ->
  exists a b,
    val (if (0 <? n)%Z then Num Numpy (Fin (IZR x / IZR n)) else int 0) = Fin a /\
    val (if (0 <? n)%Z then Num Numpy (Fin (IZR y / IZR n)) else int 0) = Fin b /\
    a <= b.
Proof.
  intros [Hx Hxy]. destruct (0 <? n)%Z eqn:E.
  - apply Z.ltb_lt in E. eexists _, _. split; [reflexivity |].
    split; [reflexivity |].
    assert (Hn := IZR_lt _ _ E). assert (Hy := IZR_le _ _ Hxy).
    apply Rmult_le_compat_r; [| exact Hy].
    left. now apply Rinv_0_lt_compat.
  - exists 0, 0. cbn. repeat split; lra.
Qed.

(** X11.  The click-through and the conversion report of one frame have
    the same two group sizes: the conversion rate is taken over all units
    of a group, not over those who clicked.  When every converted unit has
    clicked, the conversion rate of each group is at most its click-through
    rate. *)
Theorem cvr_at_most_ctr (self : t) :
  has_column (df self) "variant" = true ->
  Spec.binary_column (df self) "clicked" = true ->
  Spec.binary_column (df self) "converted" = true ->
  exists ctr cvr : MetricReport,
    compute_ctr self = Ok ctr /\ compute_cvr self = Ok cvr /\
    control_n cvr = control_n ctr /\ treatment_n cvr = treatment_n ctr /\
    ((forall u : row, In u (rows (df self)) ->
        u "converted"%string = Bool true -> u "clicked"%string = Bool true) ->
     exists c1 c2 t1 t2 : R,
       val (control_rate cvr) = Fin c1 /\ val (control_rate ctr) = Fin c2 /\
       val (treatment_rate cvr) = Fin t1 /\ val (treatment_rate ctr) = Fin t2 /\
       c1 <= c2 /\ t1 <= t2).
Proof.
  intros Hv Hk Hc. unfold compute_ctr, compute_cvr.
  destruct (@binary_metric_report self "CTR" "clicked" Hv Hk)
    as (ctr & Hctr & _ & Kn1 & Kn2 & _ & _ & Kr1 & Kr2 & _).
  destruct (@binary_metric_report self "CVR" "converted" Hv Hc)
    as (cvr & Hcvr & _ & Cn1 & Cn2 & _ & _ & Cr1 & Cr2 & _).
  exists ctr, cvr. split; [exact Hctr |]. split; [exact Hcvr |].
  split; [congruence |]. split; [congruence |].
  intro Hf.
  assert (Hle : forall v,
    (0 <= Spec.group_successes (df self) v "converted"
       <= Spec.group_successes (df self) v "clicked")%Z).
  { intro v. unfold Spec.group_successes. split; [lia |].
    apply inj_le. apply filter_length_le_impl. intros u Hu H.
    apply andb_true_iff in H as [Hg Hs]. apply same_true in Hs.
    rewrite Hg. cbn [andb]. apply same_true. now apply Hf. }
  destruct (guarded_rate_le (Spec.group_n (df self) "control") (Hle "control"%string))
    as (c1 & c2 & E1 & E2 & Hc12).
  destruct (guarded_rate_le (Spec.group_n (df self) "treatment")
              (Hle "treatment"%string))
    as (t1 & t2 & E3 & E4 & Ht12).
  exists c1, c2, t1, t2. rewrite Cr1, Kr1, Cr2, Kr2. repeat split; assumption.
Qed.

End Funnel.

Section RowOrder.

Import MetricComputer.

Lemma Permutation_filter (A : Type) (f : A -> bool) (l l' : list A) :
  Permutation l l' -> Permutation (filter f l) (filter f l').
Proof.
  induction 1 as [| a l l' _ IH | a b l | l l' l'' _ IH1 _ IH2]; simpl.
  - constructor.
  - destruct (f a); [now constructor | assumption].
  - destruct (f a), (f b); try reflexivity. apply perm_swap.
  - now transitivity (filter f l').
Qed.

Lemma existsb_Permutation (A : Type) (f : A -> bool) (l l' : list A) :
  Permutation l l' -> existsb f l = existsb f l'.
Proof.
  induction 1 as [| a l l' _ IH | a b l | l l' l'' _ IH1 _ IH2]; simpl;
    try congruence.
  now destruct (f a), (f b).
Qed.

Lemma Series_sum_Permutation (s s' : Series) :
  Permutation s s' -> Series_sum s = Series_sum s'.
Proof.
  intro H. unfold Series_sum, has_str, count_true.
  rewrite (existsb_Permutation _ H).
  now rewrite (Permutation_length (Permutation_filter (same (Bool true)) H)).
Qed.

(** X12.  The report of the aggregation does not depend on the order of
    the rows: two frames with the same columns and the same rows in any
    order give the same result, an exception included. *)
Theorem binary_metric_row_order (self self' : t) (name outcome : string) :
  columns (df self) = columns (df self') ->
  Permutation (rows (df self)) (rows (df self')) ->
  _compute_binary_metric self name outcome
  = _compute_binary_metric self' name outcome.
Proof.
  intros Hc Hp. unfold _compute_binary_metric, where_eq, getitem, has_column, len.
  rewrite <- Hc.
  destruct (existsb (String.eqb "variant") (columns (df self)));
    [| reflexivity].
  cbn [bind columns rows].
  destruct (existsb (String.eqb outcome) (columns (df self)));
    [| reflexivity].
  cbn [bind].
  set (fc := fun r : row => eqb (r "variant"%string) (Str "control")).
  set (ft := fun r : row => eqb (r "variant"%string) (Str "treatment")).
  assert (Pc := Permutation_filter fc Hp).
  assert (Pt := Permutation_filter ft Hp).
  rewrite <- (Permutation_length Pc), <- (Permutation_length Pt).
  rewrite <- (Series_sum_Permutation
                (Permutation_map (fun r : row => r outcome) Pc)).
  rewrite <- (Series_sum_Permutation
                (Permutation_map (fun r : row => r outcome) Pt)).
  reflexivity.
Qed.

End RowOrder.

Section Segments.

Import MetricComputer.

Lemma count_notnull_binary (outcome : string) (l : list row) :
  forallb (fun r : row => match r outcome with Bool _ => true | _ => false end) l
    = true ->
  count_notnull (map (fun r : row => r outcome) l) = Z.of_nat (length l).
Proof.
  unfold count_notnull. intro H. f_equal.
  induction l as [| r l IH]; simpl; trivial.
  simpl in H. apply andb_true_iff in H as [Hr Hl].
  destruct (r outcome); try discriminate. simpl. now rewrite IH.
Qed.

(** The mean of a binary column over the units of a variant. *)
Lemma guarded_mean_group (d : DataFrame) (v outcome : string) :
  Spec.binary_column d outcome = true ->
  (if (0 <? len {| columns := columns d;
                   rows := filter (Spec.in_group v) (rows d) |})%Z
   then (c <- getitem {| columns := columns d;
                         rows := filter (Spec.in_group v) (rows d) |} outcome ;;
         Series_mean c)%py
   else Ok (int 0))
  = Ok (if (0 <? Spec.group_n d v)%Z
        then Num Numpy (Fin (IZR (Spec.group_successes d v outcome)
                             / IZR (Spec.group_n d v)))
        else int 0).
Proof.
  intro Hb. unfold len. cbn [rows]. fold (Spec.group_n d v).
  destruct (0 <? Spec.group_n d v)%Z eqn:E; [| reflexivity].
  apply Z.ltb_lt in E. rewrite getitem_group by assumption. cbn [bind].
  unfold Spec.binary_column in Hb. apply andb_true_iff in Hb as [_ Hb].
  assert (Hb' := forallb_filter_weaken _ (Spec.in_group v) _ Hb).
  unfold Series_mean. rewrite (has_str_binary _ _ Hb').
  rewrite count_true_group, (count_notnull_binary _ _ Hb').
  fold (Spec.group_n d v). assert (Hn := IZR_lt _ _ E).
  now rewrite fdiv_Fin by lra.
Qed.

(** What the body of the loop returns for one category. *)
Lemma segment_row_report (self : t) (metric_col segment_col : string) (v : cell) :
  has_column (df self) segment_col = true ->
  has_column (df self) "variant" = true ->
  Spec.binary_column (df self) metric_col = true ->
  let sd := Data.segment_frame (df self) segment_col v in
  let n1 := Spec.group_n sd "control" in
  let n2 := Spec.group_n sd "treatment" in
  let x1 := Spec.group_successes sd "control" metric_col in
  let x2 := Spec.group_successes sd "treatment" metric_col in
  exists x : SegmentRow,
    segment_row self metric_col segment_col v = Ok x /\
    segment x = v /\
    sr_control_n x = n1 /\ sr_treatment_n x = n2 /\
    sr_control_rate x
      = (if (0 <? n1)%Z then Num Numpy (Fin (IZR x1 / IZR n1)) else int 0) /\
    sr_treatment_rate x
      = (if (0 <? n2)%Z then Num Numpy (Fin (IZR x2 / IZR n2)) else int 0) /\
    sr_absolute_lift x = sub (sr_treatment_rate x) (sr_control_rate x) /\
    (if gtb (sr_control_rate x) (int 0)
     then bind (truediv (sr_absolute_lift x) (sr_control_rate x))
               (fun q => Ok (mul q (int 100)))
     else Ok (int 0)) = Ok (sr_relative_lift_pct x).
Proof.
  intros Hs Hv Hb sd n1 n2 x1 x2. unfold segment_row.
  unfold where_eq at 1. rewrite Hs. cbn [bind].
  fold (Data.segment_frame (df self) segment_col v).
  fold sd.
  assert (Hv' : has_column sd "variant" = true) by exact Hv.
  assert (Hb' : Spec.binary_column sd metric_col = true).
  { unfold Spec.binary_column in *. apply andb_true_iff in Hb as [Hc Hall].
    apply andb_true_iff. split; [exact Hc |].
    unfold sd, Data.segment_frame. cbn [rows]. now apply forallb_filter_weaken. }
  rewrite !where_eq_variant by assumption. cbn [bind].
  rewrite !guarded_mean_group by assumption. cbn [bind].
  fold n1 n2 x1 x2.
  match goal with |- context [if gtb ?c (int 0) then _ else _] =>
    match goal with |- context [truediv ?l c] =>
      destruct (guarded_lift_total l c) as (rl & Hrl) end end.
  rewrite Hrl. cbn [bind].
  eexists. split; [reflexivity |].
  cbn [segment sr_control_n sr_treatment_n sr_control_rate sr_treatment_rate
       sr_absolute_lift sr_relative_lift_pct].
  unfold len. cbn [rows]. repeat split; try reflexivity. exact Hrl.
Qed.

(** X13.  The row of the breakdown for one category carries what the
    aggregation over the two variants returns on the rows of that category
    alone: the same group sizes, rates, absolute lift and relative lift. *)
Theorem segment_row_is_metric_of_segment
    (self : t) (name metric_col segment_col : string) (v : cell) :
  has_column (df self) segment_col = true ->
  has_column (df self) "variant" = true ->
  Spec.binary_column (df self) metric_col = true ->
  exists (x : SegmentRow) (r : MetricReport),
    segment_row self metric_col segment_col v = Ok x /\
    _compute_binary_metric
      {| df := Data.segment_frame (df self) segment_col v;
         eligible_only := eligible_only self |} name metric_col = Ok r /\
    segment x = v /\
    sr_control_n x = control_n r /\ sr_treatment_n x = treatment_n r /\
    sr_control_rate x = control_rate r /\
    sr_treatment_rate x = treatment_rate r /\
    sr_absolute_lift x = absolute_lift r /\
    sr_relative_lift_pct x = relative_lift_pct r.
Proof.
  intros Hs Hv Hb.
  destruct (@segment_row_report self metric_col segment_col v Hs Hv Hb)
    as (x & Hx & Sv & Sn1 & Sn2 & Sr1 & Sr2 & Sl & Srel).
  set (sd := Data.segment_frame (df self) segment_col v) in *.
  set (self' := {| df := sd; eligible_only := eligible_only self |}).
  assert (Hv' : has_column (df self') "variant" = true) by exact Hv.
  assert (Hb' : Spec.binary_column (df self') metric_col = true).
  { unfold Spec.binary_column in *. apply andb_true_iff in Hb as [Hc Hall].
    apply andb_true_iff. split; [exact Hc |].
    cbn [df self']. unfold sd, Data.segment_frame. cbn [rows].
    now apply forallb_filter_weaken. }
  destruct (@binary_metric_report self' name metric_col Hv' Hb')
    as (r & Hr & _ & Rn1 & Rn2 & _ & _ & Rr1 & Rr2 & Rl & Rrel).
  cbn [df self'] in *.
  exists x, r. split; [exact Hx |]. split; [exact Hr |]. split; [exact Sv |].
  assert (E1 : sr_control_rate x = control_rate r) by congruence.
  assert (E2 : sr_treatment_rate x = treatment_rate r) by congruence.
  assert (E3 : sr_absolute_lift x = absolute_lift r) by congruence.
  repeat split; try congruence.
  rewrite E1, E3, Rrel in Srel. congruence.
Qed.

(** The run of the loop and the sort behind it. *)
Lemma segment_breakdown_rows
    (sort_values : string -> bool -> list SegmentRow -> list SegmentRow)
    (self : t) (metric_col segment_col : string) :
  has_column (df self) segment_col = true ->
  has_column (df self) "variant" = true ->
  Spec.binary_column (df self) metric_col = true ->
  rows (df self) <> [] ->
  exists results,
    compute_segment_breakdown sort_values self metric_col segment_col
      = Ok (sort_values "control_n"%string false results) /\
    Forall2 (fun v x => segment_row self metric_col segment_col v = Ok x)
            (Series_unique (map (fun r : row => r segment_col) (rows (df self))))
            results.
Proof.
  intros Hs Hv Hb Hrows. unfold compute_segment_breakdown, getitem.
  rewrite Hs. cbn [bind].
  set (segments := Series_unique _).
  destruct (@mapM_total _ _ (segment_row self metric_col segment_col)
              (fun v x => segment_row self metric_col segment_col v = Ok x)
              segments) as (results & Hres & Hall).
  { intros v _.
    destruct (@segment_row_report self metric_col segment_col v Hs Hv Hb)
      as (x & Hx & _).
    now exists x. }
  rewrite Hres. cbn [bind]. exists results.
  destruct results as [| x xs]; [| now split].
  inversion Hall as [E |]. symmetry in E. apply Series_unique_nil in E.
  apply map_eq_nil in E. contradiction.
Qed.

Lemma eqb_Null (c : cell) : eqb c Null = false.
Proof.
  destruct c; simpl; trivial; unfold same;
    destruct (cell_eq_dec _ _); congruence.
Qed.

Lemma filter_false (A : Type) (f : A -> bool) (l : list A) :
  (forall a, f a = false) -> filter f l = [].
Proof.
  intro H. induction l as [| a l IH]; simpl; trivial. now rewrite H.
Qed.

(** X14.  A unit whose segment attribute is missing belongs to no
    category: when the column holds a missing value, the breakdown has a
    row for the missing category, and that row has two empty groups, both
    rates 0 and both lifts 0. *)
Theorem segment_breakdown_missing_category
    (sort_values : string -> bool -> list SegmentRow -> list SegmentRow)
    (self : t) (metric_col segment_col : string) :
  Spec.sort_values_promise sort_values ->
  has_column (df self) segment_col = true ->
  has_column (df self) "variant" = true ->
  Spec.binary_column (df self) metric_col = true ->
  (exists u : row, In u (rows (df self)) /\ u segment_col = Null) ->
  exists out x,
    compute_segment_breakdown sort_values self metric_col segment_col = Ok out /\
    In x out /\ segment x = Null /\
    sr_control_n x = 0%Z /\ sr_treatment_n x = 0%Z /\
    sr_control_rate x = int 0 /\ sr_treatment_rate x = int 0 /\
    val (sr_absolute_lift x) = Fin 0 /\ sr_relative_lift_pct x = int 0.
Proof.
  intros Hsort Hs Hv Hb (u & Hu & Hnull).
  assert (Hrows : rows (df self) <> []).
  { intro E. rewrite E in Hu. contradiction. }
  destruct (@segment_breakdown_rows sort_values self metric_col segment_col
              Hs Hv Hb Hrows) as (results & Hout & Hall).
  assert (Hin : In Null (Series_unique
                           (map (fun r : row => r segment_col) (rows (df self))))).
  { apply In_Series_unique. rewrite <- Hnull.
    now apply (in_map (fun r : row => r segment_col)). }
  assert (Hx : exists x, In x results /\
                         segment_row self metric_col segment_col Null = Ok x).
  { clear Hout. induction Hall as [| v x vs xs Hvx _ IH]; [contradiction |].
    destruct Hin as [-> | Hin].
    - exists x. split; [now left | assumption].
    - destruct (IH Hin) as (y & Hy & Hy'). exists y. split; [now right | assumption]. }
  destruct Hx as (x & Hxin & Hx).
  destruct (@segment_row_report self metric_col segment_col Null Hs Hv Hb)
    as (y & Hy & Sv & Sn1 & Sn2 & Sr1 & Sr2 & Sl & Srel).
  rewrite Hx in Hy. injection Hy as <-.
  assert (E : rows (Data.segment_frame (df self) segment_col Null) = []).
  { unfold Data.segment_frame. cbn [rows]. apply filter_false.
    intro a. apply eqb_Null. }
  unfold Spec.group_n in Sn1, Sn2, Sr1, Sr2. rewrite E in Sn1, Sn2, Sr1, Sr2.
  cbn in Sn1, Sn2, Sr1, Sr2.
  exists (sort_values "control_n"%string false results), x. split; [exact Hout |]. split.
  { destruct (Hsort "control_n"%string false sr_control_n results eq_refl)
    as [Hp _].
    eapply Permutation_in; [apply Permutation_sym; exact Hp | exact Hxin]. }
  rewrite Sr1, Sr2 in Sl. rewrite Sr1 in Srel.
  unfold gtb in Srel. cbn [val int] in Srel.
  rewrite flt_Fin_false in Srel by lra. injection Srel as Srel.
  repeat split; trivial; try congruence.
  rewrite Sl. unfold sub, int. cbn [val]. rewrite fsub_Fin. f_equal. lra.
Qed.

(** X15.  The breakdown raises [KeyError]: for the segment column when the
    frame lacks it, and for [control_n] when the frame has the column and
    no row, the frame of results having no column to sort by. *)
Theorem segment_breakdown_raises
    (sort_values : string -> bool -> list SegmentRow -> list SegmentRow)
    (self : t) (metric_col segment_col : string) :
  (has_column (df self) segment_col = false ->
   compute_segment_breakdown sort_values self metric_col segment_col
   = Raise (KeyError [segment_col])) /\
  (has_column (df self) segment_col = true -> rows (df self) = [] ->
   compute_segment_breakdown sort_values self metric_col segment_col
   = Raise (KeyError ["control_n"%string])).
Proof.
  unfold compute_segment_breakdown, getitem. split.
  - intro H. now rewrite H.
  - intros H E. now rewrite H, E.
Qed.

Lemma sum_Permutation (l l' : list Z) :
  Permutation l l' -> fold_right Z.add 0%Z l = fold_right Z.add 0%Z l'.
Proof.
  induction 1 as [| a l l' _ IH | a b l | l l' l'' _ IH1 _ IH2]; simpl; lia.
Qed.

Lemma filter_orb_length (A : Type) (f g : A -> bool) (l : list A) :
  (forall a, f a = true -> g a = false) ->
  length (filter (fun a => f a || g a) l)
  = (length (filter f l) + length (filter g l))%nat.
Proof.
  intro Hd. induction l as [| a l IH]; simpl; trivial.
  destruct (f a) eqn:Ef; [rewrite (Hd a Ef) | destruct (g a)]; simpl; lia.
Qed.

(** The rows whose key is one of the values [vs], split by value. *)
Lemma count_by_value (key : row -> cell) (Q : row -> bool) (l : list row)
    (vs : list cell) :
  NoDup vs ->
  fold_right Z.add 0%Z
    (map (fun v => Z.of_nat (length (filter (fun u => eqb (key u) v && Q u) l))) vs)
  = Z.of_nat (length (filter (fun u => negb (isnull (key u))
                                       && existsb (same (key u)) vs && Q u) l)).
Proof.
  induction 1 as [| v vs Hnot Hnd IH]; cbn [map fold_right].
  - rewrite filter_false; [reflexivity |].
    intro a. cbn [existsb]. now rewrite andb_false_r.
  - rewrite IH. rewrite <- Nat2Z.inj_add. f_equal.
    rewrite <- filter_orb_length.
    + f_equal. apply filter_ext. intro u. cbn [existsb].
      unfold eqb. destruct (key u) eqn:K; cbn [isnull negb andb]; trivial;
        destruct (same _ v), (existsb _ vs), (Q u); reflexivity.
    + intros u Hu. apply andb_true_iff in Hu as [Hu _].
      assert (Ku : key u = v).
      { unfold eqb in Hu. destruct (key u); [discriminate | |];
          now apply same_true in Hu. }
      rewrite Ku. destruct (existsb (same v) vs) eqn:X;
        [| now rewrite andb_false_r].
      apply existsb_exists in X as (w & Hw & Sw). apply same_true in Sw.
      subst w. contradiction.
Qed.

Lemma count_by_unique (segment_col : string) (Q : row -> bool) (l : list row) :
  fold_right Z.add 0%Z
    (map (fun v => Z.of_nat (length (filter (fun u : row => eqb (u segment_col) v
                                                            && Q u) l)))
         (Series_unique (map (fun r : row => r segment_col) l)))
  = Z.of_nat (length (filter (fun u : row => negb (isnull (u segment_col)) && Q u)
                             l)).
Proof.
  rewrite (count_by_value (fun u : row => u segment_col) Q l
             (NoDup_Series_unique _)).
  f_equal. f_equal. apply filter_ext_in. intros u Hu.
  assert (X : existsb (same (u segment_col))
                (Series_unique (map (fun r : row => r segment_col) l)) = true).
  { apply existsb_exists. exists (u segment_col). split.
    - apply In_Series_unique. now apply (in_map (fun r : row => r segment_col)).
    - now apply same_true. }
  now rewrite X, andb_true_r.
Qed.

Lemma sum_Forall2 (A : Type) (f : A -> Z) (g : SegmentRow -> Z)
    (vs : list A) (xs : list SegmentRow) :
  Forall2 (fun v x => g x = f v) vs xs ->
  fold_right Z.add 0%Z (map g xs) = fold_right Z.add 0%Z (map f vs).
Proof.
  induction 1 as [| v x vs xs E _ IH]; simpl; [reflexivity |].
  now rewrite E, IH.
Qed.

(** X16.  The group sizes of the rows of the breakdown add up to the
    units of each variant whose segment attribute is not missing: to at
    most the size of the variant in the whole frame, and to exactly that
    size when no segment value is missing. *)
Theorem segment_sizes_add_up
    (sort_values : string -> bool -> list SegmentRow -> list SegmentRow)
    (self : t) (metric_col segment_col : string) :
  Spec.sort_values_promise sort_values ->
  has_column (df self) segment_col = true ->
  has_column (df self) "variant" = true ->
  Spec.binary_column (df self) metric_col = true ->
  rows (df self) <> [] ->
  exists out,
    compute_segment_breakdown sort_values self metric_col segment_col = Ok out /\
    fold_right Z.add 0%Z (map sr_control_n out)
      = Data.segmented_group_n (df self) segment_col "control" /\
    fold_right Z.add 0%Z (map sr_treatment_n out)
      = Data.segmented_group_n (df self) segment_col "treatment" /\
    (Data.segmented_group_n (df self) segment_col "control"
       <= Spec.group_n (df self) "control")%Z /\
    (Data.segmented_group_n (df self) segment_col "treatment"
       <= Spec.group_n (df self) "treatment")%Z /\
    ((forall u : row, In u (rows (df self)) -> u segment_col <> Null) ->
     Data.segmented_group_n (df self) segment_col "control"
       = Spec.group_n (df self) "control" /\
     Data.segmented_group_n (df self) segment_col "treatment"
       = Spec.group_n (df self) "treatment").
Proof.
  intros Hsort Hs Hv Hb Hrows.
  destruct (@segment_breakdown_rows sort_values self metric_col segment_col
              Hs Hv Hb Hrows) as (results & Hout & Hall).
  exists (sort_values "control_n"%string false results). split; [exact Hout |].
  destruct (Hsort "control_n"%string false sr_control_n results eq_refl)
    as [Hp _].
  assert (Hn : forall vn : string,
    Forall2 (fun v x =>
               (if String.eqb vn "control" then sr_control_n x
                else sr_treatment_n x)
               = Z.of_nat (length (filter (fun u : row => eqb (u segment_col) v
                                                 && Spec.in_group vn u)
                                          (rows (df self)))))
            (Series_unique (map (fun r : row => r segment_col) (rows (df self))))
            results ->
    fold_right Z.add 0%Z
      (map (fun x => if String.eqb vn "control" then sr_control_n x
                     else sr_treatment_n x) (sort_values "control_n"%string false results))
    = Data.segmented_group_n (df self) segment_col vn).
  { intros vn H. rewrite (sum_Permutation (Permutation_map _ Hp)).
    rewrite (sum_Forall2 _ _ H). apply count_by_unique. }
  assert (Hrow : forall (vn : string) v x,
    vn = "control"%string \/ vn = "treatment"%string ->
    segment_row self metric_col segment_col v = Ok x ->
    (if String.eqb vn "control" then sr_control_n x else sr_treatment_n x)
    = Z.of_nat (length (filter (fun u : row => eqb (u segment_col) v
                                               && Spec.in_group vn u)
                               (rows (df self))))).
  { intros vn v x Hvn Hx.
    destruct (@segment_row_report self metric_col segment_col v Hs Hv Hb)
      as (y & Hy & _ & Sn1 & Sn2 & _).
    rewrite Hx in Hy. injection Hy as <-.
    unfold Spec.group_n, Data.segment_frame in Sn1, Sn2. cbn [rows] in Sn1, Sn2.
    rewrite filter_filter_andb in Sn1, Sn2.
    destruct Hvn as [-> | ->]; cbn [String.eqb Ascii.eqb Bool.eqb];
      assumption. }
  split; [| split].
  - apply (Hn "control"%string).
    eapply Forall2_impl; [| exact Hall]. intros v x. apply Hrow. now left.
  - apply (Hn "treatment"%string).
    eapply Forall2_impl; [| exact Hall]. intros v x. apply Hrow. now right.
  - assert (Hle : forall vn, (Data.segmented_group_n (df self) segment_col vn
                              <= Spec.group_n (df self) vn)%Z).
    { intro vn. unfold Data.segmented_group_n, Spec.group_n. apply inj_le.
      apply filter_length_le_impl. intros u _ H.
      now apply andb_true_iff in H as [_ H]. }
    split; [apply Hle |]. split; [apply Hle |].
    intro Hnn.
    assert (Heq : forall vn, Data.segmented_group_n (df self) segment_col vn
                             = Spec.group_n (df self) vn).
    { intro vn. unfold Data.segmented_group_n, Spec.group_n. do 2 f_equal.
      apply filter_ext_in. intros u Hu.
      assert (K : negb (isnull (u segment_col)) = true)
        by (apply isnull_false; now apply Hnn).
      now rewrite K. }
    split; apply Heq.
Qed.

End Segments.

Section MetricExamples.

Import MetricComputer Example.

Lemma binary_metric_group_sizes_witness :
  has_column frame "variant" = true /\
  Spec.binary_column frame "clicked" = true /\
  exists r : MetricReport,
    _compute_binary_metric {| df := frame; eligible_only := false |}
      "CTR" "clicked" = Ok r /\
    (control_n r + treatment_n r = 4)%Z.
Proof.
  split; [reflexivity |]. split; [reflexivity |].
  destruct (@binary_metric_group_sizes {| df := frame; eligible_only := false |}
              "CTR" "clicked" eq_refl eq_refl)
    as (r & Hr & _ & _ & _ & Heq).
  exists r. split; [exact Hr |]. apply Heq.
  intros u Hu. cbv [df rows frame units In] in Hu.
  repeat (destruct Hu as [<- | Hu]; [cbv; auto |]). contradiction.
Defined.

Lemma eligible_only_report_witness :
  has_column half_eligible_frame "variant" = true /\
  Spec.binary_column half_eligible_frame "eligible" = true /\
  Spec.binary_column half_eligible_frame "clicked" = true /\
  exists (self : t) (r : MetricReport),
    __init__ half_eligible_frame true = Ok self /\
    _compute_binary_metric self "CTR" "clicked" = Ok r /\
    control_n r = 1%Z /\ treatment_n r = 0%Z /\
    control_successes r = np_int 1 /\ treatment_successes r = np_int 0.
Proof.
  split; [reflexivity |]. split; [reflexivity |]. split; [reflexivity |].
  destruct (@eligible_only_report half_eligible_frame "CTR" "clicked"
              eq_refl eq_refl eq_refl)
    as (self & r & Hs & _ & Hr & H1 & H2 & H3 & H4).
  exists self, r. repeat split; assumption.
Defined.

Lemma init_without_eligible_column_witness :
  has_column frame_without_eligible "eligible" = false /\
  __init__ frame_without_eligible true = Raise (KeyError ["eligible"%string]) /\
  __init__ frame_without_eligible false
  = Ok {| df := frame_without_eligible; eligible_only := false |}.
Proof.
  split; [reflexivity |].
  apply (@init_without_eligible_column frame_without_eligible). reflexivity.
Defined.

Lemma cvr_at_most_ctr_witness :
  has_column frame "variant" = true /\
  Spec.binary_column frame "clicked" = true /\
  Spec.binary_column frame "converted" = true /\
  exists ctr cvr : MetricReport,
    compute_ctr {| df := frame; eligible_only := false |} = Ok ctr /\
    compute_cvr {| df := frame; eligible_only := false |} = Ok cvr /\
    control_n cvr = control_n ctr /\ treatment_n cvr = treatment_n ctr /\
    exists c1 c2 t1 t2 : R,
      val (control_rate cvr) = Fin c1 /\ val (control_rate ctr) = Fin c2 /\
      val (treatment_rate cvr) = Fin t1 /\ val (treatment_rate ctr) = Fin t2 /\
      c1 <= c2 /\ t1 <= t2.
Proof.
  split; [reflexivity |]. split; [reflexivity |]. split; [reflexivity |].
  destruct (@cvr_at_most_ctr {| df := frame; eligible_only := false |}
              eq_refl eq_refl eq_refl)
    as (ctr & cvr & H1 & H2 & H3 & H4 & H5).
  exists ctr, cvr. repeat (split; [assumption |]). apply H5.
  intros u Hu. cbv [df rows frame units In] in Hu.
  repeat (destruct Hu as [<- | Hu]; [cbv; auto; discriminate |]). contradiction.
Defined.

Lemma binary_metric_row_order_witness :
  columns frame = columns reversed_frame /\
  Permutation (rows frame) (rows reversed_frame) /\
  _compute_binary_metric {| df := frame; eligible_only := false |} "CVR" "converted"
  = _compute_binary_metric {| df := reversed_frame; eligible_only := false |}
      "CVR" "converted".
Proof.
  split; [reflexivity |]. split; [apply Permutation_rev |].
  apply (@binary_metric_row_order {| df := frame; eligible_only := false |}
           {| df := reversed_frame; eligible_only := false |});
    [reflexivity | apply Permutation_rev].
Defined.

Lemma segment_row_is_metric_of_segment_witness :
  has_column frame "device_category" = true /\
  has_column frame "variant" = true /\
  Spec.binary_column frame "converted" = true /\
  exists (x : SegmentRow) (r : MetricReport),
    segment_row {| df := frame; eligible_only := false |}
      "converted" "device_category" (Str "desktop") = Ok x /\
    _compute_binary_metric
      {| df := Data.segment_frame frame "device_category" (Str "desktop");
         eligible_only := false |} "CVR" "converted" = Ok r /\
    sr_control_n x = control_n r /\ sr_treatment_n x = treatment_n r /\
    sr_control_rate x = control_rate r /\
    sr_treatment_rate x = treatment_rate r /\
    sr_absolute_lift x = absolute_lift r /\
    sr_relative_lift_pct x = relative_lift_pct r.
Proof.
  split; [reflexivity |]. split; [reflexivity |]. split; [reflexivity |].
  destruct (@segment_row_is_metric_of_segment
              {| df := frame; eligible_only := false |}
              "CVR" "converted" "device_category" (Str "desktop")
              eq_refl eq_refl eq_refl)
    as (x & r & Hx & Hr & _ & H).
  exists x, r. split; [exact Hx |]. split; [exact Hr |]. exact H.
Defined.

Lemma segment_breakdown_missing_category_witness :
  Spec.sort_values_promise insertion_sort /\
  Spec.binary_column missing_segment_frame "converted" = true /\
  (exists u : row, In u (rows missing_segment_frame) /\
                   u "device_category"%string = Null) /\
  exists out x,
    compute_segment_breakdown insertion_sort
      {| df := missing_segment_frame; eligible_only := false |}
      "converted" "device_category" = Ok out /\
    In x out /\ segment x = Null /\
    sr_control_n x = 0%Z /\ sr_treatment_n x = 0%Z /\
    sr_control_rate x = int 0 /\ sr_treatment_rate x = int 0.
Proof.
  split; [exact insertion_sort_promise |]. split; [reflexivity |].
  assert (Hu : exists u : row, In u (rows missing_segment_frame) /\
                               u "device_category"%string = Null).
  { eexists. split; [right; left; reflexivity | reflexivity]. }
  split; [exact Hu |].
  destruct (@segment_breakdown_missing_category insertion_sort
              {| df := missing_segment_frame; eligible_only := false |}
              "converted" "device_category" insertion_sort_promise
              eq_refl eq_refl eq_refl Hu)
    as (out & x & H1 & H2 & H3 & H4 & H5 & H6 & H7 & _).
  exists out, x. repeat split; assumption.
Defined.

Lemma segment_breakdown_raises_witness :
  compute_segment_breakdown insertion_sort {| df := frame; eligible_only := false |}
    "converted" "browser" = Raise (KeyError ["browser"%string]) /\
  compute_segment_breakdown insertion_sort {| df := empty_frame; eligible_only := false |}
    "converted" "device_category" = Raise (KeyError ["control_n"%string]).
Proof.
  split.
  - apply (@segment_breakdown_raises insertion_sort
             {| df := frame; eligible_only := false |} "converted" "browser").
    reflexivity.
  - apply (@segment_breakdown_raises insertion_sort
             {| df := empty_frame; eligible_only := false |}
             "converted" "device_category"); reflexivity.
Defined.

Lemma segment_sizes_add_up_witness :
  Spec.sort_values_promise insertion_sort /\
  rows missing_segment_frame <> [] /\
  exists out,
    compute_segment_breakdown insertion_sort
      {| df := missing_segment_frame; eligible_only := false |}
      "converted" "device_category" = Ok out /\
    fold_right Z.add 0%Z (map sr_control_n out) = 1%Z /\
    Spec.group_n missing_segment_frame "control" = 2%Z.
Proof.
  split; [exact insertion_sort_promise |]. split; [discriminate |].
  destruct (@segment_sizes_add_up insertion_sort
              {| df := missing_segment_frame; eligible_only := false |}
              "converted" "device_category" insertion_sort_promise
              eq_refl eq_refl eq_refl)
    as (out & H1 & H2 & _); [discriminate |].
  exists out. split; [exact H1 |]. split; [exact H2 | reflexivity].
Defined.

End MetricExamples.

(** ** Inference: the engine, the interval and the test *)

Section EngineLevel.

Import InferenceEngine.

(** X17.  [confidence_level or config.CONFIDENCE_LEVEL]: the engine takes
    the configured level when it is given none and also when it is given
    the level 0, takes any other level as it is, and sets alpha to
    1 - confidence_level in every case. *)
Theorem engine_confidence_level (cfg : config.t) :
  confidence_level (__init__ cfg None) = config.CONFIDENCE_LEVEL cfg /\
  (forall c : num, val c = Fin 0 ->
     confidence_level (__init__ cfg (Some c)) = config.CONFIDENCE_LEVEL cfg) /\
  (forall (c : num) (x : R), val c = Fin x -> x <> 0 ->
     confidence_level (__init__ cfg (Some c)) = c) /\
  (forall o : option num,
     alpha (__init__ cfg o) = sub (int 1) (confidence_level (__init__ cfg o))).
Proof.
  split; [reflexivity |]. split; [| split].
  - intros c Hc. unfold __init__, truthy. cbn [confidence_level].
    now rewrite Hc, fis_zero_0.
  - intros c x Hc Hx. unfold __init__, truthy. cbn [confidence_level].
    now rewrite Hc, fis_zero_Fin.
  - intro o. reflexivity.
Qed.

End EngineLevel.

Section IntervalShape.

Variable Qf : R -> R.

Hypothesis Qf_increasing : forall p q, 0 < p -> p < q -> q < 1 -> Qf p < Qf q.
Hypothesis Qf_symmetric : forall q, 0 < q < 1 -> Qf (1 - q) = - Qf q.

Import InferenceEngine.

Lemma z_crit_pos (a : R) : 0 < a < 1 -> 0 < Qf (1 - a / 2).
Proof.
  intro Ha. assert (H0 : Qf (1 / 2) = 0).
  { assert (H := Qf_symmetric (q := 1 / 2)).
    replace (1 - 1 / 2) with (1 / 2) in H by lra.
    assert (K : 0 < 1 / 2 < 1) by lra. specialize (H K). lra. }
  rewrite <- H0. apply Qf_increasing; lra.
Qed.

Lemma unpooled_variance_nonneg (x y n1 n2 : R) :
  0 < n1 -> 0 < n2 -> 0 <= x <= 1 -> 0 <= y <= 1 ->
  0 <= x * (1 - x) / n1 + y * (1 - y) / n2.
Proof.
  intros H1 H2 Hx Hy.
  apply Rplus_le_le_0_compat; apply Rmult_le_pos;
    try (left; now apply Rinv_0_lt_compat); nra.
Qed.

Lemma unpooled_variance_zero (x y n1 n2 : R) :
  0 < n1 -> 0 < n2 -> 0 <= x <= 1 -> 0 <= y <= 1 ->
  (x * (1 - x) / n1 + y * (1 - y) / n2 = 0 <->
   (x = 0 \/ x = 1) /\ (y = 0 \/ y = 1)).
Proof.
  intros H1 H2 Hx Hy.
  assert (A : 0 <= x * (1 - x) / n1).
  { apply Rmult_le_pos; [nra | left; now apply Rinv_0_lt_compat]. }
  assert (B : 0 <= y * (1 - y) / n2).
  { apply Rmult_le_pos; [nra | left; now apply Rinv_0_lt_compat]. }
  split.
  - intro H. assert (A0 : x * (1 - x) / n1 = 0) by lra.
    assert (B0 : y * (1 - y) / n2 = 0) by lra.
    assert (A1 : x * (1 - x) = 0).
    { replace (x * (1 - x)) with (x * (1 - x) / n1 * n1) by (field; lra).
      rewrite A0. ring. }
    assert (B1 : y * (1 - y) = 0).
    { replace (y * (1 - y)) with (y * (1 - y) / n2 * n2) by (field; lra).
      rewrite B0. ring. }
    apply Rmult_integral in A1, B1. split; [destruct A1 | destruct B1]; lra.
  - intros [[-> | ->] [-> | ->]]; field; lra.
Qed.

(** X18.  For two groups that are not empty, rates in [0,1] and alpha in
    (0,1), the confidence interval has real bounds, contains the
    difference of the two rates and is centred on it; it shrinks to that
    single point exactly when each of the two rates is 0 or 1. *)
Theorem proportion_diff_ci_around_estimate
    (self : t) (p1 p2 : num) (n1 n2 : Z) (a x y : R) :
  (0 < n1)%Z -> (0 < n2)%Z ->
  val (alpha self) = Fin a -> 0 < a < 1 ->
  val p1 = Fin x -> 0 <= x <= 1 ->
  val p2 = Fin y -> 0 <= y <= 1 ->
  exists (lo hi : num) (L H : R),
    _proportion_diff_ci Qf self p1 (int n1) p2 (int n2) = Ok (lo, hi) /\
    val lo = Fin L /\ val hi = Fin H /\
    L <= y - x <= H /\
    (y - x) - L = H - (y - x) /\
    (L = H <-> (x = 0 \/ x = 1) /\ (y = 0 \/ y = 1)).
Proof.
  intros H1 H2 Ea Ha Ex Hx Ey Hy.
  destruct (@proportion_diff_ci_spec Qf self p1 p2 n1 n2)
    as (lo & hi & Hci & Hval); [lia | lia |].
  apply IZR_lt in H1, H2.
  rewrite Ea, Ex, Ey in Hval.
  unfold Spec.interval, Spec.z_crit, Spec.SE in Hval.
  revert Hval. fin_arith. rewrite fppf_Fin by lra.
  assert (Hv := unpooled_variance_nonneg H1 H2 Hx Hy).
  rewrite fsqrt_Fin by exact Hv. fin_arith.
  intro Hval. injection Hval as Hlo Hhi.
  set (v := x * (1 - x) / IZR n1 + y * (1 - y) / IZR n2) in *.
  assert (Hz := z_crit_pos Ha).
  assert (Hs := sqrt_pos v).
  exists lo, hi. eexists _, _. split; [exact Hci |].
  split; [exact Hlo |]. split; [exact Hhi |].
  split; [nra |]. split; [ring |].
  rewrite <- (unpooled_variance_zero H1 H2 Hx Hy). fold v. split.
  - intro E. assert (K : Qf (1 - a / 2) * sqrt v = 0) by lra.
    apply Rmult_integral in K as [K | K]; [lra |].
    now apply sqrt_eq_0.
  - intro E. rewrite E, sqrt_0. ring.
Qed.

End IntervalShape.

Section TestShape.

Variable Phi : R -> R.

Import InferenceEngine.

Lemma fabs_fdiv_opp (d : R) (s : float) :
  fabs (fdiv (Fin (- d)) s) = fabs (fdiv (Fin d) s).
Proof.
  unfold fdiv. destruct s as [s | | |]; trivial.
  destruct (Req_dec_T s 0) as [-> | Hs].
  - destruct (Rtotal_order d 0) as [Hd | [-> | Hd]].
    + rewrite (Rsign_neg Hd), Rsign_pos by lra. reflexivity.
    + now rewrite Ropp_0.
    + rewrite (Rsign_pos Hd), Rsign_neg by lra. reflexivity.
  - unfold fabs. f_equal.
    replace (- d / s) with (- (d / s)) by (field; assumption).
    apply Rabs_Ropp.
Qed.

(** X19.  The test does not depend on which group is called the first:
    with the two groups exchanged it returns the same p-value, also where
    that value is not a number. *)
Theorem proportion_z_test_symmetric
    (self : t) (x1 x2 : num) (n1 n2 : Z) (a b : R) :
  (0 < n1)%Z -> (0 < n2)%Z ->
  val x1 = Fin a -> val x2 = Fin b ->
  exists p q : num,
    _proportion_z_test Phi self x1 (int n1) x2 (int n2) = Ok p /\
    _proportion_z_test Phi self x2 (int n2) x1 (int n1) = Ok q /\
    val p = val q.
Proof.
  intros H1 H2 Ea Eb.
  destruct (proportion_z_test_spec Phi self x1 x2 H1 H2) as (p & Hp & Hv).
  destruct (proportion_z_test_spec Phi self x2 x1 H2 H1) as (q & Hq & Hw).
  exists p, q. split; [exact Hp |]. split; [exact Hq |].
  rewrite Hv, Hw, Ea, Eb. apply IZR_lt in H1, H2.
  unfold Spec.pooled_p_value, Spec.SE_null, Spec.p_pooled. fin_arith.
  replace ((b + a) / (IZR n2 + IZR n1) * (1 - (b + a) / (IZR n2 + IZR n1))
           * (1 / IZR n2 + 1 / IZR n1))
    with ((a + b) / (IZR n1 + IZR n2) * (1 - (a + b) / (IZR n1 + IZR n2))
          * (1 / IZR n1 + 1 / IZR n2)) by (field; lra).
  replace (a / IZR n1 - b / IZR n2) with (- (b / IZR n2 - a / IZR n1)) by ring.
  now rewrite fabs_fdiv_opp.
Qed.

Hypothesis Phi_half : Phi 0 = 1 / 2.

(** X20.  Two groups with the same observed rate, not all failures and not
    all successes: the p-value of the analysis is exactly 1, and the
    difference is reported as not significant at every alpha up to 1. *)
Theorem analyze_metric_equal_rates
    (Qf : R -> R) (self : t) (r : MetricReport) (a b al : R) :
  (0 < control_n r)%Z -> (0 < treatment_n r)%Z ->
  val (control_successes r) = Fin a ->
  val (treatment_successes r) = Fin b ->
  a * IZR (treatment_n r) = b * IZR (control_n r) ->
  0 < a + b < IZR (control_n r) + IZR (treatment_n r) ->
  val (alpha self) = Fin al -> al <= 1 ->
  exists rep,
    analyze_metric Phi Qf self r = Ok rep /\
    val (p_value rep) = Fin 1 /\
    statistically_significant rep = false.
Proof.
  intros H1 H2 Ea Eb Hab Hpool Eal Hal.
  destruct (analyze_metric_p_value Phi Qf self r H1 H2) as (rep & Hrep & Hp & Hs).
  exists rep. split; [exact Hrep |].
  apply IZR_lt in H1, H2.
  assert (Hone : val (p_value rep) = Fin 1).
  { rewrite Hp, Ea, Eb. fin_arith.
    rewrite pooled_p_value_Fin by (try apply pooled_variance_pos; lra).
    f_equal.
    replace (b / IZR (treatment_n r) - a / IZR (control_n r)) with 0.
    - unfold Rdiv at 1. rewrite Rmult_0_l, Rabs_R0, Phi_half. lra.
    - apply Rmult_eq_reg_r with (IZR (control_n r) * IZR (treatment_n r));
        [| nra].
      field_simplify; lra. }
  split; [exact Hone |]. rewrite Hs, Hone, Eal. now apply flt_Fin_false.
Qed.

End TestShape.

(** ** From the table to the analysis *)

Section Pipeline.

Variables Phi Qf : R -> R.

Hypothesis Phi_half : Phi 0 = 1 / 2.
Hypothesis Phi_increasing : forall x y, x < y -> Phi x < Phi y.
Hypothesis Phi_le_1 : forall x, Phi x <= 1.
Hypothesis Qf_increasing : forall p q, 0 < p -> p < q -> q < 1 -> Qf p < Qf q.
Hypothesis Qf_symmetric : forall q, 0 < q < 1 -> Qf (1 - q) = - Qf q.

(** What [analyze_metric] copies into its report. *)
Lemma analyze_metric_fields (engine : InferenceEngine.t) (r : MetricReport)
    (rep : InferenceReport) :
  InferenceEngine.analyze_metric Phi Qf engine r = Ok rep ->
  ir_metric_name rep = metric_name r /\
  ir_control_rate rep = control_rate r /\
  ir_treatment_rate rep = treatment_rate r /\
  ir_absolute_lift rep = absolute_lift r /\
  ir_relative_lift_pct rep = relative_lift_pct r /\
  ir_confidence_level rep = InferenceEngine.confidence_level engine /\
  statistically_significant rep = ltb (p_value rep) (InferenceEngine.alpha engine).
Proof.
  unfold InferenceEngine.analyze_metric.
  destruct (InferenceEngine._proportion_diff_ci _ _ _ _ _ _) as [[lo hi] | e];
    [| discriminate].
  cbn [bind].
  destruct (InferenceEngine._proportion_z_test _ _ _ _ _ _) as [p | e];
    [| discriminate].
  cbn [bind]. intro H. injection H as <-. cbn. repeat split; reflexivity.
Qed.

(** X21.  The aggregation followed by the analysis.  On a frame with a
    variant column and a binary outcome column, two groups that are not
    empty, and successes that are neither none nor all of the units, the
    report of the aggregation is analysed without an exception, for every
    alpha in (0,1): the p-value is a real number in [0,1], the interval
    has real bounds around the absolute lift of the report, the flag is
    set exactly when the p-value is below alpha, and the name and the
    lifts are those of the aggregation. *)
Theorem metric_then_analysis
    (engine : InferenceEngine.t) (self : MetricComputer.t)
    (name outcome : string) (a : R) :
  has_column (MetricComputer.df self) "variant" = true ->
  Spec.binary_column (MetricComputer.df self) outcome = true ->
  (0 < Spec.group_n (MetricComputer.df self) "control")%Z ->
  (0 < Spec.group_n (MetricComputer.df self) "treatment")%Z ->
  (0 < Spec.group_successes (MetricComputer.df self) "control" outcome
       + Spec.group_successes (MetricComputer.df self) "treatment" outcome
     < Spec.group_n (MetricComputer.df self) "control"
       + Spec.group_n (MetricComputer.df self) "treatment")%Z ->
  val (InferenceEngine.alpha engine) = Fin a -> 0 < a < 1 ->
  exists (r : MetricReport) (rep : InferenceReport) (p L H lift : R),
    MetricComputer._compute_binary_metric self name outcome = Ok r /\
    InferenceEngine.analyze_metric Phi Qf engine r = Ok rep /\
    val (p_value rep) = Fin p /\ 0 <= p <= 1 /\
    val (ci_lower rep) = Fin L /\ val (ci_upper rep) = Fin H /\
    val (ir_absolute_lift rep) = Fin lift /\ L <= lift <= H /\
    (statistically_significant rep = true <-> p < a) /\
    ir_metric_name rep = name /\
    ir_absolute_lift rep = absolute_lift r /\
    ir_relative_lift_pct rep = relative_lift_pct r.
Proof.
  intros Hv Hb Hn1 Hn2 Hpool Ea Ha.
  destruct (@binary_metric_report self name outcome Hv Hb)
    as (r & Hr & Rname & Rn1 & Rn2 & Rx1 & Rx2 & Rr1 & Rr2 & Rl & _).
  set (n1 := Spec.group_n (MetricComputer.df self) "control") in *.
  set (n2 := Spec.group_n (MetricComputer.df self) "treatment") in *.
  set (x1 := Spec.group_successes (MetricComputer.df self) "control" outcome) in *.
  set (x2 := Spec.group_successes (MetricComputer.df self) "treatment" outcome) in *.
  assert (B1 := group_successes_bounds (MetricComputer.df self) "control" outcome).
  assert (B2 := group_successes_bounds (MetricComputer.df self) "treatment" outcome).
  fold x1 n1 in B1. fold x2 n2 in B2.
  assert (T1 : (0 <? n1)%Z = true) by now apply Z.ltb_lt.
  assert (T2 : (0 <? n2)%Z = true) by now apply Z.ltb_lt.
  rewrite T1 in Rr1. rewrite T2 in Rr2.
  assert (N1 := IZR_lt _ _ Hn1). assert (N2 := IZR_lt _ _ Hn2).
  assert (P1 : 0 <= IZR x1 / IZR n1 <= 1).
  { destruct B1 as [Lo Hi]. apply IZR_le in Lo, Hi. split.
    - apply Rmult_le_pos; [lra | left; now apply Rinv_0_lt_compat].
    - apply Rmult_le_reg_r with (IZR n1); [lra |].
      replace (IZR x1 / IZR n1 * IZR n1) with (IZR x1) by (field; lra). lra. }
  assert (P2 : 0 <= IZR x2 / IZR n2 <= 1).
  { destruct B2 as [Lo Hi]. apply IZR_le in Lo, Hi. split.
    - apply Rmult_le_pos; [lra | left; now apply Rinv_0_lt_compat].
    - apply Rmult_le_reg_r with (IZR n2); [lra |].
      replace (IZR x2 / IZR n2 * IZR n2) with (IZR x2) by (field; lra). lra. }
  assert (Hpool' : 0 < IZR x1 + IZR x2 < IZR (control_n r) + IZR (treatment_n r)).
  { rewrite Rn1, Rn2. destruct Hpool as [Lo Hi].
    apply IZR_lt in Lo, Hi. rewrite plus_IZR in Lo, Hi. rewrite plus_IZR in Hi.
    lra. }
  destruct (@analyze_metric_regular Phi Qf engine r a
              (IZR x1 / IZR n1) (IZR x2 / IZR n2) (IZR x1) (IZR x2))
    as (rep & Hrep & Hlo & Hhi & Hp);
    try (rewrite ?Rn1, ?Rn2, ?Rx1, ?Rx2, ?Rr1, ?Rr2; reflexivity);
    try assumption; try lra; try (rewrite ?Rn1, ?Rn2; assumption).
  destruct (analyze_metric_fields engine r Hrep)
    as (Fname & _ & _ & Flift & Frel & _ & Fsig).
  exists r, rep. eexists _, _, _, (IZR x2 / IZR n2 - IZR x1 / IZR n1).
  split; [exact Hr |]. split; [exact Hrep |].
  split; [exact Hp |]. split.
  { match goal with |- context [Phi (Rabs ?z)] =>
      pose proof (Phi_abs_range Phi Phi_half Phi_increasing Phi_le_1 z) end.
    lra. }
  split; [exact Hlo |]. split; [exact Hhi |]. split.
  { rewrite Flift, Rl, Rr1, Rr2. unfold sub. cbn [val]. now rewrite fsub_Fin. }
  split.
  { assert (Hz := z_crit_pos Qf Qf_increasing Qf_symmetric Ha).
    match goal with |- context [sqrt ?v] =>
      assert (Hs : 0 <= Qf (1 - a / 2) * sqrt v)
        by (apply Rmult_le_pos; [lra | apply sqrt_pos]) end.
    lra. }
  split.
  { rewrite Fsig. unfold ltb. rewrite Hp, Ea.
    match goal with |- flt (Fin ?u) (Fin a) = true <-> _ =>
      destruct (Rlt_dec u a) as [Hlt | Hge];
        [rewrite (flt_Fin_true Hlt); tauto
        | rewrite flt_Fin_false by lra; split; [discriminate | lra]] end. }
  split; [congruence |]. split; assumption.
Qed.

End Pipeline.

(** ** The minimum detectable effect *)

Section MDEShape.

Variable Qf : R -> R.

Import InferenceEngine.

Lemma sqrt_quarter (c : R) : 0 <= c -> sqrt (c / 4) = sqrt c / 2.
Proof.
  intro Hc. apply sqrt_lem_1; [lra | |].
  - assert (H := sqrt_pos c). lra.
  - replace (sqrt c / 2 * (sqrt c / 2)) with (sqrt c * sqrt c / 4) by field.
    now rewrite sqrt_sqrt.
Qed.

(** X22.  Four times the sample size halves the minimum detectable
    effect, whatever the quantile function is: for alpha in (0,2), a
    baseline rate in [0,1], a power in (0,1) and n > 0. *)
Theorem compute_mde_quadruple_halves
    (self : t) (baseline_rate power : num) (a p w : R) (n : Z) :
  val (alpha self) = Fin a -> val baseline_rate = Fin p -> val power = Fin w ->
  0 < a < 2 -> 0 <= p <= 1 -> 0 < w < 1 -> (0 < n)%Z ->
  exists x : R,
    compute_mde Qf self baseline_rate n power = Ok (Num Numpy (Fin x)) /\
    compute_mde Qf self baseline_rate (4 * n) power = Ok (Num Numpy (Fin (x / 2))).
Proof.
  intros Ea Ep Ew Ha Hp Hw Hn.
  rewrite (compute_mde_Fin Qf self baseline_rate power Ea Ep Ew Ha Hp Hw Hn).
  assert (Hn4 : (0 < 4 * n)%Z) by lia.
  rewrite (compute_mde_Fin Qf self baseline_rate power Ea Ep Ew Ha Hp Hw Hn4).
  eexists. split; [reflexivity |]. do 3 f_equal.
  rewrite mult_IZR. apply IZR_lt in Hn.
  replace (2 * p * (1 - p) / (4 * IZR n)) with (2 * p * (1 - p) / IZR n / 4)
    by (field; lra).
  rewrite sqrt_quarter.
  - field.
  - apply Rmult_le_pos; [nra | left; now apply Rinv_0_lt_compat].
Qed.

Hypothesis Qf_increasing : forall p q, 0 < p -> p < q -> q < 1 -> Qf p < Qf q.
Hypothesis Qf_symmetric : forall q, 0 < q < 1 -> Qf (1 - q) = - Qf q.

Lemma sqrt_variance_pos (p : R) (n : Z) :
  0 < p < 1 -> (0 < n)%Z -> 0 < sqrt (2 * p * (1 - p) / IZR n).
Proof.
  intros Hp Hn. apply IZR_lt in Hn. apply sqrt_lt_R0.
  apply Rmult_lt_0_compat; [nra | now apply Rinv_0_lt_compat].
Qed.

(** X23.  The sign of the minimum detectable effect is the sign of
    power - alpha/2: for alpha in (0,1), a baseline rate in (0,1) and
    n > 0 the result is positive for a power above alpha/2, zero at
    alpha/2 and negative below. *)
Theorem compute_mde_sign
    (self : t) (baseline_rate power : num) (a p w : R) (n : Z) :
  val (alpha self) = Fin a -> val baseline_rate = Fin p -> val power = Fin w ->
  0 < a < 1 -> 0 < p < 1 -> 0 < w < 1 -> (0 < n)%Z ->
  exists x : R,
    compute_mde Qf self baseline_rate n power = Ok (Num Numpy (Fin x)) /\
    (a / 2 < w -> 0 < x) /\ (w = a / 2 -> x = 0) /\ (w < a / 2 -> x < 0).
Proof.
  intros Ea Ep Ew Ha Hp Hw Hn.
  rewrite (@compute_mde_Fin Qf self baseline_rate power a p w n)
    by (trivial; lra).
  eexists. split; [reflexivity |].
  assert (Hs := sqrt_variance_pos Hp Hn).
  split; [| split].
  - intro H. apply Rmult_lt_0_compat; [| exact Hs].
    apply (z_sum_pos Qf Qf_increasing Qf_symmetric); lra.
  - intros ->. rewrite Qf_symmetric by lra. ring.
  - intro H.
    assert (Hz : Qf (1 - a / 2) + Qf w < 0)
      by (apply (z_sum_neg Qf Qf_increasing Qf_symmetric); lra).
    nra.
Qed.

(** X24.  The baseline rates p and 1 - p give the same minimum detectable
    effect, and for a power above alpha/2 no baseline rate gives a larger
    one than 1/2. *)
Theorem compute_mde_baseline
    (self : t) (b b' half power : num) (a p w : R) (n : Z) :
  val (alpha self) = Fin a -> val power = Fin w ->
  val b = Fin p -> val b' = Fin (1 - p) -> val half = Fin (1 / 2) ->
  0 < a < 1 -> 0 <= p <= 1 -> a / 2 < w < 1 -> (0 < n)%Z ->
  exists x y : R,
    compute_mde Qf self b n power = Ok (Num Numpy (Fin x)) /\
    compute_mde Qf self b' n power = Ok (Num Numpy (Fin x)) /\
    compute_mde Qf self half n power = Ok (Num Numpy (Fin y)) /\
    x <= y.
Proof.
  intros Ea Ew Eb Eb' Eh Ha Hp Hw Hn.
  rewrite (@compute_mde_Fin Qf self b power a p w n) by (trivial; lra).
  rewrite (@compute_mde_Fin Qf self b' power a (1 - p) w n) by (trivial; lra).
  rewrite (@compute_mde_Fin Qf self half power a (1 / 2) w n) by (trivial; lra).
  eexists _, _. split; [reflexivity |]. split.
  { replace (2 * (1 - p) * (1 - (1 - p))) with (2 * p * (1 - p)) by ring.
    reflexivity. }
  split; [reflexivity |].
  assert (Hz : 0 < Qf (1 - a / 2) + Qf w)
    by (apply (z_sum_pos Qf Qf_increasing Qf_symmetric); lra).
  apply Rmult_le_compat_l; [lra |].
  apply sqrt_le_1_alt. apply IZR_lt in Hn.
  apply Rmult_le_compat_r; [left; now apply Rinv_0_lt_compat |].
  assert (Hq := Rle_0_sqr (p - 1 / 2)). unfold Rsqr in Hq. lra.
Qed.

End MDEShape.

Section InferenceExamples.

Import InferenceEngine Example.

Lemma proportion_diff_ci_around_estimate_witness :
  (0 < 5000)%Z /\ 0 < 1 - 0.95 < 1 /\ 0 <= 0.07 <= 1 /\ 0 <= 0.08 <= 1 /\
  exists (lo hi : num) (L H : R),
    _proportion_diff_ci Qf0 engine (lit 0.07) (int 5000) (lit 0.08) (int 5000)
      = Ok (lo, hi) /\
    val lo = Fin L /\ val hi = Fin H /\
    L <= 0.08 - 0.07 <= H /\ L <> H.
Proof.
  split; [reflexivity |]. split; [lra |]. split; [lra |]. split; [lra |].
  destruct (@proportion_diff_ci_around_estimate Qf0 Qf0_increasing Qf0_symmetric
              engine (lit 0.07) (lit 0.08) 5000 5000 (1 - 0.95) 0.07 0.08)
    as (lo & hi & L & H & Hci & Hlo & Hhi & Hin & _ & Heq);
    try reflexivity; try lra; [exact engine_alpha |].
  exists lo, hi, L, H. repeat split; try assumption; lra.
Defined.

Lemma proportion_z_test_symmetric_witness :
  (0 < 5000)%Z /\
  exists p q : num,
    _proportion_z_test Phi0 engine (int 350) (int 5000) (int 400) (int 5000)
      = Ok p /\
    _proportion_z_test Phi0 engine (int 400) (int 5000) (int 350) (int 5000)
      = Ok q /\
    val p = val q.
Proof.
  split; [reflexivity |].
  apply (@proportion_z_test_symmetric Phi0 engine (int 350) (int 400) 5000 5000
           350 400); reflexivity.
Defined.

Lemma analyze_metric_equal_rates_witness :
  (0 < control_n matched_report)%Z /\ (0 < treatment_n matched_report)%Z /\
  1 - 0.95 <= 1 /\
  exists rep,
    analyze_metric Phi0 Qf0 engine matched_report = Ok rep /\
    val (p_value rep) = Fin 1 /\
    statistically_significant rep = false.
Proof.
  split; [reflexivity |]. split; [reflexivity |]. split; [lra |].
  apply (@analyze_metric_equal_rates Phi0 Phi0_half Qf0 engine matched_report
           350 350 (1 - 0.95));
    try reflexivity; try exact engine_alpha; cbn; lra.
Defined.

Lemma metric_then_analysis_witness :
  has_column frame "variant" = true /\
  Spec.binary_column frame "clicked" = true /\
  (0 < Spec.group_n frame "control")%Z /\
  (0 < Spec.group_n frame "treatment")%Z /\
  exists (r : MetricReport) (rep : InferenceReport) (p L H lift : R),
    MetricComputer._compute_binary_metric
      {| MetricComputer.df := frame; MetricComputer.eligible_only := false |}
      "CTR" "clicked" = Ok r /\
    analyze_metric Phi0 Qf0 engine r = Ok rep /\
    val (p_value rep) = Fin p /\ 0 <= p <= 1 /\
    val (ci_lower rep) = Fin L /\ val (ci_upper rep) = Fin H /\
    val (ir_absolute_lift rep) = Fin lift /\ L <= lift <= H.
Proof.
  split; [reflexivity |]. split; [reflexivity |]. split; [reflexivity |].
  split; [reflexivity |].
  destruct (@metric_then_analysis Phi0 Qf0 Phi0_half Phi0_increasing Phi0_le_1
              Qf0_increasing Qf0_symmetric engine
              {| MetricComputer.df := frame; MetricComputer.eligible_only := false |}
              "CTR" "clicked" (1 - 0.95) eq_refl eq_refl eq_refl eq_refl)
    as (r & rep & p & L & H & lift & H1 & H2 & H3 & H4 & H5 & H6 & H7 & H8 & _);
    [split; reflexivity | exact engine_alpha | lra |].
  exists r, rep, p, L, H, lift. repeat split; try assumption; lra.
Defined.

Lemma compute_mde_quadruple_halves_witness :
  0 < 1 - 0.95 < 2 /\ 0 <= 0.035 <= 1 /\ 0 < 0.8 < 1 /\ (0 < 25000)%Z /\
  exists x : R,
    compute_mde Qf0 engine (lit 0.035) 25000 (lit 0.8) = Ok (Num Numpy (Fin x)) /\
    compute_mde Qf0 engine (lit 0.035) 100000 (lit 0.8)
      = Ok (Num Numpy (Fin (x / 2))).
Proof.
  split; [lra |]. split; [lra |]. split; [lra |]. split; [reflexivity |].
  apply (@compute_mde_quadruple_halves Qf0 engine (lit 0.035) (lit 0.8)
           (1 - 0.95) 0.035 0.8 25000);
    try reflexivity; try exact engine_alpha; lra.
Defined.

Lemma compute_mde_sign_witness :
  0 < 1 - 0.95 < 1 /\ 0 < 0.035 < 1 /\ 0 < 0.8 < 1 /\ (0 < 25000)%Z /\
  exists x : R,
    compute_mde Qf0 engine (lit 0.035) 25000 (lit 0.8) = Ok (Num Numpy (Fin x)) /\
    0 < x.
Proof.
  split; [lra |]. split; [lra |]. split; [lra |]. split; [reflexivity |].
  destruct (@compute_mde_sign Qf0 Qf0_increasing Qf0_symmetric engine
              (lit 0.035) (lit 0.8) (1 - 0.95) 0.035 0.8 25000)
    as (x & Hx & Hpos & _);
    try reflexivity; try exact engine_alpha; try lra.
  exists x. split; [exact Hx |]. apply Hpos. lra.
Defined.

Lemma compute_mde_baseline_witness :
  0 < 1 - 0.95 < 1 /\ 0 <= 0.035 <= 1 /\ (1 - 0.95) / 2 < 0.8 < 1 /\
  (0 < 25000)%Z /\
  exists x y : R,
    compute_mde Qf0 engine (lit 0.035) 25000 (lit 0.8) = Ok (Num Numpy (Fin x)) /\
    compute_mde Qf0 engine (lit (1 - 0.035)) 25000 (lit 0.8)
      = Ok (Num Numpy (Fin x)) /\
    compute_mde Qf0 engine (lit (1 / 2)) 25000 (lit 0.8)
      = Ok (Num Numpy (Fin y)) /\
    x <= y.
Proof.
  split; [lra |]. split; [lra |]. split; [lra |]. split; [reflexivity |].
  apply (@compute_mde_baseline Qf0 Qf0_increasing Qf0_symmetric engine
           (lit 0.035) (lit (1 - 0.035)) (lit (1 / 2)) (lit 0.8)
           (1 - 0.95) 0.035 0.8 25000);
    try reflexivity; try exact engine_alpha; lra.
Defined.

End InferenceExamples.

(** ** The decision of the summary *)

Section Decision.

Import ReportBuilder.

Lemma fle_Fin (x y : R) : fle (Fin x) (Fin y) = true <-> x <= y.
Proof.
  unfold fle. destruct (Rle_dec x y); split; trivial; try discriminate.
  contradiction.
Qed.

Lemma flt_Fin_iff (x y : R) : flt (Fin x) (Fin y) = true <-> x < y.
Proof.
  destruct (Rlt_dec x y) as [H | H].
  - rewrite (flt_Fin_true H). tauto.
  - rewrite flt_Fin_false by lra. split; [discriminate | contradiction].
Qed.

(** X25.  The decision of the executive summary for a conversion report
    with a real lift and a real lower bound, against a real threshold:
    SHIP exactly when the lower bound is at least the threshold and the
    lift is positive, HOLD exactly when the lift is positive and the lower
    bound is below the threshold, DO NOT SHIP exactly when the lift is not
    positive. *)
Theorem summary_decision_cases
    (threshold : num) (cvr : InferenceReport) (tau c l : R) :
  val threshold = Fin tau ->
  val (ci_lower cvr) = Fin c ->
  val (ir_absolute_lift cvr) = Fin l ->
  (decision threshold cvr = SHIP <-> tau <= c /\ 0 < l) /\
  (decision threshold cvr = HOLD <-> c < tau /\ 0 < l) /\
  (decision threshold cvr = DO_NOT_SHIP <-> l <= 0).
Proof.
  intros Et Ec El. unfold decision, geb, gtb. rewrite Et, Ec, El.
  cbn [val int].
  destruct (fle (Fin tau) (Fin c)) eqn:A; destruct (flt (Fin 0) (Fin l)) eqn:B;
    cbn [andb];
    try (apply fle_Fin in A); try (apply flt_Fin_iff in B);
    try (assert (A' : ~ tau <= c)
           by (intro K; apply fle_Fin in K; congruence));
    try (assert (B' : ~ 0 < l)
           by (intro K; apply flt_Fin_iff in K; congruence));
    repeat split; intros; try discriminate; try lra; try reflexivity.
Qed.

Lemma next_steps_of_decisions :
  next_steps SHIP = rollout_steps /\
  next_steps HOLD = investigation_steps /\
  next_steps DO_NOT_SHIP = rollout_steps.
Proof. repeat split; reflexivity. Qed.

Lemma steps_differ : rollout_steps <> investigation_steps.
Proof. intro H. vm_compute in H. discriminate H. Qed.

(** X26.  The next steps of the summary are chosen by the test
    ["SHIP" in decision], and the text of the decision DO NOT SHIP contains
    SHIP: whatever the threshold and the report are, the summary gives the
    steps of the investigation exactly when the decision is HOLD, and the
    steps of the rollout exactly when it is SHIP or DO NOT SHIP, so in
    particular whenever the lift is not positive or not a number. *)
Theorem summary_next_steps (threshold : num) (cvr : InferenceReport) :
  (next_steps (decision threshold cvr) = investigation_steps <->
   decision threshold cvr = HOLD) /\
  (next_steps (decision threshold cvr) = rollout_steps <->
   decision threshold cvr = SHIP \/ decision threshold cvr = DO_NOT_SHIP) /\
  (gtb (ir_absolute_lift cvr) (int 0) = false ->
   decision threshold cvr = DO_NOT_SHIP /\
   next_steps (decision threshold cvr) = rollout_steps).
Proof.
  destruct next_steps_of_decisions as (NS & NH & ND).
  assert (Hd := steps_differ).
  assert (D1 : SHIP <> HOLD) by discriminate.
  assert (D2 : DO_NOT_SHIP <> HOLD) by discriminate.
  assert (D3 : HOLD <> SHIP) by discriminate.
  assert (D4 : HOLD <> DO_NOT_SHIP) by discriminate.
  unfold decision.
  destruct (geb (ci_lower cvr) threshold);
    destruct (gtb (ir_absolute_lift cvr) (int 0)); cbn [andb];
    rewrite ?NS, ?NH, ?ND; repeat split; intros;
    try discriminate; try congruence; try tauto; auto.
Qed.

(** X27.  At the configured threshold 0.0 the one-pager and the executive
    summary agree on shipping: the one-pager prints its SHIP line exactly
    when the decision of the summary is SHIP, for every report, the ones
    with numbers that are not real included. *)
Theorem one_pager_agrees_with_summary (cvr : InferenceReport) :
  one_pager_decision cvr = "✓ SHIP"%string <->
  decision MIN_ACCEPTABLE_CVR_LIFT cvr = SHIP.
Proof.
  unfold one_pager_decision, decision.
  assert (E : geb (ci_lower cvr) MIN_ACCEPTABLE_CVR_LIFT
              = geb (ci_lower cvr) (int 0)).
  { unfold geb, MIN_ACCEPTABLE_CVR_LIFT, lit, int. cbn [val].
    replace 0.0 with 0 by lra. reflexivity. }
  rewrite E.
  destruct (geb (ci_lower cvr) (int 0) && gtb (ir_absolute_lift cvr) (int 0)).
  - split; reflexivity.
  - split; [discriminate |].
    destruct (gtb (ir_absolute_lift cvr) (int 0)); discriminate.
Qed.

End Decision.

(** ** The generated outcomes *)

Section GeneratedOutcomes.

Import ExperimentDataGenerator.

Variable S : Type.
Variable default_rng : Z -> S.
Variable random : S -> R * S.

Lemma trial_funnel (cfg : Config) (g : S) (u : row) :
  snd (fst (trial random cfg g u)) = true ->
  fst (fst (trial random cfg g u)) = true.
Proof.
  unfold trial. destruct (rates cfg _ _) as [ctr cvr].
  destruct (random g) as [x g1].
  destruct (Rltb x ctr); [| discriminate].
  destruct (random g1) as [y g2]. reflexivity.
Qed.

Lemma trials_outcomes (cfg : Config) (l : list row) (g : S) :
  Forall2 Data.outcome_of l (fst (trials random cfg g l)).
Proof.
  revert g. induction l as [| u l IH]; intro g; cbn [trials].
  - constructor.
  - pose proof (trial_funnel cfg g u) as Hf.
    destruct (trial random cfg g u) as [[clicked converted] g1].
    specialize (IH g1). destruct (trials random cfg g1 l) as [l' g2].
    cbn [fst snd] in *. constructor; [| exact IH].
    exists clicked, converted. now split.
Qed.

Lemma has_column_add (cols : list string) (col c : string) :
  existsb (String.eqb c) (add_column cols col)
  = existsb (String.eqb c) cols || String.eqb c col.
Proof.
  unfold add_column. destruct (existsb (String.eqb col) cols) eqn:E.
  - destruct (String.eqb c col) eqn:K; [| now rewrite orb_false_r].
    apply String.eqb_eq in K. subst c. now rewrite E.
  - rewrite existsb_app. cbn [existsb]. now rewrite orb_false_r.
Qed.

Lemma generate_outcomes_rows (cfg : Config) (self : t S) (df : DataFrame) :
  has_column df "variant" = true ->
  has_column df "device_category" = true ->
  exists (df' : DataFrame) (self' : t S),
    _generate_outcomes random cfg self df = Ok (df', self') /\
    columns df' = add_column (add_column (columns df) "clicked") "converted" /\
    Forall2 Data.outcome_of (rows df) (rows df').
Proof.
  intros Hv Hd. unfold _generate_outcomes. rewrite Hv, Hd.
  destruct (rows df) as [| u l] eqn:E.
  - eexists _, _. split; [reflexivity |]. split; [reflexivity | constructor].
  - pose proof (trials_outcomes cfg (u :: l) (rng self)) as H.
    destruct (trials random cfg (rng self) (u :: l)) as [l' g].
    eexists _, _. split; [reflexivity |]. split; [reflexivity | exact H].
Qed.

Lemma outcome_of_columns (u u' : row) :
  Data.outcome_of u u' ->
  (exists b, u' "clicked"%string = Bool b) /\
  (exists b, u' "converted"%string = Bool b) /\
  (u' "converted"%string = Bool true -> u' "clicked"%string = Bool true) /\
  (forall col, col <> "clicked"%string -> col <> "converted"%string ->
               u' col = u col).
Proof.
  intros (k & c & -> & Hf). unfold set_outcome. cbn.
  split; [now exists k |]. split; [now exists c |]. split.
  - intro H. injection H as ->. now rewrite Hf.
  - intros col H1 H2.
    apply String.eqb_neq in H1, H2. now rewrite H1, H2.
Qed.

Lemma Forall2_forallb_r (A B : Type) (P : A -> B -> Prop) (f : B -> bool)
    (l : list A) (l' : list B) :
  Forall2 P l l' -> (forall a b, P a b -> f b = true) -> forallb f l' = true.
Proof.
  intros H Hf. induction H as [| a b l l' Hab _ IH]; cbn; trivial.
  now rewrite (Hf a b Hab), IH.
Qed.

Lemma Forall2_filter_length (A : Type) (P : A -> A -> Prop) (f : A -> bool)
    (l l' : list A) :
  Forall2 P l l' -> (forall a b, P a b -> f b = f a) ->
  length (filter f l') = length (filter f l).
Proof.
  intros H Hf. induction H as [| a b l l' Hab _ IH]; cbn; trivial.
  rewrite (Hf a b Hab). destruct (f a); cbn; now rewrite IH.
Qed.

(** X28.  On a frame with the columns [variant] and [device_category]
    the generation of the outcomes raises nothing, whatever the random
    numbers and the configured rates are.  It returns a frame with the same
    number of rows in which [clicked] and [converted] are columns of
    booleans, every converted user has clicked, and every other cell is
    the one of the frame it was given. *)
Theorem generate_outcomes_funnel (cfg : Config) (self : t S) (df : DataFrame) :
  has_column df "variant" = true ->
  has_column df "device_category" = true ->
  exists (df' : DataFrame) (self' : t S),
    _generate_outcomes random cfg self df = Ok (df', self') /\
    len df' = len df /\
    Spec.binary_column df' "clicked" = true /\
    Spec.binary_column df' "converted" = true /\
    (forall u : row, In u (rows df') ->
       u "converted"%string = Bool true -> u "clicked"%string = Bool true) /\
    (forall c : string, has_column df c = true -> has_column df' c = true) /\
    Forall2 (fun u u' : row =>
               forall col, col <> "clicked"%string -> col <> "converted"%string ->
                           u' col = u col)
            (rows df) (rows df').
Proof.
  intros Hv Hd.
  destruct (generate_outcomes_rows cfg self df Hv Hd)
    as (df' & self' & Hgen & Hcols & Hrows).
  exists df', self'. split; [exact Hgen |].
  split; [unfold len; now rewrite (Forall2_length Hrows) |].
  assert (Hbin : forall col, col = "clicked"%string \/ col = "converted"%string ->
                 Spec.binary_column df' col = true).
  { intros col Hcol. unfold Spec.binary_column, has_column.
    rewrite Hcols, !has_column_add. apply andb_true_iff. split.
    - destruct Hcol as [-> | ->]; cbn; now rewrite ?orb_true_r.
    - apply (Forall2_forallb_r _ Hrows). intros u u' Hu.
      destruct (outcome_of_columns Hu) as ((k & Hk) & (c & Hc) & _).
      destruct Hcol as [-> | ->]; [now rewrite Hk | now rewrite Hc]. }
  split; [apply Hbin; now left |]. split; [apply Hbin; now right |].
  split; [| split].
  - intros u' Hin. clear Hgen Hbin.
    induction Hrows as [| u v l l' Huv _ IH]; [contradiction |].
    destruct Hin as [<- | Hin]; [| now apply IH].
    now destruct (outcome_of_columns Huv) as (_ & _ & Hf & _).
  - intros c Hc. unfold has_column in *. rewrite Hcols, !has_column_add.
    now rewrite Hc.
  - eapply Forall2_impl; [| exact Hrows]. intros u u' Hu.
    now destruct (outcome_of_columns Hu) as (_ & _ & _ & Hsame).
Qed.

(** Two binary columns of which one implies the other. *)
Lemma binary_metric_rates_le (self : MetricComputer.t) (na nb a b : string) :
  has_column (MetricComputer.df self) "variant" = true ->
  Spec.binary_column (MetricComputer.df self) a = true ->
  Spec.binary_column (MetricComputer.df self) b = true ->
  (forall u : row, In u (rows (MetricComputer.df self)) ->
     u a = Bool true -> u b = Bool true) ->
  exists (ra rb : MetricReport) (c1 c2 t1 t2 : R),
    MetricComputer._compute_binary_metric self na a = Ok ra /\
    MetricComputer._compute_binary_metric self nb b = Ok rb /\
    control_n ra = Spec.group_n (MetricComputer.df self) "control" /\
    treatment_n ra = Spec.group_n (MetricComputer.df self) "treatment" /\
    control_n rb = control_n ra /\ treatment_n rb = treatment_n ra /\
    val (control_rate ra) = Fin c1 /\ val (control_rate rb) = Fin c2 /\
    val (treatment_rate ra) = Fin t1 /\ val (treatment_rate rb) = Fin t2 /\
    c1 <= c2 /\ t1 <= t2.
Proof.
  intros Hv Ha Hb Hf.
  destruct (@binary_metric_report self na a Hv Ha)
    as (ra & Hra & _ & An1 & An2 & _ & _ & Ar1 & Ar2 & _).
  destruct (@binary_metric_report self nb b Hv Hb)
    as (rb & Hrb & _ & Bn1 & Bn2 & _ & _ & Br1 & Br2 & _).
  assert (Hle : forall v,
    (0 <= Spec.group_successes (MetricComputer.df self) v a
       <= Spec.group_successes (MetricComputer.df self) v b)%Z).
  { intro v. unfold Spec.group_successes. split; [lia |].
    apply inj_le. apply filter_length_le_impl. intros u Hu H.
    apply andb_true_iff in H as [Hg Hs]. apply same_true in Hs.
    rewrite Hg. cbn [andb]. apply same_true. now apply Hf. }
  destruct (guarded_rate_le (Spec.group_n (MetricComputer.df self) "control")
              (Hle "control"%string)) as (c1 & c2 & E1 & E2 & Hc12).
  destruct (guarded_rate_le (Spec.group_n (MetricComputer.df self) "treatment")
              (Hle "treatment"%string)) as (t1 & t2 & E3 & E4 & Ht12).
  exists ra, rb, c1, c2, t1, t2. rewrite Ar1, Br1, Ar2, Br2.
  repeat split; try assumption; congruence.
Qed.

(** X29.  The generated outcomes through the aggregation.  On the frame
    the generation of the outcomes returns, the click-through and the
    conversion report are computed without an exception; their groups are
    the two variants of the frame given to the generator, and in each
    group the conversion rate is at most the click-through rate, whatever
    the random numbers were. *)
Theorem generated_cvr_at_most_ctr (cfg : Config) (self : t S) (df : DataFrame) :
  has_column df "variant" = true ->
  has_column df "device_category" = true ->
  exists (df' : DataFrame) (self' : t S) (ctr cvr : MetricReport)
         (c1 c2 t1 t2 : R),
    _generate_outcomes random cfg self df = Ok (df', self') /\
    MetricComputer.compute_ctr
      {| MetricComputer.df := df'; MetricComputer.eligible_only := false |}
      = Ok ctr /\
    MetricComputer.compute_cvr
      {| MetricComputer.df := df'; MetricComputer.eligible_only := false |}
      = Ok cvr /\
    control_n ctr = Spec.group_n df "control" /\
    treatment_n ctr = Spec.group_n df "treatment" /\
    control_n cvr = control_n ctr /\ treatment_n cvr = treatment_n ctr /\
    val (control_rate cvr) = Fin c1 /\ val (control_rate ctr) = Fin c2 /\
    val (treatment_rate cvr) = Fin t1 /\ val (treatment_rate ctr) = Fin t2 /\
    c1 <= c2 /\ t1 <= t2.
Proof.
  intros Hv Hd.
  destruct (generate_outcomes_rows cfg self df Hv Hd)
    as (df' & self' & Hgen & Hcols & Hrows).
  set (mc := {| MetricComputer.df := df'; MetricComputer.eligible_only := false |}).
  assert (Hv' : has_column (MetricComputer.df mc) "variant" = true).
  { cbn [MetricComputer.df mc]. unfold has_column in *.
    rewrite Hcols, !has_column_add. now rewrite Hv. }
  assert (Hbin : forall col, col = "clicked"%string \/ col = "converted"%string ->
                 Spec.binary_column (MetricComputer.df mc) col = true).
  { intros col Hcol. cbn [MetricComputer.df mc].
    unfold Spec.binary_column, has_column.
    rewrite Hcols, !has_column_add. apply andb_true_iff. split.
    - destruct Hcol as [-> | ->]; cbn; now rewrite ?orb_true_r.
    - apply (Forall2_forallb_r _ Hrows). intros u u' Hu.
      destruct (outcome_of_columns Hu) as ((k & Hk) & (c & Hc) & _).
      destruct Hcol as [-> | ->]; [now rewrite Hk | now rewrite Hc]. }
  assert (Hf : forall u : row, In u (rows (MetricComputer.df mc)) ->
                 u "converted"%string = Bool true ->
                 u "clicked"%string = Bool true).
  { cbn [MetricComputer.df mc]. intros u' Hin. clear Hgen Hbin.
    induction Hrows as [| u v l l' Huv _ IH]; [contradiction |].
    destruct Hin as [<- | Hin]; [| now apply IH].
    now destruct (outcome_of_columns Huv) as (_ & _ & Hfun & _). }
  destruct (@binary_metric_rates_le mc "CVR" "CTR" "converted" "clicked" Hv'
              (Hbin _ (or_intror eq_refl)) (Hbin _ (or_introl eq_refl)) Hf)
    as (cvr & ctr & c1 & c2 & t1 & t2 & Hcvr & Hctr & N1 & N2 & N3 & N4 & R1 & R2
        & R3 & R4 & L1 & L2).
  assert (Hgroup : forall v, Spec.group_n df' v = Spec.group_n df v).
  { intro v. unfold Spec.group_n. f_equal.
    apply (Forall2_filter_length (Spec.in_group v) Hrows).
    intros u u' Hu. destruct (outcome_of_columns Hu) as (_ & _ & _ & Hsame).
    unfold Spec.in_group. rewrite Hsame; [reflexivity | |]; discriminate. }
  cbn [MetricComputer.df mc] in N1, N2.
  exists df', self', ctr, cvr, c1, c2, t1, t2.
  split; [exact Hgen |]. split; [exact Hctr |]. split; [exact Hcvr |].
  rewrite <- !Hgroup. repeat split; try assumption; congruence.
Qed.

(** X30.  [n_users or config.N_USERS] and [seed or config.RANDOM_SEED]: a
    generator asked for the seed 0 is the generator of the configured seed,
    42 in the configuration of the repository, and one asked for 0 users
    generates the configured number of them; a positive seed and a number
    of users other than 0 are taken as given. *)
Theorem generator_zero_is_default (cfg : Config) (n_users seed : option Z) :
  __init__ default_rng cfg n_users (Some 0%Z) = __init__ default_rng cfg n_users None /\
  __init__ default_rng cfg (Some 0%Z) seed = __init__ default_rng cfg None seed /\
  ExperimentDataGenerator.seed
    (__init__ default_rng default_config n_users (Some 0%Z)) = 42%Z /\
  (forall n s : Z, n <> 0%Z -> (0 < s)%Z ->
     __init__ default_rng cfg (Some n) (Some s)
     = {| ExperimentDataGenerator.n_users := n;
          ExperimentDataGenerator.seed := s;
          rng := default_rng s |}).
Proof.
  repeat split.
  intros n s Hn Hs. unfold __init__, or_default.
  assert (Hs' : s <> 0%Z) by lia.
  apply Z.eqb_neq in Hn, Hs'. now rewrite Hn, Hs'.
Qed.

End GeneratedOutcomes.

Section ReportingExamples.

Import ReportBuilder ExperimentDataGenerator Example.

Lemma summary_decision_cases_witness :
  val MIN_ACCEPTABLE_CVR_LIFT = Fin 0.0 /\
  val (ci_lower cvr_inference) = Fin 0.0005 /\
  val (ir_absolute_lift cvr_inference) = Fin 0.008 /\
  decision MIN_ACCEPTABLE_CVR_LIFT cvr_inference = SHIP.
Proof.
  split; [reflexivity |]. split; [reflexivity |]. split; [reflexivity |].
  apply (@summary_decision_cases MIN_ACCEPTABLE_CVR_LIFT cvr_inference
           0.0 0.0005 0.008 eq_refl eq_refl eq_refl).
  lra.
Defined.

Lemma generate_outcomes_funnel_witness :
  has_column frame "variant" = true /\
  has_column frame "device_category" = true /\
  exists (df' : DataFrame) (self' : t nat),
    _generate_outcomes counting_random default_config generator frame
      = Ok (df', self') /\
    len df' = 4%Z /\
    Spec.binary_column df' "clicked" = true /\
    Spec.binary_column df' "converted" = true /\
    (forall u : row, In u (rows df') ->
       u "converted"%string = Bool true -> u "clicked"%string = Bool true).
Proof.
  split; [reflexivity |]. split; [reflexivity |].
  destruct (@generate_outcomes_funnel nat counting_random default_config
              generator frame eq_refl eq_refl)
    as (df' & self' & H1 & H2 & H3 & H4 & H5 & _).
  exists df', self'. repeat split; assumption.
Defined.

Lemma generated_cvr_at_most_ctr_witness :
  has_column frame "variant" = true /\
  has_column frame "device_category" = true /\
  exists (df' : DataFrame) (self' : t nat) (ctr cvr : MetricReport)
         (c1 c2 t1 t2 : R),
    _generate_outcomes counting_random default_config generator frame
      = Ok (df', self') /\
    MetricComputer.compute_ctr
      {| MetricComputer.df := df'; MetricComputer.eligible_only := false |}
      = Ok ctr /\
    MetricComputer.compute_cvr
      {| MetricComputer.df := df'; MetricComputer.eligible_only := false |}
      = Ok cvr /\
    control_n ctr = 2%Z /\ treatment_n ctr = 2%Z /\
    val (control_rate cvr) = Fin c1 /\ val (control_rate ctr) = Fin c2 /\
    val (treatment_rate cvr) = Fin t1 /\ val (treatment_rate ctr) = Fin t2 /\
    c1 <= c2 /\ t1 <= t2.
Proof.
  split; [reflexivity |]. split; [reflexivity |].
  destruct (@generated_cvr_at_most_ctr nat counting_random default_config
              generator frame eq_refl eq_refl)
    as (df' & self' & ctr & cvr & c1 & c2 & t1 & t2 & H1 & H2 & H3 & H4 & H5
        & _ & _ & H6 & H7 & H8 & H9 & H10 & H11).
  exists df', self', ctr, cvr, c1, c2, t1, t2. repeat split; assumption.
Defined.

End ReportingExamples.
